(** * mcp-nfse-nacional: the NFSe retrieval and normalisation pipeline

    A shallow embedding of [src/nfse.ts] (login, buscar_nfse, getNested and
    their helpers) and of the session wrapper of [index.ts]
    (ensureAuthenticated, withAutoLogin), with the properties of the
    repository's specification stated and proved over it.

    Conventions of the embedding:
    - a JavaScript exception is a value of [Exn]; a call that may throw
      returns a [Res];
    - asynchronous functions are run to completion in program order
      (every [await] is sequential in the source), as state-passing
      functions over the outside world;
    - strings are [string]s of bytes.  The whitespace of [Str] ([trim],
      [\s], the skip of [parseFloat]) is the ASCII one, which is
      JavaScript's on ASCII text; a statement that needs the two to agree
      says that its text is ASCII ([AsciiText]);
    - dates: [Dates] and [Crawler] are the date arithmetic of a time zone
      whose offset never changes; [Zoned] is the same code in any time
      zone, and [ZonedFacts.steady_crawl] relates the two;
    - property reads: [Nested] reads own properties, which is all there is
      to read for a name no prototype defines; [Proto] is the same code
      with the prototype chain, and [ProtoFacts.walk_own] relates the
      two. *)

From Stdlib Require Import ZArith List String Ascii Bool Lia QArith DecimalString.
Import ListNotations.
Open Scope string_scope.
Open Scope Z_scope.
Set Warnings "-register-all".

(** ** Exceptions ([src/exceptions.ts]) *)

(** [UnauthenticatedSessionException] extends [ApplicationException];
    [JsError] stands for every other [Error] (AxiosError, TypeError, ...). *)
Inductive Exn : Type :=
| ApplicationException (message : string)
| UnauthenticatedSessionException
| JsError (message : string).

Inductive Res (A : Type) : Type :=
| Ok (a : A)
| Throw (e : Exn).
Arguments Ok {A} a.
Arguments Throw {A} e.

(** [error instanceof UnauthenticatedSessionException] *)
Definition is_unauthenticated (e : Exn) : bool :=
  match e with UnauthenticatedSessionException => true | _ => false end.

(** [error instanceof ApplicationException] (true for the subclass too) *)
Definition is_application (e : Exn) : bool :=
  match e with JsError _ => false | _ => true end.

(** [error instanceof Error ? error.message : String(error)] *)
Definition error_message (e : Exn) : string :=
  match e with
  | ApplicationException m => m
  | UnauthenticatedSessionException => "Sessão não autenticada ou expirada."
  | JsError m => m
  end.

(** ** String helpers mirroring the JavaScript string methods in use *)

Module Str.

(** [hay.startsWith(needle)] *)
Fixpoint startsWith (needle hay : string) : bool :=
  match needle, hay with
  | EmptyString, _ => true
  | String a n', String b h' => Ascii.eqb a b && startsWith n' h'
  | String _ _, EmptyString => false
  end.

(** [hay.includes(needle)] *)
Fixpoint includes (needle hay : string) : bool :=
  startsWith needle hay ||
  match hay with
  | EmptyString => false
  | String _ h' => includes needle h'
  end.

Fixpoint rev_onto (s acc : string) : string :=
  match s with
  | EmptyString => acc
  | String c s' => rev_onto s' (String c acc)
  end.

Definition rev (s : string) : string := rev_onto s EmptyString.

(** [s.endsWith(suffix)] *)
Definition endsWith (suffix s : string) : bool :=
  startsWith (rev suffix) (rev s).

Fixpoint drop (n : nat) (s : string) : string :=
  match n, s with
  | O, _ => s
  | S n', String _ s' => drop n' s'
  | S _, EmptyString => EmptyString
  end.

Definition is_digit (c : ascii) : bool :=
  let n := nat_of_ascii c in (48 <=? n)%nat && (n <=? 57)%nat.

(** the class [\s], ASCII part: TAB, LF, VT, FF, CR and space.  The
    other members of the class (U+00A0, U+FEFF, the Unicode spaces) are
    not ASCII. *)
Definition is_space (c : ascii) : bool :=
  let n := nat_of_ascii c in
  ((9 <=? n)%nat && (n <=? 13)%nat) || (n =? 32)%nat.

Fixpoint take_while (p : ascii -> bool) (s : string) : string :=
  match s with
  | EmptyString => EmptyString
  | String c s' => if p c then String c (take_while p s') else EmptyString
  end.

Fixpoint drop_while (p : ascii -> bool) (s : string) : string :=
  match s with
  | EmptyString => EmptyString
  | String c s' => if p c then drop_while p s' else s
  end.

Fixpoint all_chars (p : ascii -> bool) (s : string) : bool :=
  match s with
  | EmptyString => true
  | String c s' => p c && all_chars p s'
  end.

(** [s.trim()] *)
Definition trim (s : string) : string :=
  rev (drop_while is_space (rev (drop_while is_space s))).

(** [s.replace(/c/g, '')] for a single character [c] *)
Fixpoint remove_all (c : ascii) (s : string) : string :=
  match s with
  | EmptyString => EmptyString
  | String a s' =>
      if Ascii.eqb a c then remove_all c s' else String a (remove_all c s')
  end.

(** [s.replace(c, d)] with a one-character string pattern: only the first
    occurrence is replaced *)
Fixpoint replace_first_char (c d : ascii) (s : string) : string :=
  match s with
  | EmptyString => EmptyString
  | String a s' =>
      if Ascii.eqb a c then String d s' else String a (replace_first_char c d s')
  end.

(** [s.replace(pat, '')] with a string pattern: the first occurrence of
    [pat] is removed *)
Fixpoint remove_first (pat s : string) : string :=
  if startsWith pat s then drop (String.length pat) s
  else match s with
       | EmptyString => EmptyString
       | String a s' => String a (remove_first pat s')
       end.

(** [s.replace(/\s+/g, ' ')]: [in_run] tells that the previous character
    was already part of a whitespace run *)
Fixpoint collapse_spaces_from (in_run : bool) (s : string) : string :=
  match s with
  | EmptyString => EmptyString
  | String a s' =>
      if is_space a
      then (if in_run then collapse_spaces_from true s'
            else String " "%char (collapse_spaces_from true s'))
      else String a (collapse_spaces_from false s')
  end.

Definition collapse_spaces (s : string) : string := collapse_spaces_from false s.

(** [s.split(sep)] for a one-character separator; never the empty list *)
Fixpoint split_from (sep : ascii) (cur : string) (s : string) : list string :=
  match s with
  | EmptyString => [rev cur]
  | String a s' =>
      if Ascii.eqb a sep then rev cur :: split_from sep EmptyString s'
      else split_from sep (String a cur) s'
  end.

Definition split (sep : ascii) (s : string) : list string :=
  split_from sep EmptyString s.

(** [parts.join(sep)] *)
Fixpoint join (sep : string) (parts : list string) : string :=
  match parts with
  | [] => EmptyString
  | [p] => p
  | p :: rest => p ++ sep ++ join sep rest
  end.

End Str.

(** ** The nested path extractor ([getNested], nfse.ts 266-288) *)

Module Nested.

(** The values [getNested] walks over: what [xml2js] produces (strings,
    arrays, objects) and the other JavaScript values its parameter of
    type [unknown] admits.  An object is its list of own properties; a
    lookup takes the first binding of a name.  The own properties [length]
    and the indices of arrays and strings are modelled (a string being
    its bytes); the properties inherited from the prototypes ([toString],
    [constructor], ...) are left to [Proto]. *)
Inductive JsValue : Type :=
| JNull
| JUndefined
| JBool (b : bool)
| JNumber (n : Z)
| JString (s : string)
| JArray (items : list JsValue)
| JObject (fields : list (string * JsValue)).

(** [!v] is false *)
Definition truthy (v : JsValue) : bool :=
  match v with
  | JNull | JUndefined => false
  | JBool b => b
  | JNumber n => negb (n =? 0)
  | JString s => negb (String.eqb s "")
  | JArray _ | JObject _ => true
  end.

(** [v === null || v === undefined] *)
Definition nullish (v : JsValue) : bool :=
  match v with JNull | JUndefined => true | _ => false end.

Fixpoint assoc (name : string) (fields : list (string * JsValue)) : option JsValue :=
  match fields with
  | [] => None
  | (k, v) :: rest => if String.eqb k name then Some v else assoc name rest
  end.

(** A property name that is a canonical array index: ["0"], ["1"], ["17"],
    not ["01"] nor [""]. *)
Definition array_index (name : string) : option nat :=
  match name with
  | EmptyString => None
  | String c rest =>
      if Str.all_chars Str.is_digit name
      then if Ascii.eqb c "0"%char && negb (String.eqb rest "")
           then None
           else option_map Nat.of_uint (NilEmpty.uint_of_string name)
      else None
  end.

Fixpoint string_at (n : nat) (s : string) : option ascii :=
  match s, n with
  | EmptyString, _ => None
  | String c _, O => Some c
  | String _ s', S n' => string_at n' s'
  end.

(** [(current as Record<string, unknown>)[part]] for a [part] that no
    prototype defines: reading a property of [null] or [undefined] throws
    a TypeError; a missing property reads as [undefined]. *)
Definition get_prop (current : JsValue) (part : string) : Res JsValue :=
  match current with
  | JNull | JUndefined =>
      Throw (JsError "TypeError: Cannot read properties of null or undefined")
  | JObject fields =>
      Ok (match assoc part fields with Some v => v | None => JUndefined end)
  | JArray items =>
      if String.eqb part "length" then Ok (JNumber (Z.of_nat (List.length items)))
      else match array_index part with
           | Some i => Ok (nth i items JUndefined)
           | None => Ok JUndefined
           end
  | JString s =>
      if String.eqb part "length" then Ok (JNumber (Z.of_nat (String.length s)))
      else match array_index part with
           | Some i =>
               Ok (match string_at i s with
                   | Some c => JString (String c EmptyString)
                   | None => JUndefined
                   end)
           | None => Ok JUndefined
           end
  | JBool _ | JNumber _ => Ok JUndefined
  end.

(** [if (Array.isArray(current)) current = current[0]] *)
Definition unwrap (current : JsValue) : JsValue :=
  match current with
  | JArray items => nth 0 items JUndefined
  | _ => current
  end.

(** [v ?? null] *)
Definition or_null (v : JsValue) : JsValue :=
  if nullish v then JNull else v.

(** The [for (const part of parts)] loop and the code after it. *)
Fixpoint walk (parts : list string) (current : JsValue) : Res JsValue :=
  match parts with
  | [] => Ok (or_null (unwrap current))
  | part :: rest =>
      if nullish current then Ok JNull
      else match get_prop (unwrap current) part with
           | Ok next => walk rest next
           | Throw e => Throw e
           end
  end.

Definition getNested (obj : JsValue) (path : string) : Res JsValue :=
  if negb (truthy obj) then Ok JNull
  else if String.eqb path "" then Ok obj
  else walk (Str.split "."%char path) obj.

(** *** The rule as the specification words it

    [get_spec] follows the sentence of the specification: an empty path
    gives the whole tree; at each step a sequence is replaced by its first
    element and then indexed by the field name; a null or absent node at
    any point gives null; after the last segment a sequence is again
    replaced by its first element. *)

Definition first_element (node : JsValue) : JsValue :=
  match node with
  | JArray (x :: _) => x
  | JArray [] => JUndefined
  | _ => node
  end.

Definition field (node : JsValue) (name : string) : JsValue :=
  match get_prop node name with
  | Ok v => v
  | Throw _ => JUndefined
  end.

Fixpoint follow (segments : list string) (node : JsValue) : JsValue :=
  match segments with
  | [] => or_null (first_element node)
  | seg :: rest =>
      if nullish node then JNull
      else let inner := first_element node in
           if nullish inner then JNull else follow rest (field inner seg)
  end.

Definition get_spec (tree : JsValue) (path : string) : JsValue :=
  if String.eqb path "" then tree else follow (Str.split "."%char path) tree.

(** Trees in which every sequence has a first element that is neither
    null nor absent: the shape of [xml2js] output, where an element is
    wrapped in an array because it may repeat. *)
Fixpoint wrapped (v : JsValue) : bool :=
  match v with
  | JArray items =>
      match items with
      | [] => false
      | x :: _ => negb (nullish x)
      end && forallb wrapped items
  | JObject fields =>
      forallb (fun kv => match kv with (_, x) => wrapped x end) fields
  | _ => true
  end.

(** The trees of the specification's examples. *)
Definition tree_empty : JsValue := JObject [].
Definition tree_a_empty : JsValue := JObject [("a", JArray [JObject []])].
Definition tree_a_b_x : JsValue :=
  JObject [("a", JArray [JObject [("b", JString "x")]])].

End Nested.

(** ** Scraping one row of the listing (nfse.ts 207-248) *)

Module Scrape.

(** A JavaScript number as [parseFloat] yields it.  [Finite q] carries the
    exact decimal value that was read; the engine rounds it to the nearest
    double, which changes nothing for values such as 15000 and 0.5 that a
    double holds exactly.  Minus zero is not distinguished from zero. *)
Inductive JsNumber : Type :=
| NaN
| Infinity (negative : bool)
| Finite (q : Q).

Fixpoint digits_value (acc : Z) (s : string) : Z :=
  match s with
  | EmptyString => acc
  | String c s' => digits_value (10 * acc + (Z.of_nat (nat_of_ascii c) - 48)) s'
  end.

(** [mantissa * 10^exponent], in lowest terms *)
Definition scale10 (mantissa exponent : Z) : Q :=
  if 0 <=? exponent then Qmake (mantissa * 10 ^ exponent) 1
  else Qred (Qmake mantissa (Z.to_pos (10 ^ (- exponent)))).

(** The optional [ExponentPart]: [e] or [E], an optional sign, at least
    one digit; anything else reads as no exponent. *)
Definition exponent_part (s : string) : Z :=
  match s with
  | String c rest =>
      if Ascii.eqb c "e"%char || Ascii.eqb c "E"%char then
        let '(neg, ds) :=
          match rest with
          | String "-"%char r => (true, Str.take_while Str.is_digit r)
          | String "+"%char r => (false, Str.take_while Str.is_digit r)
          | _ => (false, Str.take_while Str.is_digit rest)
          end in
        if String.eqb ds "" then 0
        else if neg then - digits_value 0 ds else digits_value 0 ds
      else 0
  | EmptyString => 0
  end.

(** [parseFloat(s)]: leading whitespace is skipped, then the longest
    prefix that is a [StrDecimalLiteral] is read; [NaN] when there is
    none. *)
Definition parseFloat (s : string) : JsNumber :=
  let s1 := Str.drop_while Str.is_space s in
  let '(neg, s2) :=
    match s1 with
    | String "-"%char r => (true, r)
    | String "+"%char r => (false, r)
    | _ => (false, s1)
    end in
  if Str.startsWith "Infinity" s2 then Infinity neg
  else
    let int_digits := Str.take_while Str.is_digit s2 in
    let s3 := Str.drop_while Str.is_digit s2 in
    let '(frac_digits, s4) :=
      match s3 with
      | String "."%char r =>
          (Str.take_while Str.is_digit r, Str.drop_while Str.is_digit r)
      | _ => (EmptyString, s3)
      end in
    if String.eqb int_digits "" && String.eqb frac_digits "" then NaN
    else
      let mantissa := digits_value 0 (int_digits ++ frac_digits) in
      let exponent := exponent_part s4 - Z.of_nat (String.length frac_digits) in
      Finite (scale10 (if neg then - mantissa else mantissa) exponent).

(** [valorStr.replace(/\./g, '').replace(',', '.')] *)
Definition normalize_valor (valorStr : string) : string :=
  Str.replace_first_char ","%char "."%char (Str.remove_all "."%char valorStr).

(** line 236 *)
Definition parse_valor (valorStr : string) : JsNumber :=
  parseFloat (normalize_valor valorStr).

Record EmitidoPara : Type := {
  cnpj : string;
  nome : string
}.

Record NfseListItem : Type := {
  data : string;
  emitidoPara : EmitidoPara;
  competencia : string;
  municipioEmissor : string;
  valor : JsNumber;
  status : string;
  chave : string
}.

(** What the cheerio selections of the row callback see of a [<tr>]:
    the [href] attribute of each [<a>] below it, in document order
    ([None] for an anchor without the attribute), the text of each
    selected cell, and the row's [data-situacao] attribute. *)
Record Row : Type := {
  a_hrefs : list (option string);
  td_data_text : string;
  emitido_para_div_text : string;
  cnpj_text : string;
  td_competencia_text : string;
  td_center_text : string;
  td_valor_text : string;
  data_situacao : option string
}.

Definition download_path : string := "/EmissorNacional/Notas/Download/NFSe/".

(** [tr.find('a[href*=".../NFSe/"]').attr('href')]: the [href] of the
    first anchor whose [href] contains the download path *)
Definition download_href (tr : Row) : option string :=
  match filter (fun h => match h with
                         | Some s => Str.includes download_path s
                         | None => false
                         end) (a_hrefs tr) with
  | h :: _ => h
  | [] => None
  end.

(** The regular expression [/\/EmissorNacional\/Notas\/Download\/NFSe\/(\d+)/]
    tried at the start of [s]: the group is the longest run of digits
    after the path and must not be empty. *)
Definition match_here (s : string) : option string :=
  if Str.startsWith download_path s then
    let digits := Str.take_while Str.is_digit (Str.drop (String.length download_path) s) in
    if String.eqb digits "" then None else Some digits
  else None.

(** [href.match(...)?.[1]]: the leftmost position where the expression
    matches *)
Fixpoint match_group (href : string) : option string :=
  match match_here href with
  | Some digits => Some digits
  | None =>
      match href with
      | EmptyString => None
      | String _ rest => match_group rest
      end
  end.

(** lines 213-219 *)
Definition extract_chave (href : option string) : string :=
  match href with
  | Some h =>
      if String.eqb h "" then ""
      else match match_group h with
           | Some digits => digits
           | None => ""
           end
  | None => ""
  end.

Definition is_space_or_dash (c : ascii) : bool :=
  Str.is_space c || Ascii.eqb c "-"%char.

(** lines 227-231 *)
Definition derive_nome (cnpj_v div_text : string) : string :=
  let fullText := Str.collapse_spaces (Str.trim div_text) in
  if String.eqb cnpj_v "" then fullText
  else Str.trim (Str.drop_while is_space_or_dash (Str.remove_first cnpj_v fullText)).

(** The callback of [rows.each]: [None] is the early [return] of a row
    without a key, [Some item] is the item pushed onto [allNfses]. *)
Definition scrape_row (tr : Row) : option NfseListItem :=
  let chave_v := extract_chave (download_href tr) in
  if String.eqb chave_v "" then None
  else
    let cnpj_v := Str.trim (cnpj_text tr) in
    Some {| data := Str.trim (td_data_text tr);
            emitidoPara := {| cnpj := cnpj_v;
                              nome := derive_nome cnpj_v (emitido_para_div_text tr) |};
            competencia := Str.trim (td_competencia_text tr);
            municipioEmissor := Str.trim (td_center_text tr);
            valor := parse_valor (Str.trim (td_valor_text tr));
            status := match data_situacao tr with
                      | Some s => s
                      | None => ""
                      end;
            chave := chave_v |}.

(** [rows.each(...)]: the items pushed, in row order *)
Fixpoint scrape_rows (rows : list Row) : list NfseListItem :=
  match rows with
  | [] => []
  | tr :: rest =>
      match scrape_row tr with
      | Some item => item :: scrape_rows rest
      | None => scrape_rows rest
      end
  end.

(** The invariant of a list item: a key that is a non-empty run of digits. *)
Definition key_ok (item : NfseListItem) : Prop :=
  chave item <> "" /\ Str.all_chars Str.is_digit (chave item) = true.

End Scrape.

(** ** Dates ([Date], [setDate], [formatDate]) *)

Module Dates.

(** A valid [Date] in a time zone whose offset never changes, as its local
    wall-clock reading in milliseconds since local midnight of 1970-01-01
    (the time value shifted by the offset).  [getDate]/[setDate] work on
    the local calendar and keep the local time of day, so adding [k] to
    the day of the month adds [k] whole days to this reading, and
    comparing two dates compares their readings.  Where the offset
    changes (daylight saving time) a day of the local calendar is not
    always 24 hours: that is [Zoned.setDate_plus]. *)
Definition Date : Type := Z.

Definition msPerDay : Z := 86400000.

(** [d.setDate(d.getDate() + k)] *)
Definition addDays (d : Date) (k : Z) : Date := d + k * msPerDay.

(** the calendar day of [d], in days since 1970-01-01 *)
Definition dayOf (d : Date) : Z := d / msPerDay.

Definition timeOfDay (d : Date) : Z := d mod msPerDay.

(** Year, month (1-12) and day of the month of a day number, in the
    proleptic Gregorian calendar. *)
Definition civil (z : Z) : Z * Z * Z :=
  let z := z + 719468 in
  let era := z / 146097 in
  let doe := z - era * 146097 in
  let yoe := (doe - doe / 1460 + doe / 36524 - doe / 146096) / 365 in
  let doy := doe - (365 * yoe + yoe / 4 - yoe / 100) in
  let mp := (5 * doy + 2) / 153 in
  let d := doy - (153 * mp + 2) / 5 + 1 in
  let m := if mp <? 10 then mp + 3 else mp - 9 in
  let y := yoe + era * 400 in
  (if m <=? 2 then y + 1 else y, m, d).

Definition getFullYear (d : Date) : Z := fst (fst (civil (dayOf d))).
(** [getMonth() + 1] *)
Definition month1 (d : Date) : Z := snd (fst (civil (dayOf d))).
Definition getDate (d : Date) : Z := snd (civil (dayOf d)).

(** [String(n)] for an integer *)
Definition String_ (n : Z) : string := NilZero.string_of_int (Z.to_int n).

(** [s.padStart(2, '0')] *)
Definition padStart2 (s : string) : string :=
  match String.length s with
  | O => "00"
  | S O => String "0"%char s
  | _ => s
  end.

Definition formatDate (date : Date) : string :=
  let day := padStart2 (String_ (getDate date)) in
  let month := padStart2 (String_ (month1 date)) in
  let year := String_ (getFullYear date) in
  day ++ "/" ++ month ++ "/" ++ year.

End Dates.

(** ** The portal as seen through axios *)

Module Http.

Record Request : Type := {
  url : string;
  (** the [https.Agent] of [login]: certificate bundle and passphrase *)
  pfx : option (string * string);
  (** the [Cookie] header *)
  cookie : option string;
  params : list (string * string)
}.

Record Response : Type := {
  status : Z;
  (** [response.request?.res?.responseUrl] *)
  responseUrl : option string;
  (** [response.headers['location']] *)
  location : option string;
  (** [response.headers['set-cookie']] *)
  set_cookie : option (list string);
  (** [response.data] *)
  body : string
}.

(** What the transport does with a request, before axios judges the
    status: no answer at all, or an answer. *)
Inductive Transport : Type :=
| NetworkError (message : string)
| Answer (response : Response).

(** [validateStatus: (status) => status >= 200 && status < 400] *)
Definition validateStatus (status : Z) : bool :=
  (200 <=? status) && (status <? 400).

(** [await axios.get(...)] with [maxRedirects: 0] and the [validateStatus]
    above: a transport failure and a rejected status both throw. *)
Definition axios_get (t : Transport) : Res Response :=
  match t with
  | NetworkError m => Throw (JsError m)
  | Answer response =>
      if validateStatus (status response) then Ok response
      else Throw (JsError ("Request failed with status code "
                           ++ Dates.String_ (status response)))
  end.

Definition login_path : string := "/EmissorNacional/Login".
Definition dashboard_path : string := "/EmissorNacional/Dashboard".

(** the two tests of [checkAuthentication] (nfse.ts 126-136) *)
Definition references_login (response : Response) : bool :=
  Str.includes login_path
    (match responseUrl response with Some u => u | None => "" end)
  || match location response with
     | Some l => negb (String.eqb l "") && Str.includes login_path l
     | None => false
     end.

Definition checkAuthentication (response : Response) : Res unit :=
  if references_login response then Throw UnauthenticatedSessionException
  else Ok tt.

End Http.

(** ** The listing crawler ([buscar_nfse], nfse.ts 169-264)

    With the dates of [Dates]; [Zoned.crawl] is the loop in any time
    zone. *)

Module Crawler.
Import Dates Http Scrape.

(** One listing request as it went out: the window it was built from,
    the request, and what the transport did with it. *)
Record Exchange : Type := {
  window : Date * Date;
  request : Request;
  outcome : Transport
}.

Definition listing_url : string :=
  "https://www.nfse.gov.br/EmissorNacional/Notas/Emitidas".

Definition listing_request (cookieHeader : string) (currentStart chunkEnd : Date) : Request :=
  {| url := listing_url;
     pfx := None;
     cookie := Some cookieHeader;
     params := [("busca", ""); ("datainicio", formatDate currentStart);
                ("datafim", formatDate chunkEnd)] |}.

(** lines 180-185 *)
Definition chunk_end (currentStart end_ : Date) : Date :=
  let chunkEnd := addDays currentStart 29 in
  if chunkEnd >? end_ then end_ else chunkEnd.

(** the line written by [console.error] in the [catch] *)
Definition error_line (currentStart chunkEnd : Date) (e : Exn) : string :=
  "Error fetching for period " ++ formatDate currentStart ++ " to "
  ++ formatDate chunkEnd ++ ": " ++ error_message e.

(** The windows the loop goes through when nothing stops it: the date
    arithmetic of the loop alone. *)
Fixpoint windows_from (fuel : nat) (currentStart end_ : Date) : list (Date * Date) :=
  match fuel with
  | O => []
  | S fuel' =>
      if currentStart <=? end_ then
        let chunkEnd := chunk_end currentStart end_ in
        (currentStart, chunkEnd) :: windows_from fuel' (addDays chunkEnd 1) end_
      else []
  end.

(** Loop iterations granted to a crawl: every iteration moves
    [currentStart] at least one day forward, so this is never used up
    (see [crawl_total]). *)
Definition fuel_for (data_inicio data_fim : Date) : nat :=
  S (S (Z.to_nat ((data_fim - data_inicio) / msPerDay))).

Definition windows (data_inicio data_fim : Date) : list (Date * Date) :=
  windows_from (fuel_for data_inicio data_fim) data_inicio data_fim.

(** What the HTML parser makes of a response body. *)
Inductive Parsed : Type :=
| ParseError (message : string)
| Rows (rows : list Row).

Section Portal.

(** The outside world: the state of the network and of the portal. *)
Variable World : Type.
(** What a request gets, and the world after it. *)
Variable transport : Request -> World -> Transport * World.
(** [cheerio.load(data)] followed by [$('table tbody tr')]: the rows of the
    results table, or the message of the error thrown while parsing. *)
Variable cheerio_rows : string -> Parsed.

(** What a call of [buscar_nfse] did and gave. *)
Record Run : Type := {
  result : Res (list NfseListItem);
  exchanges : list Exchange;
  console : list string;
  final : World
}.

(** What follows the request in the [try] block (lines 202-248): the items
    the rows add to [allNfses], or the exception that leaves the block.
    Nothing throws once the first row is visited, so a window adds all of
    its items or none. *)
Definition window_items (t : Transport) : Res (list NfseListItem) :=
  match axios_get t with
  | Throw e => Throw e
  | Ok response =>
      match checkAuthentication response with
      | Throw e => Throw e
      | Ok _ =>
          match cheerio_rows (body response) with
          | ParseError m => Throw (JsError m)
          | Rows rows => Ok (scrape_rows rows)
          end
      end
  end.

Definition after (ex : Exchange) (line : list string) (rest : option Run) : option Run :=
  match rest with
  | Some run =>
      Some {| result := result run;
              exchanges := ex :: exchanges run;
              console := line ++ console run;
              final := final run |}
  | None => None
  end.

(** The [while (currentStart <= end)] loop; [None] when [fuel] iterations
    were not enough. *)
Fixpoint crawl (fuel : nat) (cookieHeader : string) (currentStart end_ : Date)
    (allNfses : list NfseListItem) (w : World) : option Run :=
  match fuel with
  | O => None
  | S fuel' =>
      if currentStart <=? end_ then
        let chunkEnd := chunk_end currentStart end_ in
        let req := listing_request cookieHeader currentStart chunkEnd in
        let '(t, w1) := transport req w in
        let ex := {| window := (currentStart, chunkEnd); request := req; outcome := t |} in
        match window_items t with
        | Ok items =>
            after ex [] (crawl fuel' cookieHeader (addDays chunkEnd 1) end_ (allNfses ++ items) w1)
        | Throw e =>
            if is_unauthenticated e then
              Some {| result := Throw e; exchanges := [ex]; console := []; final := w1 |}
            else
              after ex [error_line currentStart chunkEnd e]
                (crawl fuel' cookieHeader (addDays chunkEnd 1) end_ allNfses w1)
        end
      else
        Some {| result := Ok allNfses; exchanges := []; console := []; final := w |}
  end.

Definition buscar_nfse (cookies : list string) (data_inicio data_fim : Date)
    (w : World) : option Run :=
  crawl (fuel_for data_inicio data_fim) (Str.join "; " cookies)
        data_inicio data_fim [] w.

(** The items a window contributed to the result: none when it failed. *)
Definition contribution (ex : Exchange) : list NfseListItem :=
  match window_items (outcome ex) with
  | Ok items => items
  | Throw _ => []
  end.

(** The window's request was answered (with an accepted status) by a
    response whose URL or [Location] header references the login path. *)
Definition login_redirect (ex : Exchange) : bool :=
  match axios_get (outcome ex) with
  | Ok response => references_login response
  | Throw _ => false
  end.

(** What a finished crawl looks like.  Either it returned: then no window
    was answered by a login redirect, the windows visited are all the
    windows of the loop, and the result is the accumulator followed by the
    contributions of the windows, in order.  Or it threw: then the
    exception is the [UnauthenticatedSessionException] of the last window
    visited, the only one answered by a login redirect. *)
Inductive Finished (acc : list NfseListItem) (all_windows : list (Date * Date)) (run : Run) : Prop :=
| Returned :
    result run = Ok (acc ++ flat_map contribution (exchanges run))%list ->
    Forall (fun ex => login_redirect ex = false) (exchanges run) ->
    map window (exchanges run) = all_windows ->
    List.length (console run)
      = List.length (filter (fun ex => match window_items (outcome ex) with
                                       | Throw _ => true
                                       | Ok _ => false
                                       end) (exchanges run)) ->
    Finished acc all_windows run
| Thrown (before : list Exchange) (last : Exchange) (later : list (Date * Date)) :
    result run = Throw UnauthenticatedSessionException ->
    exchanges run = (before ++ [last])%list ->
    Forall (fun ex => login_redirect ex = false) before ->
    login_redirect last = true ->
    all_windows = (map window (exchanges run) ++ later)%list ->
    Finished acc all_windows run.

End Portal.

Arguments result {World} _.
Arguments exchanges {World} _.
Arguments console {World} _.
Arguments final {World} _.

End Crawler.

(** *** The window partition, in calendar days *)

Module Partition.
Import Dates Crawler.

(** [ceil((endDay - startDay + 1) / 30)] *)
Definition window_count (startDay endDay : Z) : Z :=
  (endDay - startDay + 1 + 29) / 30.

(** Window number [k] (from 0) of the specification: thirty days from
    [startDay + 30 k], clipped to [endDay]. *)
Definition spec_window (startDay endDay : Z) (k : nat) : Z * Z :=
  (startDay + 30 * Z.of_nat k, Z.min (startDay + 30 * Z.of_nat k + 29) endDay).

Definition partition_spec (startDay endDay : Z) : list (Z * Z) :=
  map (spec_window startDay endDay) (seq 0 (Z.to_nat (window_count startDay endDay))).

(** the calendar days a window's request names *)
Definition day_window (w : Date * Date) : Z * Z := (dayOf (fst w), dayOf (snd w)).

End Partition.

(** ** The authenticator ([login], nfse.ts 138-167) *)

Module Auth.
Import Http.

Definition certificado_url : string :=
  "https://www.nfse.gov.br/EmissorNacional/Certificado".

Definition login_request (cert password : string) : Request :=
  {| url := certificado_url;
     pfx := Some (cert, password);
     cookie := None;
     params := [] |}.

(** how the message of every failure of [login] starts *)
Definition login_prefix : string := "Falha ao realizar login: ".

Section Portal.

Variable World : Type.
Variable transport : Request -> World -> Transport * World.

Definition login (cert password : string) (w : World) : Res (list string) * World :=
  let '(t, w1) := transport (login_request cert password) w in
  (match axios_get t with
   | Throw error =>
       Throw (ApplicationException ("Falha ao realizar login: " ++ error_message error))
   | Ok response =>
       match location response with
       | Some l =>
           if String.eqb l "" || negb (Str.endsWith dashboard_path l)
           then Throw (ApplicationException
                         "Falha ao realizar login: Redirecionamento incorreto ou ausente.")
           else match set_cookie response with
                | Some cookies => Ok cookies
                | None => Ok []
                end
       | None =>
           Throw (ApplicationException
                    "Falha ao realizar login: Redirecionamento incorreto ou ausente.")
       end
   end, w1).

End Portal.

(** Success as the specification defines it: an answer whose status is in
    [200, 400) and whose Location header ends with the dashboard path. *)
Definition login_accepted (t : Transport) : Prop :=
  exists response l,
    t = Answer response
    /\ 200 <= status response < 400
    /\ location response = Some l
    /\ Str.endsWith dashboard_path l = true.

End Auth.

(** ** The session wrapper of the server ([index.ts]: ensureAuthenticated,
       withAutoLogin) *)

Module Wrapper.
Import Http Auth.

(** The calls made, for the record. *)
Inductive Call : Type :=
| CallEnsure
| CallLogin
| CallAction (cookies : list string).

Definition is_ensure (c : Call) : bool :=
  match c with CallEnsure => true | _ => false end.
Definition is_login (c : Call) : bool :=
  match c with CallLogin => true | _ => false end.
Definition is_action (c : Call) : bool :=
  match c with CallAction _ => true | _ => false end.

Definition count (p : Call -> bool) (calls : list Call) : nat :=
  List.length (filter p calls).

(** [!s] for a value of type [string | undefined] *)
Definition missing (s : option string) : bool :=
  match s with
  | None => true
  | Some v => String.eqb v ""
  end.

(** the string behind a value that is not [missing] *)
Definition value (s : option string) : string :=
  match s with
  | Some v => v
  | None => ""
  end.

Section Server.

Variable World : Type.
Variable transport : Request -> World -> Transport * World.

(** the process environment and the file system the module reads *)
Variable CERT_PASSWORD : option string.
Variable CERT_FILE : option string.
Variable dirname : string.
Variable path_resolve : string -> string -> string.
Variable fs_existsSync : string -> World -> bool.
Variable fs_readFileSync : string -> World -> Res string.

(** The module-level state [let cachedCookies: string[] | null = null],
    next to the world and the record of calls. *)
Record Server : Type := {
  world : World;
  cachedCookies : option (list string);
  calls : list Call
}.

Definition record (c : Call) (st : Server) : Server :=
  {| world := world st; cachedCookies := cachedCookies st; calls := calls st ++ [c] |}.

Definition set_world (w : World) (st : Server) : Server :=
  {| world := w; cachedCookies := cachedCookies st; calls := calls st |}.

Definition set_cache (c : option (list string)) (st : Server) : Server :=
  {| world := world st; cachedCookies := c; calls := calls st |}.

(** index.ts 54-79.  [if (cachedCookies)] holds for every array, the empty
    one included; the assignment [cachedCookies = await login(...)] comes
    before the test of the length. *)
Definition ensureAuthenticated (st0 : Server) : Res (list string) * Server :=
  let st := record CallEnsure st0 in
  match cachedCookies st with
  | Some cookies => (Ok cookies, st)
  | None =>
      if missing CERT_PASSWORD then
        (Throw (ApplicationException "CERT_PASSWORD não configurado."), st)
      else if missing CERT_FILE then
        (Throw (ApplicationException "CERT_FILE não configurado."), st)
      else
        let pfxPath := path_resolve dirname (value CERT_FILE) in
        if negb (fs_existsSync pfxPath (world st)) then
          (Throw (ApplicationException ("Certificado não encontrado em " ++ pfxPath)), st)
        else
          match fs_readFileSync pfxPath (world st) with
          | Throw e => (Throw e, st)
          | Ok pfxBuffer =>
              let st1 := record CallLogin st in
              let '(r, w1) :=
                login World transport pfxBuffer (value CERT_PASSWORD) (world st1) in
              match r with
              | Throw e => (Throw e, set_world w1 st1)
              | Ok cookies =>
                  let st2 := set_cache (Some cookies) (set_world w1 st1) in
                  if (List.length cookies =? 0)%nat then
                    (Throw (ApplicationException "Nenhum cookie recebido após login."), st2)
                  else (Ok cookies, st2)
              end
          end
  end.

Section Action.

Variable T : Type.
(** The wrapped action: it works on the world with the cookies it is
    given; the module state is out of its reach. *)
Variable action : list string -> World -> Res T * World.

(** [await action(cookies)] *)
Definition attempt (cookies : list string) (st : Server) : Res T * Server :=
  let st1 := record (CallAction cookies) st in
  let '(r, w1) := action cookies (world st1) in
  (r, set_world w1 st1).

(** index.ts 81-93 *)
Definition withAutoLogin (st : Server) : Res T * Server :=
  let '(r0, st1) := ensureAuthenticated st in
  match r0 with
  | Throw e => (Throw e, st1)
  | Ok cookies =>
      let '(r1, st2) := attempt cookies st1 in
      match r1 with
      | Ok v => (Ok v, st2)
      | Throw error =>
          if is_unauthenticated error then
            let st3 := set_cache None st2 in
            let '(r2, st4) := ensureAuthenticated st3 in
            match r2 with
            | Throw e => (Throw e, st4)
            | Ok freshCookies => attempt freshCookies st4
            end
          else (Throw error, st2)
      end
  end.

End Action.

End Server.

Arguments world {World} _.
Arguments cachedCookies {World} _.
Arguments calls {World} _.

End Wrapper.

(** ** A scripted portal, to run the crawler on *)

Module Demo.
Import Dates Http Scrape Crawler Partition.

(** The world is the list of what the coming requests will get; once it
    is used up every request fails. *)
Definition World : Type := list Transport.

Definition transport (req : Request) (w : World) : Transport * World :=
  match w with
  | t :: rest => (t, rest)
  | [] => (NetworkError "connect ECONNREFUSED", [])
  end.

Definition row_of (key amount : string) : Row :=
  {| a_hrefs := [None; Some ("/EmissorNacional/Notas/Visualizar/" ++ key);
                 Some ("/EmissorNacional/Notas/Download/NFSe/" ++ key)];
     td_data_text := " 02/01/1970 ";
     emitido_para_div_text := " 12.345.678/0001-90  -  ACME   LTDA ";
     cnpj_text := "12.345.678/0001-90";
     td_competencia_text := "01/1970";
     td_center_text := "Curitiba";
     td_valor_text := amount;
     data_situacao := Some "GERADA" |}.

(** a row without a download link, such as a header row *)
Definition header_row : Row :=
  {| a_hrefs := [];
     td_data_text := "";
     emitido_para_div_text := "";
     cnpj_text := "";
     td_competencia_text := "";
     td_center_text := "";
     td_valor_text := "";
     data_situacao := None |}.

Definition cheerio_rows (body : string) : Parsed :=
  if String.eqb body "<first>" then Rows [header_row; row_of "101" "15.000,00"; row_of "102" "0,50"]
  else if String.eqb body "<second>" then Rows [row_of "201" "1,00"]
  else if String.eqb body "<third>" then Rows [row_of "301" "2.500,10"]
  else if String.eqb body "<broken>" then ParseError "unexpected end of input"
  else Rows [].

Definition page (html : string) : Transport :=
  Answer {| Http.status := 200; responseUrl := Some listing_url; location := None;
            set_cookie := None; body := html |}.

(** the portal's answer to a request without a valid session *)
Definition to_login : Transport :=
  Answer {| Http.status := 302; responseUrl := None;
            location := Some "/EmissorNacional/Login?ReturnUrl=%2fEmissorNacional%2fNotas%2fEmitidas";
            set_cookie := None; body := "" |}.

Definition item_of (key : string) (amount : Q) : NfseListItem :=
  {| data := "02/01/1970";
     emitidoPara := {| cnpj := "12.345.678/0001-90"; nome := "ACME LTDA" |};
     competencia := "01/1970";
     municipioEmissor := "Curitiba";
     valor := Finite amount;
     Scrape.status := "GERADA";
     chave := key |}.

Definition buscar_nfse := Crawler.buscar_nfse World transport cheerio_rows.

(** 1970-01-01 00:00:00 and 1970-03-31 23:59:59: ninety days *)
Definition jan_1 : Date := 0.
Definition mar_31_night : Date := 89 * msPerDay + 86399000.

(** 1970-01-01 12:00 and 1970-01-31 06:00 *)
Definition jan_1_noon : Date := 43200000.
Definition jan_31_morning : Date := 30 * msPerDay + 21600000.

End Demo.

(** ** The server on the scripted portal *)

Module DemoServer.
Import Dates Http Scrape Crawler Auth Wrapper.

Definition CERT_PASSWORD : option string := Some "secret".
Definition CERT_FILE : option string := Some "cert.pfx".
Definition dirname : string := "/app".

(** [path.resolve] for a relative file name *)
Definition path_resolve (dir file : string) : string := dir ++ "/" ++ file.

Definition fs_existsSync (path : string) (w : Demo.World) : bool :=
  String.eqb path "/app/cert.pfx".

Definition fs_readFileSync (path : string) (w : Demo.World) : Res string :=
  if String.eqb path "/app/cert.pfx" then Ok "<pfx>"
  else Throw (JsError "ENOENT: no such file or directory").

(** the portal's answer to a good certificate *)
Definition to_dashboard (cookies : option (list string)) : Transport :=
  Answer {| Http.status := 302; responseUrl := None;
            location := Some "/EmissorNacional/Dashboard";
            set_cookie := cookies; body := "" |}.

Definition ensureAuthenticated :=
  Wrapper.ensureAuthenticated Demo.World Demo.transport CERT_PASSWORD CERT_FILE
    dirname path_resolve fs_existsSync fs_readFileSync.

Definition withAutoLogin :=
  Wrapper.withAutoLogin Demo.World Demo.transport CERT_PASSWORD CERT_FILE
    dirname path_resolve fs_existsSync fs_readFileSync.

(** [(cookies) => buscar_nfse(cookies, startDate, endDate)], the action of
    the tool [nfse_buscar]; the crawl always terminates
    ([buscar_nfse_total]), so the last branch is never taken. *)
Definition buscar_action (startDate endDate : Date) (cookies : list string)
    (w : Demo.World) : Res (list NfseListItem) * Demo.World :=
  match Demo.buscar_nfse cookies startDate endDate w with
  | Some run => (result run, final run)
  | None => (Throw (JsError "the crawl did not end"), w)
  end.

Definition start (script : list Transport) : Server Demo.World :=
  {| world := script; cachedCookies := None; calls := [] |}.

(** A first session that the portal no longer accepts, then a fresh one
    that it does. *)
Definition expiring : Server Demo.World :=
  start [to_dashboard (Some ["sid=1"]); Demo.to_login;
         to_dashboard (Some ["sid=2"]); Demo.page "<second>"].

(** The portal accepts the certificate but sets no cookie. *)
Definition cookieless : Server Demo.World := start [to_dashboard None].

End DemoServer.

(** ** More of the crawler: the windows as instants, the log, the requests *)

Module CrawlerMore.
Import Dates Http Scrape Crawler.

(** Window number [k] (from 0) of a crawl, as instants: thirty days after
    window [k - 1], twenty-nine days long unless the end comes first. *)
Definition instant_window (data_inicio data_fim : Date) (k : nat) : Date * Date :=
  let currentStart := addDays data_inicio (30 * Z.of_nat k) in
  (currentStart, Z.min (addDays currentStart 29) data_fim).

(** [floor((data_fim - data_inicio) / 30 days) + 1], none when the start is
    after the end *)
Definition instant_count (data_inicio data_fim : Date) : nat :=
  if data_inicio <=? data_fim
  then S (Z.to_nat ((data_fim - data_inicio) / (30 * msPerDay)))
  else O.

Definition instant_partition (data_inicio data_fim : Date) : list (Date * Date) :=
  map (instant_window data_inicio data_fim) (seq 0 (instant_count data_inicio data_fim)).

Section Portal.

Variable World : Type.
Variable transport : Request -> World -> Transport * World.
Variable cheerio_rows : string -> Parsed.

(** What the [catch] of a window writes with [console.error]: nothing for
    a window that gave its items, nothing for the exception it throws
    again, one line for any other exception. *)
Definition log_lines (ex : Exchange) : list string :=
  match window_items cheerio_rows (outcome ex) with
  | Ok _ => []
  | Throw e =>
      if is_unauthenticated e then []
      else [error_line (fst (window ex)) (snd (window ex)) e]
  end.

(** Sending requests one after the other: what each got, and the world
    after the last. *)
Fixpoint replay (requests : list Request) (w : World) : list Transport * World :=
  match requests with
  | [] => ([], w)
  | req :: rest =>
      let '(t, w1) := transport req w in
      let '(ts, w2) := replay rest w1 in
      (t :: ts, w2)
  end.

End Portal.

End CrawlerMore.

(** ** More on the extractor *)

Module NestedMore.
Import Nested.

Definition is_object (v : JsValue) : bool :=
  match v with JObject _ => true | _ => false end.

End NestedMore.

(** ** More on strings and rows *)

Module ScrapeMore.
Import Scrape.

Definition starts_with_space (s : string) : bool :=
  match s with
  | String c _ => Str.is_space c
  | EmptyString => false
  end.

(** neither the first nor the last character is whitespace *)
Definition trimmed (s : string) : bool :=
  negb (starts_with_space s) && negb (starts_with_space (Str.rev s)).

End ScrapeMore.

(** ** The document normalizer ([formatNfseResult], nfse.ts 290-386) *)

Module Normalizer.
Import Nested.

(** The interfaces of nfse.ts 23-117.  A leaf is what [getNested] gave
    for its path: the declared type is [string | null], but nothing checks
    it, so a leaf is a [JsValue]. *)

Module Endereco.
Record t : Type := {
  logradouro : JsValue;
  numero : JsValue;
  bairro : JsValue;
  codigo_municipio : JsValue;
  uf : JsValue;
  cep : JsValue
}.
End Endereco.

(** [Omit<Endereco, 'uf'>] *)
Module EnderecoTomador.
Record t : Type := {
  logradouro : JsValue;
  numero : JsValue;
  bairro : JsValue;
  codigo_municipio : JsValue;
  cep : JsValue
}.
End EnderecoTomador.

Module Emitente.
Record t : Type := {
  cnpj : JsValue;
  inscricao_municipal : JsValue;
  razao_social : JsValue;
  endereco : Endereco.t;
  telefone : JsValue;
  email : JsValue
}.
End Emitente.

Module Cabecalho.
Record t : Type := {
  id : JsValue;
  municipio_emissor : JsValue;
  municipio_prestacao : JsValue;
  numero_nfse : JsValue;
  codigo_municipio_incidencia : JsValue;
  municipio_incidencia : JsValue;
  tributacao_nacional : JsValue;
  nbs : JsValue;
  versao_aplicativo : JsValue;
  ambiente_gerador : JsValue;
  tipo_emissao : JsValue;
  processo_emissao : JsValue;
  status_emissao : JsValue;
  data_hora_processamento : JsValue;
  numero_documento_municipal : JsValue
}.
End Cabecalho.

Module Valores.
Record t : Type := {
  base_calculo : JsValue;
  aliquota : JsValue;
  issqn : JsValue;
  total_retencoes : JsValue;
  valor_liquido : JsValue;
  valor_deducao : JsValue
}.
End Valores.

Module Prestador.
Record t : Type := {
  cnpj : JsValue;
  inscricao_municipal : JsValue
}.
End Prestador.

Module Tomador.
Record t : Type := {
  cnpj : JsValue;
  cpf : JsValue;
  razao_social : JsValue;
  endereco : EnderecoTomador.t
}.
End Tomador.

Module Servico.
Record t : Type := {
  codigo_tributacao_nacional : JsValue;
  descricao : JsValue;
  nbs : JsValue;
  local_prestacao : JsValue
}.
End Servico.

Module ValoresDps.
Record t : Type := {
  valor_servico : JsValue
}.
End ValoresDps.

Module Dps.
Record t : Type := {
  id : JsValue;
  tipo_ambiente : JsValue;
  data_emissao : JsValue;
  numero_dps : JsValue;
  serie : JsValue;
  competencia : JsValue;
  tipo_emitente : JsValue;
  local_emissao : JsValue;
  prestador : Prestador.t;
  tomador : Tomador.t;
  servico : Servico.t;
  valores_dps : ValoresDps.t
}.
End Dps.

(** [dps: Dps | Record<string, never>]: [None] is the empty object *)
Record NfseDetail : Type := {
  cabecalho : Cabecalho.t;
  emitente : Emitente.t;
  valores : Valores.t;
  dps : option Dps.t;
  xml_path : string
}.

Inductive Formatted : Type :=
| Detail (detail : NfseDetail)
| RawDetail (raw : JsValue) (raw_xml_path : string).

Definition bind {A B : Type} (r : Res A) (k : A -> Res B) : Res B :=
  match r with
  | Ok a => k a
  | Throw e => Throw e
  end.

Notation "x <- r ;; k" := (bind r (fun x => k))
  (at level 61, r at next level, right associativity).

(** [v?.name]: [undefined] for a null or absent [v], the property else *)
Definition optional (v : JsValue) (name : string) : JsValue :=
  if nullish v then JUndefined
  else match get_prop v name with
       | Ok x => x
       | Throw _ => JUndefined
       end.

(** [nfseObj?.NFSe?.infNFSe] *)
Definition root_node (xmlObj : JsValue) : JsValue :=
  optional (optional xmlObj "NFSe") "infNFSe".

(** lines 348-382: the object built when [dps] is truthy; the property
    values are evaluated in the order they are written *)
Definition format_dps (dps : JsValue) : Res Dps.t :=
  id <- getNested dps "$.Id" ;;
  tipo_ambiente <- getNested dps "tpAmb" ;;
  data_emissao <- getNested dps "dhEmi" ;;
  numero_dps <- getNested dps "nDPS" ;;
  serie <- getNested dps "serie" ;;
  competencia <- getNested dps "dCompet" ;;
  tipo_emitente <- getNested dps "tpEmit" ;;
  local_emissao <- getNested dps "cLocEmi" ;;
  prest_cnpj <- getNested dps "prest.CNPJ" ;;
  prest_im <- getNested dps "prest.IM" ;;
  toma_cnpj <- getNested dps "toma.CNPJ" ;;
  toma_cpf <- getNested dps "toma.CPF" ;;
  toma_nome <- getNested dps "toma.xNome" ;;
  toma_lgr <- getNested dps "toma.end.xLgr" ;;
  toma_nro <- getNested dps "toma.end.nro" ;;
  toma_bairro <- getNested dps "toma.end.xBairro" ;;
  toma_mun <- getNested dps "toma.end.endNac.cMun" ;;
  toma_cep <- getNested dps "toma.end.endNac.CEP" ;;
  serv_trib <- getNested dps "serv.cServ.cTribNac" ;;
  serv_desc <- getNested dps "serv.cServ.xDescServ" ;;
  serv_nbs <- getNested dps "serv.cServ.cNBS" ;;
  serv_local <- getNested dps "serv.locPrest.cLocPrestacao" ;;
  valor_servico <- getNested dps "valores.vServPrest.vServ" ;;
  Ok {| Dps.id := id;
        Dps.tipo_ambiente := tipo_ambiente;
        Dps.data_emissao := data_emissao;
        Dps.numero_dps := numero_dps;
        Dps.serie := serie;
        Dps.competencia := competencia;
        Dps.tipo_emitente := tipo_emitente;
        Dps.local_emissao := local_emissao;
        Dps.prestador :=
          {| Prestador.cnpj := prest_cnpj; Prestador.inscricao_municipal := prest_im |};
        Dps.tomador :=
          {| Tomador.cnpj := toma_cnpj;
             Tomador.cpf := toma_cpf;
             Tomador.razao_social := toma_nome;
             Tomador.endereco :=
               {| EnderecoTomador.logradouro := toma_lgr;
                  EnderecoTomador.numero := toma_nro;
                  EnderecoTomador.bairro := toma_bairro;
                  EnderecoTomador.codigo_municipio := toma_mun;
                  EnderecoTomador.cep := toma_cep |} |};
        Dps.servico :=
          {| Servico.codigo_tributacao_nacional := serv_trib;
             Servico.descricao := serv_desc;
             Servico.nbs := serv_nbs;
             Servico.local_prestacao := serv_local |};
        Dps.valores_dps := {| ValoresDps.valor_servico := valor_servico |} |}.

(** lines 301-344: [formatted], with [dps: {}] *)
Definition format_main (inf : JsValue) (xmlPath : string) : Res NfseDetail :=
  id <- getNested inf "$.Id" ;;
  municipio_emissor <- getNested inf "xLocEmi" ;;
  municipio_prestacao <- getNested inf "xLocPrestacao" ;;
  numero_nfse <- getNested inf "nNFSe" ;;
  codigo_municipio_incidencia <- getNested inf "cLocIncid" ;;
  municipio_incidencia <- getNested inf "xLocIncid" ;;
  tributacao_nacional <- getNested inf "xTribNac" ;;
  nbs <- getNested inf "xNBS" ;;
  versao_aplicativo <- getNested inf "verAplic" ;;
  ambiente_gerador <- getNested inf "ambGer" ;;
  tipo_emissao <- getNested inf "tpEmis" ;;
  processo_emissao <- getNested inf "procEmi" ;;
  status_emissao <- getNested inf "cStat" ;;
  data_hora_processamento <- getNested inf "dhProc" ;;
  numero_documento_municipal <- getNested inf "nDFSe" ;;
  emit_cnpj <- getNested inf "emit.CNPJ" ;;
  emit_im <- getNested inf "emit.IM" ;;
  emit_nome <- getNested inf "emit.xNome" ;;
  emit_lgr <- getNested inf "emit.enderNac.xLgr" ;;
  emit_nro <- getNested inf "emit.enderNac.nro" ;;
  emit_bairro <- getNested inf "emit.enderNac.xBairro" ;;
  emit_mun <- getNested inf "emit.enderNac.cMun" ;;
  emit_uf <- getNested inf "emit.enderNac.UF" ;;
  emit_cep <- getNested inf "emit.enderNac.CEP" ;;
  emit_fone <- getNested inf "emit.fone" ;;
  emit_email <- getNested inf "emit.email" ;;
  base_calculo <- getNested inf "valores.vBC" ;;
  aliquota <- getNested inf "valores.pAliqAplic" ;;
  issqn <- getNested inf "valores.vISSQN" ;;
  total_retencoes <- getNested inf "valores.vTotalRet" ;;
  valor_liquido <- getNested inf "valores.vLiq" ;;
  valor_deducao <- getNested inf "valores.vCalcDR" ;;
  Ok {| cabecalho :=
          {| Cabecalho.id := id;
             Cabecalho.municipio_emissor := municipio_emissor;
             Cabecalho.municipio_prestacao := municipio_prestacao;
             Cabecalho.numero_nfse := numero_nfse;
             Cabecalho.codigo_municipio_incidencia := codigo_municipio_incidencia;
             Cabecalho.municipio_incidencia := municipio_incidencia;
             Cabecalho.tributacao_nacional := tributacao_nacional;
             Cabecalho.nbs := nbs;
             Cabecalho.versao_aplicativo := versao_aplicativo;
             Cabecalho.ambiente_gerador := ambiente_gerador;
             Cabecalho.tipo_emissao := tipo_emissao;
             Cabecalho.processo_emissao := processo_emissao;
             Cabecalho.status_emissao := status_emissao;
             Cabecalho.data_hora_processamento := data_hora_processamento;
             Cabecalho.numero_documento_municipal := numero_documento_municipal |};
        emitente :=
          {| Emitente.cnpj := emit_cnpj;
             Emitente.inscricao_municipal := emit_im;
             Emitente.razao_social := emit_nome;
             Emitente.endereco :=
               {| Endereco.logradouro := emit_lgr;
                  Endereco.numero := emit_nro;
                  Endereco.bairro := emit_bairro;
                  Endereco.codigo_municipio := emit_mun;
                  Endereco.uf := emit_uf;
                  Endereco.cep := emit_cep |};
             Emitente.telefone := emit_fone;
             Emitente.email := emit_email |};
        valores :=
          {| Valores.base_calculo := base_calculo;
             Valores.aliquota := aliquota;
             Valores.issqn := issqn;
             Valores.total_retencoes := total_retencoes;
             Valores.valor_liquido := valor_liquido;
             Valores.valor_deducao := valor_deducao |};
        dps := None;
        xml_path := xmlPath |}.

(** [formatted.dps = {...}] *)
Definition with_dps (formatted : NfseDetail) (d : Dps.t) : NfseDetail :=
  {| cabecalho := cabecalho formatted;
     emitente := emitente formatted;
     valores := valores formatted;
     dps := Some d;
     xml_path := xml_path formatted |}.

Definition formatNfseResult (xmlObj : JsValue) (xmlPath : string) : Res Formatted :=
  if negb (truthy (root_node xmlObj)) then Ok (RawDetail xmlObj xmlPath)
  else
    inf <- getNested xmlObj "NFSe.infNFSe" ;;
    formatted <- format_main inf xmlPath ;;
    dps <- getNested inf "DPS.infDPS" ;;
    if truthy dps then
      d <- format_dps dps ;;
      Ok (Detail (with_dps formatted d))
    else Ok (Detail formatted).

(** The leaves of a detail record, in the order of the source. *)
Definition dps_leaves (d : Dps.t) : list JsValue :=
  [Dps.id d; Dps.tipo_ambiente d; Dps.data_emissao d; Dps.numero_dps d; Dps.serie d;
   Dps.competencia d; Dps.tipo_emitente d; Dps.local_emissao d;
   Prestador.cnpj (Dps.prestador d); Prestador.inscricao_municipal (Dps.prestador d);
   Tomador.cnpj (Dps.tomador d); Tomador.cpf (Dps.tomador d);
   Tomador.razao_social (Dps.tomador d);
   EnderecoTomador.logradouro (Tomador.endereco (Dps.tomador d));
   EnderecoTomador.numero (Tomador.endereco (Dps.tomador d));
   EnderecoTomador.bairro (Tomador.endereco (Dps.tomador d));
   EnderecoTomador.codigo_municipio (Tomador.endereco (Dps.tomador d));
   EnderecoTomador.cep (Tomador.endereco (Dps.tomador d));
   Servico.codigo_tributacao_nacional (Dps.servico d); Servico.descricao (Dps.servico d);
   Servico.nbs (Dps.servico d); Servico.local_prestacao (Dps.servico d);
   ValoresDps.valor_servico (Dps.valores_dps d)].

Definition main_leaves (f : NfseDetail) : list JsValue :=
  let c := cabecalho f in
  let e := emitente f in
  let a := Emitente.endereco e in
  let v := valores f in
  [Cabecalho.id c; Cabecalho.municipio_emissor c; Cabecalho.municipio_prestacao c;
   Cabecalho.numero_nfse c; Cabecalho.codigo_municipio_incidencia c;
   Cabecalho.municipio_incidencia c; Cabecalho.tributacao_nacional c; Cabecalho.nbs c;
   Cabecalho.versao_aplicativo c; Cabecalho.ambiente_gerador c; Cabecalho.tipo_emissao c;
   Cabecalho.processo_emissao c; Cabecalho.status_emissao c;
   Cabecalho.data_hora_processamento c; Cabecalho.numero_documento_municipal c;
   Emitente.cnpj e; Emitente.inscricao_municipal e; Emitente.razao_social e;
   Endereco.logradouro a; Endereco.numero a; Endereco.bairro a;
   Endereco.codigo_municipio a; Endereco.uf a; Endereco.cep a;
   Emitente.telefone e; Emitente.email e;
   Valores.base_calculo v; Valores.aliquota v; Valores.issqn v;
   Valores.total_retencoes v; Valores.valor_liquido v; Valores.valor_deducao v].

Definition leaves (f : NfseDetail) : list JsValue :=
  (main_leaves f ++ match dps f with
                    | Some d => dps_leaves d
                    | None => []
                    end)%list.

End Normalizer.

(** ** Storage ([store_file], storage_utils.ts) and the detail fetcher
       ([get_nfse], [get_nfse_pdf], nfse.ts 388-441) *)

Module Fetcher.
Import Http Nested Normalizer.

(** What [parseStringPromise] of xml2js makes of a body. *)
Inductive XmlParsed : Type :=
| XmlError (message : string)
| XmlTree (tree : JsValue).

(** the extension, with its leading dot *)
Definition dotted (ext : string) : string :=
  if Str.startsWith "." ext then ext else "." ++ ext.

Definition nfse_url (key : string) : string :=
  "https://www.nfse.gov.br/EmissorNacional/Notas/Download/NFSe/" ++ key.

Definition danfse_url (key : string) : string :=
  "https://www.nfse.gov.br/EmissorNacional/Notas/Download/DANFSe/" ++ key.

Definition download_request (address cookieHeader : string) : Request :=
  {| url := address; pfx := None; cookie := Some cookieHeader; params := [] |}.

Section Portal.

Variable World : Type.
Variable transport : Request -> World -> Transport * World.
Variable parseStringPromise : string -> XmlParsed.

(** the storage root, the name generator and the file system *)
Variable STORAGE_PATH : string.
Variable path_join : string -> string -> string.
Variable uuidv4 : World -> string * World.
(** [fs.writeFileSync(path, body)]: [Some message] when it throws *)
Variable fs_writeFileSync : string -> string -> World -> option string * World.

Definition store_file (body ext : string) (w : World) : Res string * World :=
  let ext := dotted ext in
  let '(uuid, w1) := uuidv4 w in
  let fileName := uuid ++ ext in
  let filePath := path_join STORAGE_PATH fileName in
  let '(failure, w2) := fs_writeFileSync filePath body w1 in
  match failure with
  | None => (Ok filePath, w2)
  | Some message =>
      (Throw (ApplicationException ("Falha ao salvar arquivo: " ++ message)), w2)
  end.

(** the [catch] of [get_nfse] and of [get_nfse_pdf] *)
Definition rethrow (what key : string) (error : Exn) : Exn :=
  if is_unauthenticated error then error
  else ApplicationException (what ++ key ++ ": " ++ error_message error).

(** the [try] block of [get_nfse] *)
Definition get_nfse_try (cookies : list string) (key : string) (w : World)
  : Res Formatted * World :=
  let '(t, w1) := transport (download_request (nfse_url key) (Str.join "; " cookies)) w in
  match axios_get t with
  | Throw e => (Throw e, w1)
  | Ok response =>
      match checkAuthentication response with
      | Throw e => (Throw e, w1)
      | Ok _ =>
          let xmlData := body response in
          match parseStringPromise xmlData with
          | XmlError m => (Throw (JsError m), w1)
          | XmlTree result =>
              let '(saved, w2) := store_file xmlData ".xml" w1 in
              match saved with
              | Throw e => (Throw e, w2)
              | Ok savedPath => (formatNfseResult result savedPath, w2)
              end
          end
      end
  end.

Definition get_nfse (cookies : list string) (key : string) (w : World)
  : Res Formatted * World :=
  let '(r, w1) := get_nfse_try cookies key w in
  match r with
  | Ok v => (Ok v, w1)
  | Throw error => (Throw (rethrow "Falha ao obter NFSe " key error), w1)
  end.

Definition get_nfse_pdf_try (cookies : list string) (key : string) (w : World)
  : Res string * World :=
  let '(t, w1) := transport (download_request (danfse_url key) (Str.join "; " cookies)) w in
  match axios_get t with
  | Throw e => (Throw e, w1)
  | Ok response =>
      match checkAuthentication response with
      | Throw e => (Throw e, w1)
      | Ok _ => store_file (body response) ".pdf" w1
      end
  end.

Definition get_nfse_pdf (cookies : list string) (key : string) (w : World)
  : Res string * World :=
  let '(r, w1) := get_nfse_pdf_try cookies key w in
  match r with
  | Ok v => (Ok v, w1)
  | Throw error => (Throw (rethrow "Falha ao obter PDF da NFSe " key error), w1)
  end.

End Portal.

(** the accepted answer to a request references the login path *)
Definition redirected (t : Transport) : Prop :=
  exists response,
    t = Answer response
    /\ validateStatus (Http.status response) = true
    /\ references_login response = true.

(** the path under which a result was stored *)
Definition stored_path (f : Formatted) : string :=
  match f with
  | Detail d => xml_path d
  | RawDetail _ p => p
  end.

End Fetcher.

(** ** Sample documents *)

Module DemoXml.
Import Nested Normalizer.

(** the record of a document whose information node is empty *)
Definition null_detail (xmlPath : string) : NfseDetail :=
  {| cabecalho :=
       {| Cabecalho.id := JNull; Cabecalho.municipio_emissor := JNull;
          Cabecalho.municipio_prestacao := JNull; Cabecalho.numero_nfse := JNull;
          Cabecalho.codigo_municipio_incidencia := JNull;
          Cabecalho.municipio_incidencia := JNull;
          Cabecalho.tributacao_nacional := JNull; Cabecalho.nbs := JNull;
          Cabecalho.versao_aplicativo := JNull; Cabecalho.ambiente_gerador := JNull;
          Cabecalho.tipo_emissao := JNull; Cabecalho.processo_emissao := JNull;
          Cabecalho.status_emissao := JNull;
          Cabecalho.data_hora_processamento := JNull;
          Cabecalho.numero_documento_municipal := JNull |};
     emitente :=
       {| Emitente.cnpj := JNull; Emitente.inscricao_municipal := JNull;
          Emitente.razao_social := JNull;
          Emitente.endereco :=
            {| Endereco.logradouro := JNull; Endereco.numero := JNull;
               Endereco.bairro := JNull; Endereco.codigo_municipio := JNull;
               Endereco.uf := JNull; Endereco.cep := JNull |};
          Emitente.telefone := JNull; Emitente.email := JNull |};
     valores :=
       {| Valores.base_calculo := JNull; Valores.aliquota := JNull;
          Valores.issqn := JNull; Valores.total_retencoes := JNull;
          Valores.valor_liquido := JNull; Valores.valor_deducao := JNull |};
     dps := None;
     xml_path := xmlPath |}.

(** [<NFSe><infNFSe Id="N1"><nNFSe>42</nNFSe><emit><CNPJ>123</CNPJ></emit>
    </infNFSe></NFSe>] as xml2js parses it *)
Definition small_nfse : JsValue :=
  JObject [("NFSe",
    JObject [("infNFSe",
      JArray [JObject [("$", JObject [("Id", JString "N1")]);
                       ("nNFSe", JArray [JString "42"]);
                       ("emit", JArray [JObject [("CNPJ", JArray [JString "123"])]])]])])].

(** [<NFSe><infNFSe/></NFSe>]: an empty information node *)
Definition empty_inf : JsValue :=
  JObject [("NFSe", JObject [("infNFSe", JArray [JString ""])])].

(** [<Erro><msg>x</msg></Erro>]: another document *)
Definition other_document : JsValue :=
  JObject [("Erro", JObject [("msg", JArray [JString "x"])])].

End DemoXml.

(** ** The fetcher on the scripted portal *)

Module DemoFetch.
Import Http Nested Normalizer Fetcher DemoXml.

Definition parseStringPromise (xmlData : string) : XmlParsed :=
  if String.eqb xmlData "<NFSe>small</NFSe>" then XmlTree small_nfse
  else if String.eqb xmlData "<Erro/>" then XmlTree other_document
  else if String.eqb xmlData " " then XmlTree JNull
  else XmlError "Non-whitespace before first tag.".

Definition STORAGE_PATH : string := "/app/storage".
Definition path_join (dir name : string) : string := dir ++ "/" ++ name.

(** a name generator that always gives the same name, and a disk that
    takes everything but empty files *)
Definition uuidv4 (w : Demo.World) : string * Demo.World :=
  ("3f2c7d2e-0000-4000-8000-000000000001", w).

Definition fs_writeFileSync (path body : string) (w : Demo.World)
  : option string * Demo.World :=
  if String.eqb body "" then (Some "ENOSPC: no space left on device", w)
  else (None, w).

Definition get_nfse :=
  Fetcher.get_nfse Demo.World Demo.transport parseStringPromise
    STORAGE_PATH path_join uuidv4 fs_writeFileSync.

Definition get_nfse_pdf :=
  Fetcher.get_nfse_pdf Demo.World Demo.transport
    STORAGE_PATH path_join uuidv4 fs_writeFileSync.

End DemoFetch.

(** ** The shape of a formatted date *)

Module DatesMore.

Definition two_digits (s : string) : bool :=
  (String.length s =? 2)%nat && Str.all_chars Str.is_digit s.

Definition four_digits (s : string) : bool :=
  (String.length s =? 4)%nat && Str.all_chars Str.is_digit s.

End DatesMore.

(** ** Dates in a time zone

    A [Date] holds a time value, the milliseconds since
    1970-01-01T00:00:00Z.  [getDate], [getMonth], [getFullYear] and
    [setDate] go through the local time of the zone the process runs in,
    comparisons do not.  [Dates] and [Crawler] above are this model in a
    zone whose offset is 0 (or, the same arithmetic, on the local readings
    of a zone whose offset never changes); here the zone is a parameter,
    with its changes of offset. *)

Module Zoned.
Import Dates Http Scrape Crawler.

Definition Instant : Type := Z.

(** A time zone, as ECMAScript reads it: [offset_at t] is
    LocalTZA(t, true), the offset in force at the instant [t];
    [offset_of_local l] is LocalTZA(l, false), the offset by which the
    local time value [l] is read.  A local time that a change of offset
    skips or repeats is read with the offset in force before the change. *)
Record TimeZone : Type := {
  offset_at : Instant -> Z;
  offset_of_local : Z -> Z
}.

(** LocalTime(t) *)
Definition LocalTime (tz : TimeZone) (t : Instant) : Z := t + offset_at tz t.

(** UTC(t) *)
Definition UTC (tz : TimeZone) (local : Z) : Instant := local - offset_of_local tz local.

(** [d.setDate(d.getDate() + k)]: the local date moves by [k] days
    (MakeDay on the day of the month plus [k]), the local time within the
    day is kept, and the result is read back as an instant. *)
Definition setDate_plus (tz : TimeZone) (d : Instant) (k : Z) : Instant :=
  UTC tz (LocalTime tz d + k * msPerDay).

(** [formatDate] (nfse.ts 119-124): the local day, month and year *)
Definition formatDate (tz : TimeZone) (date : Instant) : string :=
  Dates.formatDate (LocalTime tz date).

Definition listing_request (tz : TimeZone) (cookieHeader : string)
    (currentStart chunkEnd : Instant) : Request :=
  {| url := listing_url;
     pfx := None;
     cookie := Some cookieHeader;
     params := [("busca", ""); ("datainicio", formatDate tz currentStart);
                ("datafim", formatDate tz chunkEnd)] |}.

(** lines 180-185 *)
Definition chunk_end (tz : TimeZone) (currentStart end_ : Instant) : Instant :=
  let chunkEnd := setDate_plus tz currentStart 29 in
  if chunkEnd >? end_ then end_ else chunkEnd.

Definition error_line (tz : TimeZone) (currentStart chunkEnd : Instant) (e : Exn) : string :=
  "Error fetching for period " ++ formatDate tz currentStart ++ " to "
  ++ formatDate tz chunkEnd ++ ": " ++ error_message e.

(** The windows the loop goes through when nothing stops it. *)
Fixpoint windows_from (tz : TimeZone) (fuel : nat) (currentStart end_ : Instant)
  : list (Instant * Instant) :=
  match fuel with
  | O => []
  | S fuel' =>
      if currentStart <=? end_ then
        let chunkEnd := chunk_end tz currentStart end_ in
        (currentStart, chunkEnd) :: windows_from tz fuel' (setDate_plus tz chunkEnd 1) end_
      else []
  end.

Definition windows (tz : TimeZone) (data_inicio data_fim : Instant)
  : list (Instant * Instant) :=
  windows_from tz (fuel_for data_inicio data_fim) data_inicio data_fim.

(** the local calendar days a window's request names *)
Definition local_days (tz : TimeZone) (w : Instant * Instant) : Z * Z :=
  (dayOf (LocalTime tz (fst w)), dayOf (LocalTime tz (snd w))).

Section Portal.

Variable tz : TimeZone.
Variable World : Type.
Variable transport : Request -> World -> Transport * World.
Variable cheerio_rows : string -> Parsed.

(** The [while (currentStart <= end)] loop (nfse.ts 179-261); [None] when
    [fuel] iterations were not enough. *)
Fixpoint crawl (fuel : nat) (cookieHeader : string) (currentStart end_ : Instant)
    (allNfses : list NfseListItem) (w : World) : option (Run World) :=
  match fuel with
  | O => None
  | S fuel' =>
      if currentStart <=? end_ then
        let chunkEnd := chunk_end tz currentStart end_ in
        let req := listing_request tz cookieHeader currentStart chunkEnd in
        let '(t, w1) := transport req w in
        let ex := {| window := (currentStart, chunkEnd); request := req; outcome := t |} in
        match window_items cheerio_rows t with
        | Ok items =>
            after World ex []
              (crawl fuel' cookieHeader (setDate_plus tz chunkEnd 1) end_ (allNfses ++ items) w1)
        | Throw e =>
            if is_unauthenticated e then
              Some {| result := Throw e; exchanges := [ex]; console := []; final := w1 |}
            else
              after World ex [error_line tz currentStart chunkEnd e]
                (crawl fuel' cookieHeader (setDate_plus tz chunkEnd 1) end_ allNfses w1)
        end
      else
        Some {| result := Ok allNfses; exchanges := []; console := []; final := w |}
  end.

Definition buscar_nfse (cookies : list string) (data_inicio data_fim : Instant)
    (w : World) : option (Run World) :=
  crawl (fuel_for data_inicio data_fim) (Str.join "; " cookies)
        data_inicio data_fim [] w.

(** A run with its windows read as local times in a zone of offset [c]. *)
Definition shift_exchange (c : Z) (ex : Exchange) : Exchange :=
  {| window := (fst (window ex) + c, snd (window ex) + c);
     request := request ex;
     outcome := outcome ex |}.

Definition localize (c : Z) (run : Run World) : Run World :=
  {| result := result run;
     exchanges := map (shift_exchange c) (exchanges run);
     console := console run;
     final := final run |}.

End Portal.

(** The offset of the zone is [c] from the instant [from] to the instant
    [till], and for the local times of these instants. *)
Definition steady (tz : TimeZone) (c : Z) (from till : Instant) : Prop :=
  (forall t, from <= t <= till -> offset_at tz t = c)
  /\ (forall l, from + c <= l <= till + c -> offset_of_local tz l = c).

Definition hour : Z := 3600000.

Definition utc : TimeZone :=
  {| offset_at := fun _ => 0; offset_of_local := fun _ => 0 |}.

(** America/Sao_Paulo from 2018-02-18 on: UTC-3, but UTC-2 from
    2018-11-04T03:00Z (local midnight, when the clocks went to 01:00) to
    2019-02-17T02:00Z (when they went back from 00:00 to 23:00); no
    change since. *)
Definition dst_2018_begins : Instant := 17839 * msPerDay + 3 * hour.
Definition dst_2018_ends : Instant := 17944 * msPerDay + 2 * hour.

Definition sao_paulo : TimeZone :=
  {| offset_at := fun t =>
       if t <? dst_2018_begins then -3 * hour
       else if t <? dst_2018_ends then -2 * hour
       else -3 * hour;
     offset_of_local := fun l =>
       if l <? 17839 * msPerDay + 1 * hour then -3 * hour
       else if l <? 17944 * msPerDay then -2 * hour
       else -3 * hour |}.

(** 2018-10-06 00:00 and 2018-12-05 00:30, Sao Paulo time *)
Definition oct_6_2018 : Instant := 17810 * msPerDay + 3 * hour.
Definition dec_5_2018 : Instant := 17870 * msPerDay + 2 * hour + 1800000.

(** 2024-01-01 00:00:00 and 2024-03-30 23:59:59, Sao Paulo time: ninety
    days *)
Definition jan_1_2024 : Instant := 19723 * msPerDay + 3 * hour.
Definition mar_30_2024_night : Instant := 19812 * msPerDay + 86399000 + 3 * hour.

End Zoned.

(** ** Property reads with the prototype chain

    [current[part]] looks for [part] among the own properties of
    [current] and then along its prototype chain.  [Nested.get_prop] above
    is the own-property part, which is the whole of it for the names no
    prototype defines; here the prototypes are a parameter. *)

Module Proto.
Import Nested.

Section Engine.

(** What the prototype chain of [current] gives for a name that is not an
    own property of it: [None] when no prototype has the name, [Some] of
    the value read or of the exception of the accessor otherwise.  An
    inherited function or object is given by the own properties that are
    read of it. *)
Variable inherited : JsValue -> string -> option (Res JsValue).

Definition own_property (current : JsValue) (part : string) : option JsValue :=
  match current with
  | JObject fields => assoc part fields
  | JArray items =>
      if String.eqb part "length" then Some (JNumber (Z.of_nat (List.length items)))
      else match array_index part with
           | Some i => nth_error items i
           | None => None
           end
  | JString s =>
      if String.eqb part "length" then Some (JNumber (Z.of_nat (String.length s)))
      else match array_index part with
           | Some i => option_map (fun c => JString (String c EmptyString)) (string_at i s)
           | None => None
           end
  | _ => None
  end.

(** [(current as Record<string, unknown>)[part]] *)
Definition get_prop (current : JsValue) (part : string) : Res JsValue :=
  match current with
  | JNull | JUndefined =>
      Throw (JsError "TypeError: Cannot read properties of null or undefined")
  | _ =>
      match own_property current part with
      | Some v => Ok v
      | None =>
          match inherited current part with
          | Some r => r
          | None => Ok JUndefined
          end
      end
  end.

(** The [for (const part of parts)] loop and the code after it. *)
Fixpoint walk (parts : list string) (current : JsValue) : Res JsValue :=
  match parts with
  | [] => Ok (or_null (unwrap current))
  | part :: rest =>
      if nullish current then Ok JNull
      else match get_prop (unwrap current) part with
           | Ok next => walk rest next
           | Throw e => Throw e
           end
  end.

Definition getNested (obj : JsValue) (path : string) : Res JsValue :=
  if negb (truthy obj) then Ok JNull
  else if String.eqb path "" then Ok obj
  else walk (Str.split "."%char path) obj.

(** A field name: a name to which no built-in gives a meaning.  It is not
    [length] nor an index (own properties of arrays and strings), and no
    prototype defines it. *)
Definition field_name (part : string) : Prop :=
  part <> "length" /\ array_index part = None /\ forall v, inherited v part = None.

End Engine.

(** An engine without prototypes. *)
Definition no_prototype (v : JsValue) (name : string) : option (Res JsValue) := None.

(** A fragment of an engine, for the examples.  A function is given by
    its own properties [name] and [length], in this order; the function
    [Object] is: *)
Definition object_constructor : JsValue :=
  JObject [("name", JString "Object"); ("length", JNumber 1)].

Definition stands_for_function (v : JsValue) : bool :=
  match v with
  | JObject [(n, JString _); (l, JNumber _)] =>
      String.eqb n "name" && String.eqb l "length"
  | _ => false
  end.

Definition poison_pill : string :=
  "TypeError: 'caller', 'callee', and 'arguments' properties may not be accessed on strict mode functions or the arguments objects for calls to them".

(** What the prototypes give in this fragment: to an object, the member
    [constructor] of [Object.prototype]; to a function, the accessors
    [caller] and [arguments] of [Function.prototype], which throw for a
    built-in function.  The other members are not needed by the
    examples. *)
Definition object_prototype (v : JsValue) (name : string) : option (Res JsValue) :=
  match v with
  | JObject _ =>
      if stands_for_function v then
        if String.eqb name "caller" || String.eqb name "arguments"
        then Some (Throw (JsError poison_pill))
        else None
      else if String.eqb name "constructor" then Some (Ok object_constructor)
      else None
  | _ => None
  end.

End Proto.

(** ** Texts within ASCII

    On a text whose characters are all ASCII the whitespace of [trim],
    of [\s] and of [parseFloat] is the one of [Str.is_space]; beyond
    ASCII JavaScript has more whitespace (U+00A0, U+2028, ...). *)

Module AsciiText.

Definition is_ascii (c : ascii) : bool := (nat_of_ascii c <? 128)%nat.

Definition ascii_text (s : string) : bool := Str.all_chars is_ascii s.

End AsciiText.

(** * Properties *)

(** *** Properties of the extractor *)

Module NestedFacts.
Import Nested.

Lemma wrapped_nth (items : list JsValue) (i : nat) :
  forallb wrapped items = true -> wrapped (nth i items JUndefined) = true.
Proof.
  revert i; induction items as [|x xs IH]; intros [|i] H; simpl in *; auto;
    apply andb_prop in H; destruct H; auto.
Qed.

Lemma wrapped_assoc (name : string) (fields : list (string * JsValue)) (v : JsValue) :
  forallb (fun kv => match kv with (_, x) => wrapped x end) fields = true ->
  assoc name fields = Some v -> wrapped v = true.
Proof.
  induction fields as [|[k x] rest IH]; simpl; intros H E; [discriminate|].
  apply andb_prop in H; destruct H as [Hx Hrest].
  destruct (String.eqb k name); [injection E as <-; exact Hx | auto].
Qed.

(** On a wrapped tree the code's [current[0]] and the specification's
    "first element" agree, and unwrapping never yields null or absent. *)
Lemma wrapped_unwrap (v : JsValue) :
  wrapped v = true -> nullish v = false ->
  unwrap v = first_element v /\ nullish (unwrap v) = false /\ wrapped (unwrap v) = true.
Proof.
  destruct v as [| | b | n | s | items | fields]; simpl; intros W N;
    try discriminate; auto.
  destruct items as [|x xs]; simpl in *; [discriminate|].
  apply andb_prop in W; destruct W as [Hx Hall].
  apply andb_prop in Hall; destruct Hall as [Wx _].
  destruct (nullish x); [discriminate | auto].
Qed.

(** Reading a property of a node that is not null or absent does not
    throw, and stays within wrapped trees. *)
Lemma wrapped_get_prop (v : JsValue) (part : string) :
  wrapped v = true -> nullish v = false ->
  exists x, get_prop v part = Ok x /\ wrapped x = true.
Proof.
  destruct v as [| | b | n | s | items | fields]; simpl; intros W N;
    try discriminate; eauto.
  - destruct (String.eqb part "length"); [eauto|].
    destruct (array_index part) as [i|]; [|eauto].
    destruct (string_at i s); eauto.
  - apply andb_prop in W; destruct W as [_ Hall].
    destruct (String.eqb part "length"); [eauto|].
    destruct (array_index part) as [i|]; [|eauto].
    eexists; split; [reflexivity | apply wrapped_nth; exact Hall].
  - destruct (assoc part fields) as [x|] eqn:E; [|eauto].
    eexists; split; [reflexivity | eapply wrapped_assoc; eauto].
Qed.

Lemma walk_follow (parts : list string) :
  forall v, wrapped v = true -> walk parts v = Ok (follow parts v).
Proof.
  induction parts as [|part rest IH]; intros v W; simpl.
  - destruct (nullish v) eqn:N.
    + destruct v; try discriminate; reflexivity.
    + destruct (wrapped_unwrap v W N) as [-> _]; reflexivity.
  - destruct (nullish v) eqn:N; [reflexivity|].
    destruct (wrapped_unwrap v W N) as [E [N' W']].
    rewrite <- E, N'.
    destruct (wrapped_get_prop (unwrap v) part W' N') as [x [G Wx]].
    unfold field; rewrite G. apply IH; exact Wx.
Qed.

(** On a tree whose sequences each start with an element that is neither
    null nor absent, reading own properties only, [getNested] returns what
    the rule [get_spec] gives, null for a falsy tree. *)
Lemma getNested_own_rule (tree : JsValue) (path : string) :
  wrapped tree = true ->
  getNested tree path = Ok (if truthy tree then get_spec tree path else JNull).
Proof.
  intros W. unfold getNested, get_spec.
  destruct (truthy tree); simpl; [|reflexivity].
  destruct (String.eqb path ""); [reflexivity|].
  apply walk_follow; exact W.
Qed.

End NestedFacts.

(** *** The extractor with the prototype chain *)

Module ProtoFacts.
Import Nested NestedFacts.

Lemma nth_nth_error (items : list JsValue) (i : nat) :
  nth i items JUndefined
  = match nth_error items i with Some v => v | None => JUndefined end.
Proof.
  revert i; induction items as [|x xs IH]; intros [|i]; cbn; auto.
Qed.

Section Engine.

Variable inherited : JsValue -> string -> option (Res JsValue).

(** For a name that no prototype defines, a property read is a read of
    the own properties. *)
Lemma get_prop_own (current : JsValue) (part : string) :
  (forall v, inherited v part = None) ->
  Proto.get_prop inherited current part = Nested.get_prop current part.
Proof.
  intros N. unfold Proto.get_prop, Nested.get_prop, Proto.own_property.
  destruct current as [| | b | n | s | items | fields].
  - reflexivity.
  - reflexivity.
  - rewrite N. reflexivity.
  - rewrite N. reflexivity.
  - destruct (String.eqb part "length"); [reflexivity|].
    destruct (array_index part) as [i|]; [|rewrite N; reflexivity].
    destruct (string_at i s); cbn [option_map]; [|rewrite N]; reflexivity.
  - destruct (String.eqb part "length"); [reflexivity|].
    destruct (array_index part) as [i|]; [|rewrite N; reflexivity].
    rewrite nth_nth_error. destruct (nth_error items i); [|rewrite N]; reflexivity.
  - destruct (assoc part fields); [|rewrite N]; reflexivity.
Qed.

Lemma walk_own (parts : list string) :
  Forall (Proto.field_name inherited) parts ->
  forall v, Proto.walk inherited parts v = Nested.walk parts v.
Proof.
  induction 1 as [|part rest [_ [_ N]] _ IH]; intros v; [reflexivity|].
  cbn [Proto.walk Nested.walk]. rewrite (get_prop_own _ _ N).
  destruct (nullish v); [reflexivity|].
  destruct (Nested.get_prop (unwrap v) part); [apply IH | reflexivity].
Qed.

(** C2 (as amended): on every tree whose sequences each start with an
    element that is neither null nor absent, and for every dotted path of
    field names (names that are not [length] nor an index and that no
    prototype defines), [getNested] returns a value and never throws; a
    falsy tree (null, absent, false, 0, the empty string) gives null
    whatever the path; otherwise the result is the one of the
    unwrap-then-index rule [get_spec]: the whole tree for the empty path,
    and else first element of a sequence, then the field, step by step,
    null as soon as a node is null or absent, and a final unwrapping.  The
    four examples of the specification hold as written. *)
Theorem getNested_unwrap_then_index (tree : JsValue) (path : string) :
  wrapped tree = true ->
  path = "" \/ Forall (Proto.field_name inherited) (Str.split "."%char path) ->
  Proto.getNested inherited tree path
  = Ok (if truthy tree then get_spec tree path else JNull)
  /\ (Proto.field_name inherited "a" -> Proto.field_name inherited "b" ->
      Proto.getNested inherited JNull "a.b" = Ok JNull
      /\ Proto.getNested inherited tree_empty "a.b" = Ok JNull
      /\ Proto.getNested inherited tree_a_empty "a.b" = Ok JNull
      /\ Proto.getNested inherited tree_a_b_x "a.b" = Ok (JString "x")).
Proof.
  intros W F. split.
  - unfold Proto.getNested, get_spec.
    destruct (truthy tree); cbn [negb]; [|reflexivity].
    destruct (String.eqb path "") eqn:E; [reflexivity|].
    destruct F as [-> | F]; [discriminate|].
    rewrite (walk_own _ F). apply walk_follow; exact W.
  - intros Fa Fb. split; [reflexivity|].
    assert (Fab : Forall (Proto.field_name inherited) ["a"; "b"])
      by (constructor; [exact Fa | constructor; [exact Fb | constructor]]).
    unfold Proto.getNested. cbn [truthy negb String.eqb Ascii.eqb Bool.eqb tree_empty tree_a_empty tree_a_b_x].
    change (Str.split "." "a.b") with ["a"; "b"].
    rewrite !(walk_own _ Fab). repeat split; reflexivity.
Qed.

End Engine.

(** Without prototypes the extractor of [Proto] is the one of [Nested]. *)
Lemma getNested_no_prototype (tree : JsValue) (path : string) :
  Proto.getNested Proto.no_prototype tree path = Nested.getNested tree path.
Proof.
  unfold Proto.getNested, Nested.getNested.
  destruct (negb (truthy tree)); [reflexivity|].
  destruct (String.eqb path ""); [reflexivity|].
  generalize (Str.split "." path) as parts. intros parts. revert tree.
  induction parts as [|part rest IH]; intros v; [reflexivity|].
  cbn [Proto.walk Nested.walk]. rewrite (get_prop_own Proto.no_prototype) by reflexivity.
  destruct (nullish v); [reflexivity|].
  destruct (Nested.get_prop (unwrap v) part); [apply IH | reflexivity].
Qed.

Lemma object_prototype_field_name (part : string) :
  part <> "length" -> array_index part = None ->
  String.eqb part "constructor" = false ->
  String.eqb part "caller" = false -> String.eqb part "arguments" = false ->
  Proto.field_name Proto.object_prototype part.
Proof.
  intros L I C1 C2 C3. split; [exact L|]. split; [exact I|].
  intros v. unfold Proto.object_prototype. destruct v; try reflexivity.
  rewrite C1, C2, C3. destruct (Proto.stands_for_function _); reflexivity.
Qed.

Lemma getNested_unwrap_then_index_witness :
  wrapped tree_a_b_x = true
  /\ Forall (Proto.field_name Proto.object_prototype) (Str.split "."%char "a.b")
  /\ Proto.getNested Proto.object_prototype tree_a_b_x "a.b"
     = Ok (get_spec tree_a_b_x "a.b").
Proof.
  assert (F : Forall (Proto.field_name Proto.object_prototype) (Str.split "."%char "a.b")).
  { constructor; [|constructor; [|constructor]];
      apply object_prototype_field_name; first [discriminate | reflexivity]. }
  split; [reflexivity|]. split; [exact F|].
  exact (proj1 (getNested_unwrap_then_index Proto.object_prototype tree_a_b_x "a.b"
                  eq_refl (or_intror F))).
Defined.

(** C2 as stated fails three times.  With the empty path the whole tree is
    not returned when the tree is falsy: the guard [if (!obj) return null]
    comes first.  The null test of the loop precedes the unwrapping, so an
    empty sequence (or one that starts with null) met before the last
    segment makes the property read throw a TypeError.  And a segment that
    names a member of a prototype is not absent from a node that lacks it:
    on the empty object the path constructor.name gives the name of the
    function Object, and the path constructor.caller throws. *)
Lemma getNested_counterexample :
  Proto.getNested Proto.object_prototype (JString "") "" = Ok JNull
  /\ get_spec (JString "") "" = JString ""
  /\ Proto.getNested Proto.object_prototype (JObject [("a", JArray [])]) "a.b"
     = Throw (JsError "TypeError: Cannot read properties of null or undefined")
  /\ get_spec (JObject [("a", JArray [])]) "a.b" = JNull
  /\ wrapped tree_empty = true
  /\ Proto.getNested Proto.object_prototype tree_empty "constructor.name"
     = Ok (JString "Object")
  /\ get_spec tree_empty "constructor.name" = JNull
  /\ Proto.getNested Proto.object_prototype tree_empty "constructor.caller"
     = Throw (JsError Proto.poison_pill)
  /\ get_spec tree_empty "constructor.caller" = JNull.
Proof. repeat split; reflexivity. Qed.

End ProtoFacts.

(** *** Calendar arithmetic *)

Module DateFacts.
Import Dates.

Lemma msPerDay_pos : 0 < msPerDay.
Proof. reflexivity. Qed.

Lemma date_split (d : Date) :
  d = dayOf d * msPerDay + timeOfDay d /\ 0 <= timeOfDay d < msPerDay.
Proof.
  unfold dayOf, timeOfDay; split.
  - rewrite Z.mul_comm; apply Z.div_mod; discriminate.
  - apply Z.mod_pos_bound; reflexivity.
Qed.

Lemma dayOf_addDays (d : Date) (k : Z) : dayOf (addDays d k) = dayOf d + k.
Proof. unfold dayOf, addDays; apply Z.div_add; discriminate. Qed.

Lemma timeOfDay_addDays (d : Date) (k : Z) : timeOfDay (addDays d k) = timeOfDay d.
Proof. unfold timeOfDay, addDays; apply Z.mod_add; discriminate. Qed.

(** Comparing two dates is comparing their days, and their times of day
    when the days are equal. *)
Lemma date_le (a b : Date) :
  a <= b <-> dayOf a < dayOf b \/ (dayOf a = dayOf b /\ timeOfDay a <= timeOfDay b).
Proof.
  destruct (date_split a) as [Ea Ba], (date_split b) as [Eb Bb].
  pose proof msPerDay_pos as P.
  remember (dayOf a) as da; remember (dayOf b) as db.
  remember (timeOfDay a) as ta; remember (timeOfDay b) as tb.
  remember msPerDay as m. clear Heqda Heqdb Heqta Heqtb Heqm.
  subst a b. split.
  - intros H. destruct (Z.lt_trichotomy da db) as [L | [E | G]]; [left; exact L | right | exfalso].
    + subst db; split; [reflexivity | lia].
    + assert (db + 1 <= da) by lia. nia.
  - intros [L | [E L]]; [assert (da + 1 <= db) by lia; nia | subst; lia].
Qed.

End DateFacts.

(** *** The loop's windows are the partition *)

Module PartitionFacts.
Import Dates Crawler DateFacts Partition.

Lemma window_count_ceiling (s e : Z) :
  30 * (window_count s e - 1) < e - s + 1 <= 30 * window_count s e.
Proof.
  unfold window_count.
  pose proof (Z.div_mod (e - s + 1 + 29) 30 ltac:(discriminate)).
  pose proof (Z.mod_pos_bound (e - s + 1 + 29) 30 ltac:(reflexivity)).
  lia.
Qed.

Lemma window_count_step (s e : Z) :
  window_count s e = window_count (s + 30) e + 1.
Proof.
  unfold window_count.
  replace (e - s + 1 + 29) with (e - (s + 30) + 1 + 29 + 1 * 30) by lia.
  apply Z.div_add; discriminate.
Qed.

Lemma partition_spec_nil (s e : Z) : e < s -> partition_spec s e = [].
Proof.
  intros H. unfold partition_spec.
  pose proof (window_count_ceiling s e).
  replace (Z.to_nat (window_count s e)) with 0%nat by lia. reflexivity.
Qed.

Lemma partition_spec_cons (s e : Z) :
  s <= e ->
  partition_spec s e = (s, Z.min (s + 29) e) :: partition_spec (s + 30) e.
Proof.
  intros H. unfold partition_spec.
  pose proof (window_count_ceiling (s + 30) e).
  rewrite (window_count_step s e).
  replace (Z.to_nat (window_count (s + 30) e + 1))
    with (S (Z.to_nat (window_count (s + 30) e))) by lia.
  cbn [seq map]. f_equal.
  - unfold spec_window. f_equal; [lia | f_equal; lia].
  - rewrite <- seq_shift, map_map. apply map_ext.
    intros k. unfold spec_window. f_equal; [lia | f_equal; lia].
Qed.

Lemma chunk_end_ge (cs e : Date) : cs <= e -> cs <= chunk_end cs e.
Proof.
  intros H. unfold chunk_end, addDays.
  destruct (cs + 29 * msPerDay >? e) eqn:C; [exact H|].
  pose proof msPerDay_pos. lia.
Qed.

(** The days of the windows of the loop, when the time of day at the
    start is not later than at the end. *)
Lemma windows_from_days (fuel : nat) :
  forall cs end_,
    timeOfDay cs <= timeOfDay end_ ->
    window_count (dayOf cs) (dayOf end_) <= Z.of_nat fuel ->
    map day_window (windows_from fuel cs end_) = partition_spec (dayOf cs) (dayOf end_).
Proof.
  induction fuel as [|fuel IH]; intros cs end_ T F.
  - simpl. unfold partition_spec.
    replace (Z.to_nat (window_count (dayOf cs) (dayOf end_))) with 0%nat by lia.
    reflexivity.
  - cbn [windows_from].
    destruct (cs <=? end_) eqn:L.
    + apply Z.leb_le in L. pose proof (proj1 (date_le cs end_) L) as D.
      assert (S1 : dayOf cs <= dayOf end_) by lia.
      rewrite (partition_spec_cons _ _ S1). cbn [map].
      unfold chunk_end.
      destruct (addDays cs 29 >? end_) eqn:C.
      * (* clipped: this is the last window *)
        assert (G : ~ addDays cs 29 <= end_) by (apply Z.gtb_lt in C; lia).
        rewrite date_le, dayOf_addDays, timeOfDay_addDays in G.
        assert (E : dayOf end_ < dayOf cs + 29) by lia.
        f_equal.
        -- unfold day_window; cbn [fst snd]. f_equal. lia.
        -- rewrite partition_spec_nil by lia.
           destruct fuel as [|fuel']; [reflexivity|].
           cbn [windows_from].
           replace (addDays end_ 1 <=? end_) with false; [reflexivity|].
           symmetry; apply Z.leb_gt. unfold addDays. pose proof msPerDay_pos. lia.
      * assert (G : addDays cs 29 <= end_)
          by (destruct (Z.gtb_spec (addDays cs 29) end_); [discriminate | lia]).
        rewrite date_le, dayOf_addDays, timeOfDay_addDays in G.
        f_equal.
        -- unfold day_window; cbn [fst snd]. rewrite dayOf_addDays. f_equal. lia.
        -- rewrite IH.
           ++ rewrite !dayOf_addDays. f_equal. lia.
           ++ rewrite !timeOfDay_addDays. exact T.
           ++ rewrite !dayOf_addDays.
              rewrite (window_count_step (dayOf cs)) in F.
              replace (dayOf cs + 29 + 1) with (dayOf cs + 30) by lia. lia.
    + apply Z.leb_gt in L.
      assert (G : ~ cs <= end_) by lia. rewrite date_le in G.
      rewrite partition_spec_nil by lia. reflexivity.
Qed.

Lemma fuel_for_enough (a b : Date) :
  window_count (dayOf a) (dayOf b) <= Z.of_nat (fuel_for a b).
Proof.
  unfold fuel_for.
  pose proof (window_count_ceiling (dayOf a) (dayOf b)) as W.
  destruct (date_split a) as [Ea Ba], (date_split b) as [Eb Bb].
  pose proof msPerDay_pos as P.
  destruct (Z_lt_le_dec (dayOf b) (dayOf a)) as [L|L]; [lia|].
  assert (Q : dayOf b - dayOf a - 1 <= (b - a) / msPerDay).
  { apply Z.div_le_lower_bound; [exact P|].
    remember msPerDay as m; remember (dayOf a) as da; remember (dayOf b) as db.
    nia. }
  lia.
Qed.

Lemma partition_spec_nth (s e : Z) (k : nat) (a b : Z) :
  nth_error (partition_spec s e) k = Some (a, b) ->
  a = s + 30 * Z.of_nat k /\ b = Z.min (a + 29) e /\
  Z.of_nat k < window_count s e.
Proof.
  unfold partition_spec. rewrite nth_error_map.
  destruct (nth_error (seq 0 (Z.to_nat (window_count s e))) k) as [j|] eqn:N;
    [|discriminate].
  assert (K : (k < Z.to_nat (window_count s e))%nat).
  { rewrite <- (length_seq (Z.to_nat (window_count s e)) 0).
    apply nth_error_Some. rewrite N; discriminate. }
  rewrite nth_error_seq in N.
  destruct (Nat.ltb_spec k (Z.to_nat (window_count s e))); [|lia].
  injection N as <-. cbn [option_map Nat.add]. unfold spec_window.
  intros [= <- <-]. repeat split; lia.
Qed.

End PartitionFacts.

(** *** Properties of the crawl *)

Module CrawlerFacts.
Import Dates Http Scrape Crawler DateFacts Partition PartitionFacts.

Section Portal.

Variable World : Type.
Variable transport : Request -> World -> Transport * World.
Variable cheerio_rows : string -> Parsed.

Local Abbreviation Run := (Run World).
Local Abbreviation crawl := (crawl World transport cheerio_rows).
Local Abbreviation buscar_nfse := (buscar_nfse World transport cheerio_rows).
Local Abbreviation window_items := (window_items cheerio_rows).
Local Abbreviation contribution := (contribution cheerio_rows).
Local Abbreviation Finished := (Finished World cheerio_rows).

(** The only exception of a window that is an
    [UnauthenticatedSessionException] is the one [checkAuthentication]
    throws. *)
Lemma window_items_unauthenticated (ex : Exchange) :
  login_redirect ex = true <->
  exists e, window_items (outcome ex) = Throw e /\ is_unauthenticated e = true.
Proof.
  unfold login_redirect, Crawler.window_items, checkAuthentication.
  destruct (axios_get (outcome ex)) as [response|e0] eqn:A.
  - destruct (references_login response).
    + split; [eauto | reflexivity].
    + split; [discriminate|]. intros [e [H U]].
      destruct (cheerio_rows (body response)); [|discriminate].
      injection H as <-. discriminate.
  - split; [discriminate|]. intros [e [H U]]. injection H as <-.
    unfold axios_get in A. destruct (outcome ex) as [m|r].
    + injection A as <-. discriminate.
    + destruct (validateStatus (Http.status r)); [discriminate|].
      injection A as <-. discriminate.
Qed.

Lemma window_items_throw (t : Transport) (e : Exn) :
  window_items t = Throw e ->
  is_unauthenticated e = true -> e = UnauthenticatedSessionException.
Proof. destruct e; simpl; intros; [discriminate | reflexivity | discriminate]. Qed.

Lemma crawl_S (fuel : nat) ch cs end_ acc w :
  crawl (S fuel) ch cs end_ acc w =
  if cs <=? end_ then
    let chunkEnd := chunk_end cs end_ in
    let req := listing_request ch cs chunkEnd in
    let '(t, w1) := transport req w in
    let ex := {| window := (cs, chunkEnd); request := req; outcome := t |} in
    match window_items t with
    | Ok items =>
        after World ex [] (crawl fuel ch (addDays chunkEnd 1) end_ (acc ++ items) w1)
    | Throw e =>
        if is_unauthenticated e then
          Some {| result := Throw e; exchanges := [ex]; console := []; final := w1 |}
        else
          after World ex [error_line cs chunkEnd e]
            (crawl fuel ch (addDays chunkEnd 1) end_ acc w1)
    end
  else Some {| result := Ok acc; exchanges := []; console := []; final := w |}.
Proof. reflexivity. Qed.

(** Termination: [fuel] iterations are enough as soon as they outnumber
    the days left. *)
Lemma crawl_total (fuel : nat) :
  forall ch cs end_ acc w,
    end_ - cs < Z.of_nat fuel * msPerDay ->
    exists run, crawl (S fuel) ch cs end_ acc w = Some run.
Proof.
  induction fuel as [|fuel IH]; intros ch cs end_ acc w F; rewrite crawl_S; cbv zeta.
  - replace (cs <=? end_) with false by (symmetry; apply Z.leb_gt; lia). eauto.
  - destruct (cs <=? end_) eqn:L; [|eauto].
    apply Z.leb_le in L. pose proof (chunk_end_ge cs end_ L) as G.
    pose proof msPerDay_pos as P.
    assert (F' : end_ - addDays (chunk_end cs end_) 1 < Z.of_nat fuel * msPerDay)
      by (unfold addDays; lia).
    destruct (transport _ w) as [t w1].
    destruct (window_items t) as [items|e].
    + destruct (IH ch _ end_ (acc ++ items)%list w1 F') as [run ->]. simpl; eauto.
    + destruct (is_unauthenticated e); [eauto|].
      destruct (IH ch _ end_ acc w1 F') as [run ->]. simpl; eauto.
Qed.

Lemma buscar_nfse_total (cookies : list string) (data_inicio data_fim : Date) (w : World) :
  exists run, buscar_nfse cookies data_inicio data_fim w = Some run.
Proof.
  unfold Crawler.buscar_nfse, fuel_for. apply crawl_total.
  pose proof msPerDay_pos as P.
  destruct (Z_lt_le_dec (data_fim - data_inicio) 0) as [N|N]; [lia|].
  pose proof (Z.div_mod (data_fim - data_inicio) msPerDay ltac:(discriminate)).
  pose proof (Z.mod_pos_bound (data_fim - data_inicio) msPerDay P).
  assert (0 <= (data_fim - data_inicio) / msPerDay) by (apply Z.div_pos; lia).
  lia.
Qed.

Lemma crawl_finished (fuel : nat) :
  forall ch cs end_ acc w run,
    crawl fuel ch cs end_ acc w = Some run ->
    Finished acc (windows_from fuel cs end_) run
    /\ Forall (fun ex => request ex
                         = listing_request ch (fst (window ex)) (snd (window ex)))
              (exchanges run).
Proof.
  induction fuel as [|fuel IH]; intros ch cs end_ acc w run H;
    cbn [Crawler.crawl windows_from] in *; [discriminate|].
  destruct (cs <=? end_) eqn:L.
  2:{ injection H as <-. split; [|constructor].
      apply Returned; cbn; auto. now rewrite app_nil_r. }
  destruct (transport _ w) as [t w1] eqn:T.
  set (ex := {| window := (cs, chunk_end cs end_);
                request := listing_request ch cs (chunk_end cs end_);
                outcome := t |}) in *.
  destruct (window_items t) as [items|e] eqn:WI.
  - (* the window gave its items *)
    destruct (Crawler.crawl _ _ _ fuel _ _ _ _ _) as [run'|] eqn:R; [|discriminate].
    injection H as <-. destruct (IH _ _ _ _ _ _ R) as [Fin Req].
    assert (NR : login_redirect ex = false).
    { destruct (login_redirect ex) eqn:LR; [|reflexivity].
      apply window_items_unauthenticated in LR. destruct LR as [e [E _]].
      cbn in E. congruence. }
    split; [|constructor; [reflexivity | exact Req]].
    destruct Fin as [Hres Hno Hwin Hcon | before last later Hres Hex Hno Hlast Hall].
    + apply Returned; cbn [result exchanges console final].
      * rewrite Hres. cbn [flat_map]. unfold Crawler.contribution at 2.
        cbn [outcome ex]. rewrite WI, app_assoc. reflexivity.
      * constructor; assumption.
      * cbn [map]. rewrite Hwin. reflexivity.
      * cbn [filter outcome ex app]. rewrite WI. exact Hcon.
    + apply (Thrown _ _ _ _ _ (ex :: before) last later); cbn [result exchanges console final].
      * exact Hres.
      * rewrite Hex. reflexivity.
      * constructor; assumption.
      * exact Hlast.
      * cbn [map app]. rewrite Hall. reflexivity.
  - destruct (is_unauthenticated e) eqn:U.
    + (* the login redirect: the crawl stops here *)
      injection H as <-. split; [|constructor; [reflexivity | constructor]].
      rewrite (window_items_throw _ _ WI U).
      apply (Thrown _ _ _ _ _ [] ex (windows_from fuel (addDays (chunk_end cs end_) 1) end_));
        cbn [result exchanges]; auto.
      apply window_items_unauthenticated. exists e. cbn. auto.
    + (* another failure: logged, the crawl goes on *)
      destruct (Crawler.crawl _ _ _ fuel _ _ _ _ _) as [run'|] eqn:R; [|discriminate].
      injection H as <-. destruct (IH _ _ _ _ _ _ R) as [Fin Req].
      assert (NR : login_redirect ex = false).
      { destruct (login_redirect ex) eqn:LR; [|reflexivity].
        apply window_items_unauthenticated in LR. destruct LR as [e' [E U']].
        cbn in E. congruence. }
      split; [|constructor; [reflexivity | exact Req]].
      destruct Fin as [Hres Hno Hwin Hcon | before last later Hres Hex Hno Hlast Hall].
      * apply Returned; cbn [result exchanges console final].
        -- rewrite Hres. cbn [flat_map]. unfold Crawler.contribution at 2.
           cbn [outcome ex]. rewrite WI. reflexivity.
        -- constructor; assumption.
        -- cbn [map]. rewrite Hwin. reflexivity.
        -- cbn [filter outcome ex app List.length]. rewrite WI.
           cbn [List.length]. rewrite Hcon. reflexivity.
      * apply (Thrown _ _ _ _ _ (ex :: before) last later); cbn [result exchanges console final].
        -- exact Hres.
        -- rewrite Hex. reflexivity.
        -- constructor; assumption.
        -- exact Hlast.
        -- cbn [map app]. rewrite Hall. reflexivity.
Qed.


Lemma Finished_no_redirect acc ws (run : Run) :
  Finished acc ws run ->
  Forall (fun ex => login_redirect ex = false) (exchanges run) ->
  result run = Ok (acc ++ flat_map contribution (exchanges run))%list
  /\ map window (exchanges run) = ws.
Proof.
  intros [Hres Hno Hwin Hcon | before last later Hres Hex Hno Hlast Hall] NR; [auto|].
  exfalso. rewrite Hex in NR. apply Forall_app in NR. destruct NR as [_ NR].
  inversion NR; congruence.
Qed.

Lemma Finished_redirect acc ws (run : Run) (i : nat) (ex : Exchange) :
  Finished acc ws run ->
  nth_error (exchanges run) i = Some ex -> login_redirect ex = true ->
  result run = Throw UnauthenticatedSessionException
  /\ List.length (exchanges run) = S i.
Proof.
  intros [Hres Hno Hwin Hcon | before last later Hres Hex Hno Hlast Hall] N LR.
  - exfalso. apply nth_error_In in N.
    rewrite Forall_forall in Hno. rewrite (Hno _ N) in LR. discriminate.
  - split; [exact Hres|]. rewrite Hex in *. rewrite length_app. cbn [List.length].
    destruct (Nat.lt_ge_cases i (List.length before)) as [Lt|Ge].
    + exfalso. rewrite nth_error_app1 in N by exact Lt.
      apply nth_error_In in N. rewrite Forall_forall in Hno.
      rewrite (Hno _ N) in LR. discriminate.
    + assert (i < List.length (before ++ [last]))%nat
        by (apply nth_error_Some; rewrite N; discriminate).
      rewrite length_app in H. cbn [List.length] in H. lia.
Qed.

Lemma Finished_windows acc ws (run : Run) :
  Finished acc ws run ->
  exists later, ws = (map window (exchanges run) ++ later)%list
                /\ (forall items, result run = Ok items -> later = []).
Proof.
  intros [Hres Hno Hwin Hcon | before last later Hres Hex Hno Hlast Hall].
  - exists []. rewrite app_nil_r. auto.
  - exists later. split; [exact Hall|]. intros items E. congruence.
Qed.

(** **** Keys *)

Lemma take_while_all (p : ascii -> bool) (s : string) :
  Str.all_chars p (Str.take_while p s) = true.
Proof.
  induction s as [|c s IH]; simpl; [reflexivity|].
  destruct (p c) eqn:E; simpl; [rewrite E; exact IH | reflexivity].
Qed.

Lemma match_here_digits (s digits : string) :
  match_here s = Some digits ->
  digits <> "" /\ Str.all_chars Str.is_digit digits = true.
Proof.
  unfold match_here.
  destruct (Str.startsWith download_path s); [|discriminate].
  set (ds := Str.take_while Str.is_digit _).
  destruct (String.eqb ds "") eqn:E; [discriminate|].
  intros [= <-]. split; [|apply take_while_all].
  intros C. rewrite C in E. discriminate.
Qed.

Lemma match_group_digits (href digits : string) :
  match_group href = Some digits ->
  digits <> "" /\ Str.all_chars Str.is_digit digits = true.
Proof.
  induction href as [|c rest IH]; cbn [match_group].
  - destruct (match_here "") eqn:M; [|discriminate].
    intros [= <-]. exact (match_here_digits _ _ M).
  - destruct (match_here (String c rest)) eqn:M; [|exact IH].
    intros [= <-]. exact (match_here_digits _ _ M).
Qed.

Lemma scrape_row_key (tr : Row) (item : NfseListItem) :
  scrape_row tr = Some item ->
  key_ok item
  /\ exists href, download_href tr = Some href /\ match_group href = Some (chave item).
Proof.
  unfold scrape_row.
  destruct (String.eqb (extract_chave (download_href tr)) "") eqn:E; [discriminate|].
  intros [= <-]. cbn [chave]. unfold extract_chave in *.
  destruct (download_href tr) as [h|]; [|discriminate].
  destruct (String.eqb h ""); [discriminate|].
  destruct (match_group h) as [d|] eqn:M; [|discriminate].
  split; [exact (match_group_digits _ _ M) | eauto].
Qed.

Lemma scrape_rows_keys (rows : list Row) : Forall key_ok (scrape_rows rows).
Proof.
  induction rows as [|tr rest IH]; cbn [scrape_rows]; [constructor|].
  destruct (scrape_row tr) as [item|] eqn:E; [|exact IH].
  constructor; [exact (proj1 (scrape_row_key _ _ E)) | exact IH].
Qed.

Lemma contribution_keys (ex : Exchange) : Forall key_ok (contribution ex).
Proof.
  unfold Crawler.contribution, Crawler.window_items.
  destruct (axios_get (outcome ex)) as [response|]; [|constructor].
  destruct (checkAuthentication response); [|constructor].
  destruct (cheerio_rows (body response)); [constructor | apply scrape_rows_keys].
Qed.

Lemma flat_map_keys (exs : list Exchange) : Forall key_ok (flat_map contribution exs).
Proof.
  induction exs as [|ex rest IH]; cbn [flat_map]; [constructor|].
  apply Forall_app. split; [apply contribution_keys | exact IH].
Qed.

Lemma startsWith_app (p s : string) : Str.startsWith p (p ++ s) = true.
Proof.
  induction p as [|c p IH]; cbn [String.append Str.startsWith]; [reflexivity|].
  rewrite Ascii.eqb_refl. exact IH.
Qed.

Lemma drop_app (p s : string) : Str.drop (String.length p) (p ++ s) = s.
Proof. induction p as [|c p IH]; [reflexivity | exact IH]. Qed.

Lemma match_group_here (s digits : string) :
  match_here s = Some digits -> match_group s = Some digits.
Proof. destruct s; cbn [match_group]; intros ->; reflexivity. Qed.

(** A link that is the download path followed by digits: the key is the
    run of digits. *)
Lemma match_group_download (digits rest : string) :
  digits <> "" -> Str.all_chars Str.is_digit digits = true ->
  Str.take_while Str.is_digit rest = "" ->
  match_group (download_path ++ digits ++ rest) = Some digits.
Proof.
  intros NE D R.
  assert (T : Str.take_while Str.is_digit (digits ++ rest) = digits).
  { clear NE. induction digits as [|c ds IH];
      cbn [String.append Str.take_while Str.all_chars] in *; [exact R|].
    apply andb_prop in D. destruct D as [Dc Dds].
    rewrite Dc. f_equal. exact (IH Dds). }
  apply match_group_here. unfold match_here.
  rewrite startsWith_app, drop_app, T.
  destruct digits; [congruence | reflexivity].
Qed.

End Portal.

End CrawlerFacts.

(** *** The crawler's part of the specification *)

Module CrawlerSpec.
Import Dates Http Scrape Crawler DateFacts Partition PartitionFacts CrawlerFacts.

Lemma partition_spec_length (s e : Z) :
  s <= e -> Z.of_nat (List.length (partition_spec s e)) = window_count s e.
Proof.
  intros H. unfold partition_spec. rewrite length_map, length_seq.
  pose proof (window_count_ceiling s e). lia.
Qed.

Lemma partition_spec_nth_fwd (s e : Z) (k : nat) :
  (k < Z.to_nat (window_count s e))%nat ->
  nth_error (partition_spec s e) k = Some (spec_window s e k).
Proof.
  intros K. unfold partition_spec. rewrite nth_error_map, nth_error_seq.
  destruct (Nat.ltb_spec k (Z.to_nat (window_count s e))); [reflexivity | lia].
Qed.

(** A row whose download link has a digit group gives an item, with that
    group as its key. *)
Lemma scrape_row_of_link (tr : Row) (href digits : string) :
  download_href tr = Some href -> match_group href = Some digits ->
  exists item, scrape_row tr = Some item /\ chave item = digits.
Proof.
  intros H M. unfold scrape_row, extract_chave. rewrite H.
  destruct (String.eqb href "") eqn:E.
  { apply String.eqb_eq in E. subst href. cbn in M. discriminate. }
  rewrite M. destruct (match_group_digits _ _ M) as [NE _].
  destruct (String.eqb digits "") eqn:Q; [apply String.eqb_eq in Q; contradiction|].
  eexists; split; reflexivity.
Qed.

Lemma scrape_rows_in (rows : list Row) (tr : Row) (item : NfseListItem) :
  In tr rows -> scrape_row tr = Some item -> In item (scrape_rows rows).
Proof.
  induction rows as [|r rest IH]; intros I S; [destruct I|].
  cbn [scrape_rows]. destruct I as [-> | I].
  - rewrite S. left; reflexivity.
  - destruct (scrape_row r); [right|]; exact (IH I S).
Qed.

Lemma scrape_row_with_key (tr : Row) :
  extract_chave (download_href tr) <> "" ->
  scrape_row tr
  = Some {| data := Str.trim (td_data_text tr);
            emitidoPara :=
              {| cnpj := Str.trim (cnpj_text tr);
                 nome := derive_nome (Str.trim (cnpj_text tr)) (emitido_para_div_text tr) |};
            competencia := Str.trim (td_competencia_text tr);
            municipioEmissor := Str.trim (td_center_text tr);
            valor := parse_valor (Str.trim (td_valor_text tr));
            Scrape.status := match data_situacao tr with
                             | Some s => s
                             | None => ""
                             end;
            chave := extract_chave (download_href tr) |}.
Proof.
  intros K. unfold scrape_row.
  destruct (String.eqb (extract_chave (download_href tr)) "") eqn:E; [|reflexivity].
  apply String.eqb_eq in E. contradiction.
Qed.

Lemma remove_all_none (s : string) : Str.includes "." (Str.remove_all "."%char s) = false.
Proof.
  induction s as [|c s IH]; [reflexivity|].
  cbn [Str.remove_all]. destruct (Ascii.eqb c ".") eqn:E; [exact IH|].
  cbn [Str.includes Str.startsWith]. rewrite Ascii.eqb_sym, E. exact IH.
Qed.

(** The partition of the specification: its number of windows, its first
    window, the contiguity, the last day, the spans, the coverage and the
    disjointness. *)
Lemma partition_spec_shape (startDay endDay : Z) :
  startDay <= endDay ->
  let days := partition_spec startDay endDay in
  (Z.of_nat (List.length days) = window_count startDay endDay
      /\ 30 * (window_count startDay endDay - 1)
           < endDay - startDay + 1 <= 30 * window_count startDay endDay)
  /\ hd_error days = Some (startDay, Z.min (startDay + 29) endDay)
  /\ (forall k a b c d,
         nth_error days k = Some (a, b) -> nth_error days (S k) = Some (c, d) ->
         c = b + 1)
  /\ (exists a, nth_error days (pred (List.length days)) = Some (a, endDay))
  /\ (forall k a b, nth_error days k = Some (a, b) -> a <= b /\ b - a + 1 <= 30)
  /\ (forall day,
         startDay <= day <= endDay <->
         exists k a b, nth_error days k = Some (a, b) /\ a <= day <= b)
  /\ (forall day k k' a b a' b',
         nth_error days k = Some (a, b) -> nth_error days k' = Some (a', b') ->
         a <= day <= b -> a' <= day <= b' -> k = k').
Proof.
  intros Hse days. subst days.
  pose proof (window_count_ceiling startDay endDay) as Hceil.
  pose proof (partition_spec_length _ _ Hse) as Hlen.
  split; [split; [exact Hlen | exact Hceil]|].
  split; [rewrite (partition_spec_cons _ _ Hse); reflexivity|].
  split.
  { intros k a b c d Hk HSk.
    apply partition_spec_nth in Hk. apply partition_spec_nth in HSk. lia. }
  split.
  { exists (startDay + 30 * Z.of_nat (pred (List.length (partition_spec startDay endDay)))).
    rewrite partition_spec_nth_fwd by lia.
    unfold spec_window. f_equal. f_equal. lia. }
  split.
  { intros k a b Hk. apply partition_spec_nth in Hk. lia. }
  split.
  { intros day. split.
    - intros Hday.
      pose proof (Z.div_mod (day - startDay) 30 ltac:(discriminate)) as Hdm.
      pose proof (Z.mod_pos_bound (day - startDay) 30 ltac:(reflexivity)) as Hmod.
      assert (Hq : 0 <= (day - startDay) / 30) by (apply Z.div_pos; lia).
      exists (Z.to_nat ((day - startDay) / 30)). do 2 eexists.
      rewrite partition_spec_nth_fwd by lia.
      unfold spec_window. split; [reflexivity | lia].
    - intros [k [a [b [Hk Hin]]]]. apply partition_spec_nth in Hk. lia. }
  intros day k k' a b a' b' Hk Hk' Hin Hin'.
  apply partition_spec_nth in Hk. apply partition_spec_nth in Hk'. lia.
Qed.

Section Portal.

Variable World : Type.
Variable transport : Request -> World -> Transport * World.
Variable cheerio_rows : string -> Parsed.

Local Abbreviation buscar_nfse := (buscar_nfse World transport cheerio_rows).
Local Abbreviation contribution := (contribution cheerio_rows).

Lemma buscar_nfse_finished cookies data_inicio data_fim w :
  exists run, buscar_nfse cookies data_inicio data_fim w = Some run
              /\ Finished World cheerio_rows [] (windows data_inicio data_fim) run.
Proof.
  destruct (buscar_nfse_total World transport cheerio_rows cookies data_inicio data_fim w)
    as [run E].
  exists run. split; [exact E|].
  exact (proj1 (crawl_finished World transport cheerio_rows _ _ _ _ _ _ _ E)).
Qed.

(** C3: every crawl ends, and when the response to a window's listing
    request (what [axios.get] returns: an answer with a status in
    [200, 400)) references the login path in its resolved URL or in its
    Location header, the crawl ends with UnauthenticatedSessionException:
    no list is returned, and that request is the last one issued, so no
    later window is processed. *)
Theorem buscar_nfse_unauthenticated_propagates
    (cookies : list string) (data_inicio data_fim : Date) (w : World) :
  exists run,
    buscar_nfse cookies data_inicio data_fim w = Some run
    /\ forall i ex,
         nth_error (exchanges run) i = Some ex -> login_redirect ex = true ->
         result run = Throw UnauthenticatedSessionException
         /\ List.length (exchanges run) = S i.
Proof.
  destruct (buscar_nfse_finished cookies data_inicio data_fim w) as [run [E Fin]].
  exists run. split; [exact E|].
  intros i ex N LR. exact (Finished_redirect _ _ _ _ _ _ _ Fin N LR).
Qed.

(** C4: a crawl in which no window is answered by a login redirect returns
    a list whatever else fails: every window of the range is requested, in
    order, and the list is the concatenation, in window order, of what each
    window contributed, a failed window contributing nothing. *)
Theorem buscar_nfse_resilient
    (cookies : list string) (data_inicio data_fim : Date) (w : World) :
  exists run,
    buscar_nfse cookies data_inicio data_fim w = Some run
    /\ (Forall (fun ex => login_redirect ex = false) (exchanges run) ->
        result run = Ok (flat_map contribution (exchanges run))
        /\ map window (exchanges run) = windows data_inicio data_fim
        /\ (forall ex e, In ex (exchanges run) ->
                         window_items cheerio_rows (outcome ex) = Throw e ->
                         contribution ex = [])).
Proof.
  destruct (buscar_nfse_finished cookies data_inicio data_fim w) as [run [E Fin]].
  exists run. split; [exact E|]. intros NR.
  destruct (Finished_no_redirect _ _ _ _ _ Fin NR) as [R W].
  repeat split; [exact R | exact W |].
  intros ex e _ T. unfold Crawler.contribution. rewrite T. reflexivity.
Qed.

(** C8: every item a crawl returns has a non-empty key made of digits,
    the digit group of the download link of its row, and every row with
    such a link is returned under that key: a row of a window that was
    read is in the list the crawl returns.  The link
    /EmissorNacional/Notas/Download/NFSe/123456 gives the key 123456; a row
    without a matching link, or whose link has no digit group, gives no
    item. *)
Theorem buscar_nfse_keys
    (cookies : list string) (data_inicio data_fim : Date) (w : World) :
  (exists run,
      buscar_nfse cookies data_inicio data_fim w = Some run
      /\ (forall items, result run = Ok items ->
            Forall (fun item => chave item <> ""
                                /\ Str.all_chars Str.is_digit (chave item) = true) items)
      /\ (forall items ex response rows tr href digits,
            result run = Ok items ->
            In ex (exchanges run) ->
            axios_get (outcome ex) = Ok response ->
            cheerio_rows (body response) = Rows rows ->
            In tr rows ->
            download_href tr = Some href -> match_group href = Some digits ->
            exists item,
              In item items /\ scrape_row tr = Some item /\ chave item = digits))
  /\ (forall tr href digits,
        download_href tr = Some href -> match_group href = Some digits ->
        exists item, scrape_row tr = Some item /\ chave item = digits)
  /\ (forall tr,
        download_href tr = Some "/EmissorNacional/Notas/Download/NFSe/123456" ->
        exists item, scrape_row tr = Some item /\ chave item = "123456")
  /\ (forall tr item, scrape_row tr = Some item ->
        chave item <> ""
        /\ exists href, download_href tr = Some href
                        /\ match_group href = Some (chave item))
  /\ extract_chave (Some "/EmissorNacional/Notas/Download/NFSe/123456") = "123456"
  /\ (forall digits rest,
        digits <> "" -> Str.all_chars Str.is_digit digits = true ->
        Str.take_while Str.is_digit rest = "" ->
        extract_chave (Some (download_path ++ digits ++ rest)) = digits)
  /\ (forall tr, download_href tr = None -> scrape_row tr = None)
  /\ (forall tr href, download_href tr = Some href -> match_group href = None ->
        scrape_row tr = None).
Proof.
  split; [|split; [|split; [|split; [|split; [reflexivity | split; [|split]]]]]].
  - destruct (buscar_nfse_finished cookies data_inicio data_fim w) as [run [E Fin]].
    exists run. split; [exact E|].
    destruct Fin as [Hres Hno _ _ | before last later Hres _ _ _ _].
    2:{ split; intros; congruence. }
    cbn [app] in Hres. split.
    + intros items R. rewrite Hres in R. injection R as <-. apply flat_map_keys.
    + intros items ex response rows tr href digits R I A P Itr H M.
      rewrite Hres in R. injection R as <-.
      destruct (scrape_row_of_link _ _ _ H M) as [item [S C]].
      exists item. split; [|auto].
      apply in_flat_map. exists ex. split; [exact I|].
      rewrite Forall_forall in Hno. pose proof (Hno _ I) as NR.
      unfold login_redirect in NR. rewrite A in NR.
      unfold Crawler.contribution, Crawler.window_items, checkAuthentication.
      rewrite A, NR, P. exact (scrape_rows_in _ _ _ Itr S).
  - exact scrape_row_of_link.
  - intros tr H. exact (scrape_row_of_link tr _ "123456" H eq_refl).
  - intros tr item S. destruct (scrape_row_key _ _ S) as [[NE _] H]. auto.
  - intros digits rest NE D R. unfold extract_chave.
    rewrite (match_group_download _ _ NE D R).
    destruct (String.eqb _ "") eqn:Q; [|reflexivity].
    apply String.eqb_eq in Q. discriminate.
  - intros tr H. unfold scrape_row. rewrite H. reflexivity.
  - intros tr href H M. unfold scrape_row, extract_chave. rewrite H, M.
    destruct (String.eqb href ""); reflexivity.
Qed.

(** C10: when the start date is after the end date the loop body never
    runs: the crawl returns the empty list, issues no request, logs
    nothing and leaves the world as it was. *)
Theorem buscar_nfse_empty_range
    (cookies : list string) (data_inicio data_fim : Date) (w : World) :
  data_fim < data_inicio ->
  buscar_nfse cookies data_inicio data_fim w
  = Some {| result := Ok []; exchanges := []; console := []; final := w |}.
Proof.
  intros H. unfold Crawler.buscar_nfse, fuel_for. rewrite crawl_S.
  replace (data_inicio <=? data_fim) with false; [reflexivity|].
  symmetry. apply Z.leb_gt. exact H.
Qed.

End Portal.

(** C9: a row that has a key gives an item whose amount is what
    parseFloat reads in the text of the amount cell, trimmed, once every
    '.' is removed and then the first ',' replaced by '.' (for a cell of
    ASCII text, where trimming is the one of [Str.trim]); no '.' of the
    text is left for parseFloat; a cell that reads 15.000,00 gives 15000
    and one that reads 0,50 gives 0.5. *)
Theorem valor_parsing :
  (forall tr,
     extract_chave (download_href tr) <> "" ->
     AsciiText.ascii_text (td_valor_text tr) = true ->
     exists item,
       scrape_row tr = Some item
       /\ valor item
          = parseFloat (Str.replace_first_char ","%char "."%char
                          (Str.remove_all "."%char (Str.trim (td_valor_text tr)))))
  /\ (forall tr,
        extract_chave (download_href tr) <> "" ->
        td_valor_text tr = "15.000,00" ->
        exists item, scrape_row tr = Some item /\ valor item = Finite 15000)
  /\ (forall tr,
        extract_chave (download_href tr) <> "" ->
        td_valor_text tr = "0,50" ->
        exists item, scrape_row tr = Some item /\ valor item = Finite (1 # 2))
  /\ (forall s, Str.includes "." (Str.remove_all "."%char s) = false)
  /\ normalize_valor "15.000,00" = "15000.00"
  /\ parse_valor "15.000,00" = Finite 15000
  /\ normalize_valor "0,50" = "0.50"
  /\ parse_valor "0,50" = Finite (1 # 2).
Proof.
  split; [|split; [|split; [|split; [exact remove_all_none | repeat split; reflexivity]]]].
  - intros tr K _. rewrite (scrape_row_with_key _ K). eexists; split; reflexivity.
  - intros tr K V. rewrite (scrape_row_with_key _ K). eexists; split; [reflexivity|].
    cbn [valor]. rewrite V. reflexivity.
  - intros tr K V. rewrite (scrape_row_with_key _ K). eexists; split; [reflexivity|].
    cbn [valor]. rewrite V. reflexivity.
Qed.

End CrawlerSpec.



Module CrawlerExamples.
Import Dates Http Scrape Crawler Partition CrawlerSpec.

Lemma buscar_nfse_keys_witness :
  exists run item,
    Demo.buscar_nfse ["s=1"] Demo.jan_1 Demo.mar_31_night
      [Demo.page "<first>"; Demo.page "<second>"; Demo.page "<third>"] = Some run
    /\ (exists items, result run = Ok items /\ In item items)
    /\ scrape_row (Demo.row_of "102" "0,50") = Some item
    /\ chave item = "102".
Proof.
  destruct (buscar_nfse_keys Demo.World Demo.transport Demo.cheerio_rows
              ["s=1"] Demo.jan_1 Demo.mar_31_night
              [Demo.page "<first>"; Demo.page "<second>"; Demo.page "<third>"])
    as [[run [E [_ I]]] _].
  exists run. vm_compute in E. injection E as <-.
  destruct (I _ _ _ _ (Demo.row_of "102" "0,50") _ _
              eq_refl (or_introl eq_refl) eq_refl eq_refl
              (or_intror (or_intror (or_introl eq_refl))) eq_refl eq_refl)
    as [item [In_ [S C]]].
  exists item. split; [reflexivity|]. split; [eexists; split; [reflexivity | exact In_]|].
  split; [exact S | exact C].
Defined.

Lemma valor_parsing_witness :
  exists item,
    scrape_row (Demo.row_of "101" "15.000,00") = Some item /\ valor item = Finite 15000.
Proof.
  exact (proj1 (proj2 valor_parsing) (Demo.row_of "101" "15.000,00")
           ltac:(vm_compute; discriminate) eq_refl).
Defined.

Lemma buscar_nfse_unauthenticated_propagates_witness :
  exists run,
    Demo.buscar_nfse ["s=1"] Demo.jan_1 Demo.mar_31_night
      [Demo.page "<first>"; Demo.to_login; Demo.page "<third>"] = Some run
    /\ result run = Throw UnauthenticatedSessionException
    /\ List.length (exchanges run) = 2%nat
    /\ final run = [Demo.page "<third>"].
Proof.
  destruct (buscar_nfse_unauthenticated_propagates Demo.World Demo.transport
              Demo.cheerio_rows ["s=1"] Demo.jan_1 Demo.mar_31_night
              [Demo.page "<first>"; Demo.to_login; Demo.page "<third>"]) as [run [E H]].
  exists run. split; [exact E|].
  vm_compute in E. injection E as <-.
  destruct (H 1%nat _ eq_refl eq_refl) as [R L].
  split; [exact R | split; [exact L | reflexivity]].
Defined.

Lemma buscar_nfse_resilient_witness :
  exists run,
    Demo.buscar_nfse ["s=1"] Demo.jan_1 Demo.mar_31_night
      [Demo.page "<first>"; NetworkError "socket hang up"; Demo.page "<third>"] = Some run
    /\ result run = Ok [Demo.item_of "101" 15000; Demo.item_of "102" (1 # 2);
                        Demo.item_of "301" (25001 # 10)]
    /\ map day_window (map window (exchanges run)) = [(0, 29); (30, 59); (60, 89)]
    /\ console run
       = ["Error fetching for period 31/01/1970 to 01/03/1970: socket hang up"].
Proof.
  destruct (buscar_nfse_resilient Demo.World Demo.transport
              Demo.cheerio_rows ["s=1"] Demo.jan_1 Demo.mar_31_night
              [Demo.page "<first>"; NetworkError "socket hang up"; Demo.page "<third>"])
    as [run [E H]].
  exists run. split; [exact E|].
  vm_compute in E. injection E as <-.
  destruct H as [R [W _]]; [repeat constructor|].
  split; [rewrite R; vm_compute; reflexivity | split; vm_compute; reflexivity].
Defined.

Lemma buscar_nfse_empty_range_witness :
  Demo.jan_1 < Demo.jan_1_noon
  /\ Demo.buscar_nfse ["s=1"] Demo.jan_1_noon Demo.jan_1 [Demo.page "<first>"]
     = Some {| result := Ok []; exchanges := []; console := [];
               final := [Demo.page "<first>"] |}.
Proof.
  assert (H : Demo.jan_1 < Demo.jan_1_noon) by reflexivity.
  split; [exact H|].
  exact (buscar_nfse_empty_range Demo.World Demo.transport Demo.cheerio_rows
           ["s=1"] Demo.jan_1_noon Demo.jan_1 [Demo.page "<first>"] H).
Defined.

End CrawlerExamples.

(** *** The crawl in a time zone *)

Module ZonedFacts.
Import Dates Http Scrape Crawler DateFacts Partition PartitionFacts CrawlerFacts CrawlerSpec.
Import Zoned.

Lemma chunk_end_le (cs e : Date) : cs <= e -> Crawler.chunk_end cs e <= e.
Proof.
  intros H. unfold Crawler.chunk_end.
  destruct (Z.gtb_spec (addDays cs 29) e); lia.
Qed.

Lemma chunk_end_shift (c : Z) (cs e : Date) :
  Crawler.chunk_end (cs + c) (e + c) = Crawler.chunk_end cs e + c.
Proof.
  unfold Crawler.chunk_end, addDays.
  destruct (Z.gtb_spec (cs + c + 29 * msPerDay) (e + c)),
           (Z.gtb_spec (cs + 29 * msPerDay) e); lia.
Qed.

Lemma leb_shift (c a b : Z) : (a + c <=? b + c) = (a <=? b).
Proof. destruct (Z.leb_spec (a + c) (b + c)), (Z.leb_spec a b); lia. Qed.

(** Reading the windows of the loop in a zone of offset [c] is running the
    loop on the local readings. *)
Lemma windows_from_shift (c : Z) (fuel : nat) :
  forall cs e,
    Crawler.windows_from fuel (cs + c) (e + c)
    = map (fun w => (fst w + c, snd w + c)) (Crawler.windows_from fuel cs e).
Proof.
  induction fuel as [|fuel IH]; intros cs e; [reflexivity|].
  cbn [Crawler.windows_from]. rewrite leb_shift.
  destruct (cs <=? e); [|reflexivity].
  cbn [map fst snd]. rewrite chunk_end_shift. f_equal.
  replace (addDays (Crawler.chunk_end cs e + c) 1)
    with (addDays (Crawler.chunk_end cs e) 1 + c) by (unfold addDays; lia).
  apply IH.
Qed.

Lemma windows_from_within (fuel : nat) :
  forall cs e,
    Forall (fun w => cs <= fst w /\ fst w <= snd w /\ snd w <= e)
           (Crawler.windows_from fuel cs e).
Proof.
  induction fuel as [|fuel IH]; intros cs e; [constructor|].
  cbn [Crawler.windows_from].
  destruct (Z.leb_spec cs e) as [L|L]; [|constructor].
  pose proof (chunk_end_ge cs e L) as G. pose proof (chunk_end_le cs e L) as U.
  constructor; [cbn [fst snd]; lia|].
  eapply Forall_impl; [|apply IH]. cbn beta. intros w [A B].
  pose proof msPerDay_pos. unfold addDays in A. lia.
Qed.

Lemma fuel_for_shift (c : Z) (a b : Date) : fuel_for (a + c) (b + c) = fuel_for a b.
Proof. unfold fuel_for. replace (b + c - (a + c)) with (b - a) by lia. reflexivity. Qed.

Section Zone.

Variable World : Type.
Variable transport : Request -> World -> Transport * World.
Variable cheerio_rows : string -> Parsed.
Variable tz : TimeZone.
Variable c : Z.
Variables from till : Instant.
Hypothesis St : steady tz c from till.

Lemma steady_LocalTime (t : Instant) : from <= t <= till -> LocalTime tz t = t + c.
Proof. intros H. unfold LocalTime. rewrite (proj1 St t H). reflexivity. Qed.

Lemma steady_setDate_plus (t : Instant) (k : Z) :
  from <= t <= till -> from <= t + k * msPerDay <= till ->
  setDate_plus tz t k = addDays t k.
Proof.
  intros H K. unfold setDate_plus, UTC. rewrite (steady_LocalTime t H).
  rewrite (proj2 St) by lia. unfold addDays. lia.
Qed.

Lemma steady_chunk_end (cs e : Instant) :
  from <= cs -> cs <= e -> e + 29 * msPerDay <= till ->
  Zoned.chunk_end tz cs e = Crawler.chunk_end cs e.
Proof.
  intros A L B. pose proof msPerDay_pos as P.
  unfold Zoned.chunk_end, Crawler.chunk_end.
  rewrite steady_setDate_plus by lia. reflexivity.
Qed.

Lemma steady_windows_from (fuel : nat) :
  forall cs e,
    from <= cs -> e + 29 * msPerDay <= till ->
    Zoned.windows_from tz fuel cs e = Crawler.windows_from fuel cs e.
Proof.
  induction fuel as [|fuel IH]; intros cs e A B; [reflexivity|].
  cbn [Zoned.windows_from Crawler.windows_from].
  destruct (Z.leb_spec cs e) as [L|L]; [|reflexivity].
  pose proof msPerDay_pos as P.
  pose proof (chunk_end_ge cs e L) as G. pose proof (chunk_end_le cs e L) as U.
  rewrite (steady_chunk_end _ _ A L B).
  rewrite steady_setDate_plus by lia.
  f_equal. apply IH; [unfold addDays; lia | exact B].
Qed.

(** The local days of the windows, when the offset does not change. *)
Lemma steady_local_days (data_inicio data_fim : Instant) :
  from <= data_inicio -> data_fim + 29 * msPerDay <= till ->
  map (local_days tz) (Zoned.windows tz data_inicio data_fim)
  = map day_window (Crawler.windows (data_inicio + c) (data_fim + c)).
Proof.
  intros A B. unfold Zoned.windows, Crawler.windows.
  rewrite (steady_windows_from _ _ _ A B), fuel_for_shift, windows_from_shift, map_map.
  apply map_ext_in. intros w I.
  pose proof (windows_from_within (fuel_for data_inicio data_fim) data_inicio data_fim) as W.
  rewrite Forall_forall in W. specialize (W w I). cbn beta in W.
  pose proof msPerDay_pos as P.
  unfold local_days, day_window, Instant. cbn [fst snd].
  rewrite (steady_LocalTime (fst w)), (steady_LocalTime (snd w)) by lia.
  reflexivity.
Qed.

Lemma zoned_crawl_S (fuel : nat) ch cs end_ acc w :
  Zoned.crawl tz World transport cheerio_rows (S fuel) ch cs end_ acc w =
  if cs <=? end_ then
    let chunkEnd := Zoned.chunk_end tz cs end_ in
    let req := Zoned.listing_request tz ch cs chunkEnd in
    let '(t, w1) := transport req w in
    let ex := {| window := (cs, chunkEnd); request := req; outcome := t |} in
    match window_items cheerio_rows t with
    | Ok items =>
        after World ex []
          (Zoned.crawl tz World transport cheerio_rows fuel ch
             (setDate_plus tz chunkEnd 1) end_ (acc ++ items) w1)
    | Throw e =>
        if is_unauthenticated e then
          Some {| result := Throw e; exchanges := [ex]; console := []; final := w1 |}
        else
          after World ex [Zoned.error_line tz cs chunkEnd e]
            (Zoned.crawl tz World transport cheerio_rows fuel ch
               (setDate_plus tz chunkEnd 1) end_ acc w1)
    end
  else Some {| result := Ok acc; exchanges := []; console := []; final := w |}.
Proof. reflexivity. Qed.

(** Whatever the zone, a crawl that ends has requested the windows of the
    loop, in order: all of them when it returns a list. *)
Lemma zoned_crawl_windows (fuel : nat) :
  forall ch cs end_ acc w run,
    Zoned.crawl tz World transport cheerio_rows fuel ch cs end_ acc w = Some run ->
    exists later,
      Zoned.windows_from tz fuel cs end_ = (map window (exchanges run) ++ later)%list
      /\ (forall items, result run = Ok items -> later = [])
      /\ Forall (fun ex => request ex
                           = Zoned.listing_request tz ch (fst (window ex)) (snd (window ex)))
                (exchanges run).
Proof.
  induction fuel as [|fuel IH]; intros ch cs end_ acc w run H; [discriminate|].
  rewrite zoned_crawl_S in H. cbv zeta in H. cbn [Zoned.windows_from].
  destruct (cs <=? end_).
  2:{ injection H as <-. exists []. repeat split; constructor. }
  destruct (transport _ w) as [t w1].
  destruct (window_items cheerio_rows t) as [items|e].
  - destruct (Zoned.crawl _ _ _ _ fuel _ _ _ _ _) as [run'|] eqn:R; [|discriminate].
    injection H as <-. destruct (IH _ _ _ _ _ _ R) as [later [Hw [Hl Hr]]].
    exists later. cbn [exchanges result map app window]. rewrite Hw.
    split; [reflexivity|]. split; [exact Hl|]. constructor; [reflexivity | exact Hr].
  - destruct (is_unauthenticated e).
    + injection H as <-. eexists. cbn [exchanges result map app window].
      split; [reflexivity|]. split; [discriminate|].
      constructor; [reflexivity | constructor].
    + destruct (Zoned.crawl _ _ _ _ fuel _ _ _ _ _) as [run'|] eqn:R; [|discriminate].
      injection H as <-. destruct (IH _ _ _ _ _ _ R) as [later [Hw [Hl Hr]]].
      exists later. cbn [exchanges result map app window]. rewrite Hw.
      split; [reflexivity|]. split; [exact Hl|]. constructor; [reflexivity | exact Hr].
Qed.

Lemma steady_formatDate (t : Instant) :
  from <= t <= till -> Zoned.formatDate tz t = Dates.formatDate (t + c).
Proof. intros H. unfold Zoned.formatDate. rewrite (steady_LocalTime t H). reflexivity. Qed.

(** While the offset is [c], the crawl on instants is the crawl of
    [Crawler] on the local readings: same result, same requests, same log,
    same world; the windows are read in local time. *)
Lemma steady_crawl (fuel : nat) :
  forall ch cs end_ acc w,
    from <= cs -> end_ + 29 * msPerDay <= till ->
    Crawler.crawl World transport cheerio_rows fuel ch (cs + c) (end_ + c) acc w
    = option_map (localize World c)
        (Zoned.crawl tz World transport cheerio_rows fuel ch cs end_ acc w).
Proof.
  induction fuel as [|fuel IH]; intros ch cs end_ acc w A B; [reflexivity|].
  rewrite crawl_S, zoned_crawl_S. cbv zeta. rewrite leb_shift.
  destruct (Z.leb_spec cs end_) as [L|L]; [|reflexivity].
  pose proof msPerDay_pos as P.
  pose proof (chunk_end_ge cs end_ L) as G. pose proof (chunk_end_le cs end_ L) as U.
  rewrite chunk_end_shift, (steady_chunk_end _ _ A L B).
  set (ce := Crawler.chunk_end cs end_) in *.
  assert (Rq : Crawler.listing_request ch (cs + c) (ce + c)
               = Zoned.listing_request tz ch cs ce).
  { unfold Crawler.listing_request, Zoned.listing_request.
    rewrite !steady_formatDate by lia. reflexivity. }
  assert (Er : forall e, Crawler.error_line (cs + c) (ce + c) e
                         = Zoned.error_line tz cs ce e).
  { intros e. unfold Crawler.error_line, Zoned.error_line.
    rewrite !steady_formatDate by lia. reflexivity. }
  assert (Nx : addDays (ce + c) 1 = setDate_plus tz ce 1 + c).
  { rewrite steady_setDate_plus by lia. unfold addDays. lia. }
  assert (A' : from <= setDate_plus tz ce 1).
  { rewrite steady_setDate_plus by lia. unfold addDays. lia. }
  rewrite Rq, Nx. destruct (transport _ w) as [t w1].
  destruct (window_items cheerio_rows t) as [items|e].
  - rewrite (IH _ _ _ _ _ A' B).
    destruct (Zoned.crawl _ _ _ _ fuel _ _ _ _ _); reflexivity.
  - destruct (is_unauthenticated e); [reflexivity|].
    rewrite (IH _ _ _ _ _ A' B), Er.
    destruct (Zoned.crawl _ _ _ _ fuel _ _ _ _ _); reflexivity.
Qed.

Lemma steady_buscar_nfse_total (cookies : list string) (data_inicio data_fim : Instant)
    (w : World) :
  from <= data_inicio -> data_fim + 29 * msPerDay <= till ->
  exists run,
    Zoned.buscar_nfse tz World transport cheerio_rows cookies data_inicio data_fim w
    = Some run.
Proof.
  intros A B.
  destruct (buscar_nfse_total World transport cheerio_rows cookies
              (data_inicio + c) (data_fim + c) w) as [run' E].
  unfold Crawler.buscar_nfse in E. rewrite fuel_for_shift, (steady_crawl _ _ _ _ _ _ A B) in E.
  unfold Zoned.buscar_nfse.
  destruct (Zoned.crawl _ _ _ _ _ _ _ _ _ _) as [run|]; [eauto | discriminate].
Qed.

End Zone.

Section Portal.

Variable World : Type.
Variable transport : Request -> World -> Transport * World.
Variable cheerio_rows : string -> Parsed.


End Portal.

End ZonedFacts.

Module ZonedExamples.
Import Dates Http Scrape Crawler Partition Zoned ZonedFacts.

Lemma sao_paulo_steady_2024 :
  steady sao_paulo (-3 * hour) jan_1_2024 (mar_30_2024_night + 29 * msPerDay).
Proof.
  unfold steady, sao_paulo, offset_at, offset_of_local, jan_1_2024, mar_30_2024_night,
    dst_2018_begins, dst_2018_ends, hour, msPerDay.
  split; intros t H.
  - destruct (Z.ltb_spec t (17839 * 86400000 + 3 * 3600000)); [lia|].
    destruct (Z.ltb_spec t (17944 * 86400000 + 2 * 3600000)); [lia | reflexivity].
  - destruct (Z.ltb_spec t (17839 * 86400000 + 1 * 3600000)); [lia|].
    destruct (Z.ltb_spec t (17944 * 86400000)); [lia | reflexivity].
Defined.



End ZonedExamples.

(** *** Properties of the authenticator and of the wrapper *)

Module AuthFacts.
Import Http Auth.

Lemma validateStatus_spec (s : Z) : validateStatus s = true <-> 200 <= s < 400.
Proof. unfold validateStatus. rewrite andb_true_iff, Z.leb_le, Z.ltb_lt. tauto. Qed.

Section Portal.

Variable World : Type.
Variable transport : Request -> World -> Transport * World.

Local Abbreviation login := (login World transport).


End Portal.

End AuthFacts.



Module WrapperFacts.
Import Http Auth Wrapper.

Lemma count_app (p : Call -> bool) (a b : list Call) :
  count p (a ++ b) = (count p a + count p b)%nat.
Proof. unfold count. rewrite filter_app, length_app. reflexivity. Qed.

(** reading a field of an updated server state *)
Ltac server_state :=
  cbn [calls cachedCookies world Wrapper.set_world Wrapper.set_cache Wrapper.record].
Ltac server_state_in H :=
  cbn [calls cachedCookies world Wrapper.set_world Wrapper.set_cache Wrapper.record] in H.

(** a call that ended before any login *)
Ltac short_call :=
  intros [= <- <-]; exists [CallEnsure]; cbn;
  repeat split; auto; intros; discriminate.

Section Server.

Variable World : Type.
Variable transport : Request -> World -> Transport * World.
Variable CERT_PASSWORD : option string.
Variable CERT_FILE : option string.
Variable dirname : string.
Variable path_resolve : string -> string -> string.
Variable fs_existsSync : string -> World -> bool.
Variable fs_readFileSync : string -> World -> Res string.

Local Abbreviation Server := (Server World).
Local Abbreviation ensureAuthenticated :=
  (ensureAuthenticated World transport CERT_PASSWORD CERT_FILE dirname
     path_resolve fs_existsSync fs_readFileSync).
Local Abbreviation withAutoLogin :=
  (withAutoLogin World transport CERT_PASSWORD CERT_FILE dirname
     path_resolve fs_existsSync fs_readFileSync).
Local Abbreviation record := (record World).
Local Abbreviation set_world := (set_world World).
Local Abbreviation set_cache := (set_cache World).
Local Abbreviation pfxPath := (path_resolve dirname (value CERT_FILE)).

(** A cached session, empty or not, is returned as it is. *)
Lemma ensureAuthenticated_cached (st : Server) (cookies : list string) :
  cachedCookies st = Some cookies ->
  ensureAuthenticated st = (Ok cookies, record CallEnsure st).
Proof. intros H. unfold Wrapper.ensureAuthenticated. cbn. rewrite H. reflexivity. Qed.

(** Without a cached session, missing credentials or a missing certificate
    make the call fail with an ApplicationException before any login. *)
Lemma ensureAuthenticated_unconfigured (st : Server) :
  cachedCookies st = None ->
  missing CERT_PASSWORD = true \/ missing CERT_FILE = true
  \/ fs_existsSync pfxPath (world st) = false ->
  exists m, ensureAuthenticated st
            = (Throw (ApplicationException m), record CallEnsure st).
Proof.
  intros H C. unfold Wrapper.ensureAuthenticated. cbn. rewrite H.
  destruct (missing CERT_PASSWORD); [eauto|].
  destruct (missing CERT_FILE); [eauto|].
  destruct C as [C | [C | C]]; try discriminate.
  rewrite C. cbn. eauto.
Qed.

(** One call of [ensureAuthenticated] is one acquisition, with at most one
    login (none from a cached session, one behind every session that was
    not cached); it touches no action. *)
Lemma ensureAuthenticated_calls (st st' : Server) (r : Res (list string)) :
  ensureAuthenticated st = (r, st') ->
  exists new,
    calls st' = (calls st ++ new)%list
    /\ count is_ensure new = 1%nat
    /\ count is_action new = 0%nat
    /\ match cachedCookies st with
       | Some _ => count is_login new = 0%nat
       | None => (count is_login new <= 1)%nat
                 /\ forall c, r = Ok c -> count is_login new = 1%nat
       end.
Proof.
  unfold Wrapper.ensureAuthenticated. cbn [cachedCookies Wrapper.record world].
  destruct (cachedCookies st) as [c0|] eqn:C.
  { intros [= <- <-]. exists [CallEnsure]. cbn. auto. }
  destruct (missing CERT_PASSWORD); [short_call|].
  destruct (missing CERT_FILE); [short_call|].
  destruct (negb (fs_existsSync pfxPath (world st))); [short_call|].
  destruct (fs_readFileSync pfxPath (world st)) as [buf|e]; [|short_call].
  destruct (login World transport buf (value CERT_PASSWORD) (world st)) as [r1 w1].
  destruct r1 as [cookies|e]; cbn; [destruct (List.length cookies =? 0)%nat|];
    intros [= <- <-]; exists [CallEnsure; CallLogin]; cbn;
    rewrite <- app_assoc; repeat split; auto.
Qed.

(** A login that fails leaves the cache empty: the exception of [login]
    leaves before the assignment. *)
Lemma ensureAuthenticated_login_fails
    (st : Server) (pfxBuffer : string) (e : Exn) (w1 : World) :
  cachedCookies st = None ->
  missing CERT_PASSWORD = false ->
  missing CERT_FILE = false ->
  fs_existsSync pfxPath (world st) = true ->
  fs_readFileSync pfxPath (world st) = Ok pfxBuffer ->
  login World transport pfxBuffer (value CERT_PASSWORD) (world st) = (Throw e, w1) ->
  exists st1, ensureAuthenticated st = (Throw e, st1) /\ cachedCookies st1 = None.
Proof.
  intros C P F X R L. eexists. split.
  - unfold Wrapper.ensureAuthenticated. server_state.
    rewrite C, P, F, X. cbn [negb]. rewrite R, L. reflexivity.
  - server_state. exact C.
Qed.

(** A login that gives at least one cookie: the session is cached and
    returned. *)
Lemma ensureAuthenticated_login_succeeds
    (st : Server) (pfxBuffer : string) (cookies : list string) (w1 : World) :
  cachedCookies st = None ->
  missing CERT_PASSWORD = false ->
  missing CERT_FILE = false ->
  fs_existsSync pfxPath (world st) = true ->
  fs_readFileSync pfxPath (world st) = Ok pfxBuffer ->
  login World transport pfxBuffer (value CERT_PASSWORD) (world st) = (Ok cookies, w1) ->
  cookies <> [] ->
  exists st1, ensureAuthenticated st = (Ok cookies, st1)
              /\ cachedCookies st1 = Some cookies.
Proof.
  intros C P F X R L NE. eexists. split.
  - unfold Wrapper.ensureAuthenticated. server_state.
    rewrite C, P, F, X. cbn [negb]. rewrite R, L.
    destruct cookies; [congruence | reflexivity].
  - reflexivity.
Qed.

(** C6 at the failing input: with no cached session, credentials and
    certificate in place, and a login that yields the empty session, the
    call throws the ApplicationException of the empty session, but the
    empty list is already cached, and the next call returns it instead of
    failing again. *)
Theorem ensureAuthenticated_caches_empty_session
    (st : Server) (pfxBuffer : string) (w1 : World) :
  cachedCookies st = None ->
  missing CERT_PASSWORD = false ->
  missing CERT_FILE = false ->
  fs_existsSync pfxPath (world st) = true ->
  fs_readFileSync pfxPath (world st) = Ok pfxBuffer ->
  login World transport pfxBuffer (value CERT_PASSWORD) (world st) = (Ok [], w1) ->
  exists st1,
    ensureAuthenticated st
    = (Throw (ApplicationException "Nenhum cookie recebido após login."), st1)
    /\ cachedCookies st1 = Some []
    /\ ensureAuthenticated st1 = (Ok [], record CallEnsure st1).
Proof.
  intros C P F X R L.
  eexists. split; [|split].
  - unfold Wrapper.ensureAuthenticated. cbn [cachedCookies Wrapper.record world].
    rewrite C, P, F, X. cbn [negb]. rewrite R, L. reflexivity.
  - reflexivity.
  - apply ensureAuthenticated_cached. reflexivity.
Qed.

Section Action.

Variable T : Type.
Variable action : list string -> World -> Res T * World.

Local Abbreviation attempt := (attempt World T action).

Lemma withAutoLogin_bounded (st : Server) :
  exists r st' new,
    withAutoLogin T action st = (r, st')
    /\ calls st' = (calls st ++ new)%list
    /\ (count is_action new <= 2)%nat
    /\ (count is_ensure new <= 2)%nat.
Proof.
  unfold Wrapper.withAutoLogin.
  destruct (ensureAuthenticated st) as [r0 st1] eqn:E0.
  destruct (ensureAuthenticated_calls _ _ _ E0) as [n0 [C0 [Ne0 [Na0 _]]]].
  destruct r0 as [cookies|e].
  2:{ do 3 eexists. split; [reflexivity|]. split; [exact C0|]. lia. }
  unfold Wrapper.attempt. cbn [world Wrapper.record].
  destruct (action cookies (world st1)) as [r1 w1].
  destruct r1 as [v|error].
  { exists (Ok v). eexists. exists (n0 ++ [CallAction cookies])%list.
    split; [reflexivity|]. server_state.
    rewrite C0, <- app_assoc, !count_app, Ne0, Na0. cbn. split; [reflexivity | lia]. }
  destruct (is_unauthenticated error).
  2:{ exists (Throw error). eexists. exists (n0 ++ [CallAction cookies])%list.
      split; [reflexivity|]. server_state.
      rewrite C0, <- app_assoc, !count_app, Ne0, Na0. cbn. split; [reflexivity | lia]. }
  destruct (ensureAuthenticated (set_cache None _)) as [r2 st4] eqn:E2.
  destruct (ensureAuthenticated_calls _ _ _ E2) as [n2 [C2 [Ne2 [Na2 _]]]].
  server_state_in C2.
  destruct r2 as [fresh|e].
  2:{ exists (Throw e), st4, (n0 ++ [CallAction cookies] ++ n2)%list.
      split; [reflexivity|].
      rewrite C2, C0, <- !app_assoc, !count_app, Ne0, Na0, Ne2, Na2.
      cbn. split; [reflexivity | lia]. }
  destruct (action fresh (world st4)) as [r3 w3].
  exists r3. eexists. exists (n0 ++ [CallAction cookies] ++ n2 ++ [CallAction fresh])%list.
  split; [reflexivity|]. server_state.
  rewrite C2, C0, <- !app_assoc, !count_app, Ne0, Na0, Ne2, Na2.
  cbn. split; [reflexivity | lia].
Qed.

(** When the second acquisition fails, its exception is the outcome and
    the action was attempted once. *)
Lemma withAutoLogin_relogin_fails (st st1 st4 : Server) c1 w2 (e : Exn) :
  ensureAuthenticated st = (Ok c1, st1) ->
  action c1 (world st1) = (Throw UnauthenticatedSessionException, w2) ->
  ensureAuthenticated (set_cache None (set_world w2 (record (CallAction c1) st1)))
  = (Throw e, st4) ->
  withAutoLogin T action st = (Throw e, st4).
Proof.
  intros E0 A1 E2. unfold Wrapper.withAutoLogin. rewrite E0.
  unfold Wrapper.attempt. cbn [world Wrapper.record]. rewrite A1.
  cbn [is_unauthenticated]. rewrite E2. reflexivity.
Qed.

(** Another exception of the action is thrown again at once. *)
Lemma withAutoLogin_other_error (st st1 : Server) c1 w2 (e : Exn) :
  ensureAuthenticated st = (Ok c1, st1) ->
  action c1 (world st1) = (Throw e, w2) ->
  is_unauthenticated e = false ->
  withAutoLogin T action st = (Throw e, set_world w2 (record (CallAction c1) st1)).
Proof.
  intros E0 A1 U. unfold Wrapper.withAutoLogin. rewrite E0.
  unfold Wrapper.attempt. cbn [world Wrapper.record]. rewrite A1, U. reflexivity.
Qed.

(** C5: [withAutoLogin] never attempts the action more than twice nor
    acquires a session more than twice.  When the session obtained by
    [ensureAuthenticated] makes the action throw
    UnauthenticatedSessionException, the cache is cleared and
    [ensureAuthenticated] is called once more; with the fresh session it
    gives, the action is attempted exactly once more, and the outcome of
    that second attempt, value or exception (a second
    UnauthenticatedSessionException included), is the outcome of the
    call: two acquisitions, two attempts, no third. *)
Theorem withAutoLogin_retries_once (st : Server) :
  (exists r st' new,
      withAutoLogin T action st = (r, st')
      /\ calls st' = (calls st ++ new)%list
      /\ (count is_action new <= 2)%nat
      /\ (count is_ensure new <= 2)%nat)
  /\ forall c1 st1 w2 c2 st4 r w5,
       ensureAuthenticated st = (Ok c1, st1) ->
       action c1 (world st1) = (Throw UnauthenticatedSessionException, w2) ->
       ensureAuthenticated (set_cache None (set_world w2 (record (CallAction c1) st1)))
       = (Ok c2, st4) ->
       action c2 (world st4) = (r, w5) ->
       exists new,
         withAutoLogin T action st = (r, set_world w5 (record (CallAction c2) st4))
         /\ (calls st4 ++ [CallAction c2] = calls st ++ new)%list
         /\ count is_ensure new = 2%nat
         /\ filter is_action new = [CallAction c1; CallAction c2]
         /\ count is_login new = match cachedCookies st with
                                 | None => 2%nat
                                 | Some _ => 1%nat
                                 end.
Proof.
  split; [apply withAutoLogin_bounded|].
  intros c1 st1 w2 c2 st4 r w5 E0 A1 E2 A2.
  destruct (ensureAuthenticated_calls _ _ _ E0) as [n0 [C0 [Ne0 [Na0 L0]]]].
  destruct (ensureAuthenticated_calls _ _ _ E2) as [n2 [C2 [Ne2 [Na2 L2]]]].
  server_state_in C2. server_state_in L2.
  destruct L2 as [_ L2].
  exists (n0 ++ [CallAction c1] ++ n2 ++ [CallAction c2])%list.
  split; [|split; [|split; [|split]]].
  - unfold Wrapper.withAutoLogin. rewrite E0.
    unfold Wrapper.attempt at 1. cbn [world Wrapper.record]. rewrite A1.
    cbn [is_unauthenticated]. rewrite E2.
    unfold Wrapper.attempt. cbn [world Wrapper.record]. rewrite A2. reflexivity.
  - rewrite C2, C0, <- !app_assoc. reflexivity.
  - rewrite !count_app, Ne0, Ne2. reflexivity.
  - unfold count in Na0, Na2. apply length_zero_iff_nil in Na0, Na2.
    rewrite !filter_app, Na0, Na2. reflexivity.
  - rewrite !count_app, (L2 c2 eq_refl). cbn.
    destruct (cachedCookies st) as [c|].
    + rewrite L0. reflexivity.
    + rewrite (proj2 L0 c1 eq_refl). reflexivity.
Qed.

End Action.

End Server.

End WrapperFacts.



Module WrapperExamples.
Import Dates Http Scrape Crawler Auth Wrapper WrapperFacts DemoServer.

Lemma withAutoLogin_retries_once_witness :
  fst (withAutoLogin _ (buscar_action Demo.jan_1 Demo.jan_1_noon) expiring)
  = Ok [Demo.item_of "201" 1]
  /\ calls (snd (withAutoLogin _ (buscar_action Demo.jan_1 Demo.jan_1_noon) expiring))
     = [CallEnsure; CallLogin; CallAction ["sid=1"];
        CallEnsure; CallLogin; CallAction ["sid=2"]]
  /\ cachedCookies (snd (withAutoLogin _ (buscar_action Demo.jan_1 Demo.jan_1_noon) expiring))
     = Some ["sid=2"].
Proof.
  destruct (proj2 (withAutoLogin_retries_once Demo.World Demo.transport
                     CERT_PASSWORD CERT_FILE dirname path_resolve fs_existsSync
                     fs_readFileSync _ (buscar_action Demo.jan_1 Demo.jan_1_noon) expiring)
              ["sid=1"]
              {| world := [Demo.to_login; to_dashboard (Some ["sid=2"]); Demo.page "<second>"];
                 cachedCookies := Some ["sid=1"];
                 calls := [CallEnsure; CallLogin] |}
              [to_dashboard (Some ["sid=2"]); Demo.page "<second>"]
              ["sid=2"]
              {| world := [Demo.page "<second>"];
                 cachedCookies := Some ["sid=2"];
                 calls := [CallEnsure; CallLogin; CallAction ["sid=1"];
                           CallEnsure; CallLogin] |}
              (Ok [Demo.item_of "201" 1])
              []
              ltac:(vm_compute; reflexivity) ltac:(vm_compute; reflexivity)
              ltac:(vm_compute; reflexivity) ltac:(vm_compute; reflexivity))
    as [new [E _]].
  unfold withAutoLogin. rewrite E. repeat split.
Defined.

Lemma ensureAuthenticated_caches_empty_session_witness :
  exists st1,
    ensureAuthenticated cookieless
    = (Throw (ApplicationException "Nenhum cookie recebido após login."), st1)
    /\ cachedCookies st1 = Some []
    /\ ensureAuthenticated st1 = (Ok [], record _ CallEnsure st1).
Proof.
  exact (ensureAuthenticated_caches_empty_session Demo.World Demo.transport
           CERT_PASSWORD CERT_FILE dirname path_resolve fs_existsSync fs_readFileSync
           cookieless "<pfx>" []
           eq_refl eq_refl eq_refl eq_refl eq_refl eq_refl).
Defined.

End WrapperExamples.

(** * Further properties *)

(** *** More on the crawl *)

Module CrawlerMoreFacts.
Import Dates Http Scrape Crawler DateFacts Partition PartitionFacts CrawlerFacts CrawlerMore.

Lemma chunk_end_min (cs end_ : Date) :
  chunk_end cs end_ = Z.min (addDays cs 29) end_.
Proof.
  unfold chunk_end. destruct (Z.gtb_spec (addDays cs 29) end_); lia.
Qed.

Lemma thirty_days_pos : 0 < 30 * msPerDay.
Proof. reflexivity. Qed.

Lemma instant_count_step (cs end_ : Date) :
  cs <= end_ -> instant_count cs end_ = S (instant_count (addDays cs 30) end_).
Proof.
  intros H. unfold instant_count, addDays.
  pose proof thirty_days_pos as P.
  replace (cs <=? end_) with true by (symmetry; apply Z.leb_le; exact H).
  f_equal.
  destruct (Z.leb_spec (cs + 30 * msPerDay) end_) as [L|L].
  - replace (end_ - cs) with (end_ - (cs + 30 * msPerDay) + 1 * (30 * msPerDay)) by lia.
    rewrite Z.div_add by lia.
    assert (0 <= (end_ - (cs + 30 * msPerDay)) / (30 * msPerDay))
      by (apply Z.div_pos; lia).
    lia.
  - rewrite Z.div_small by lia. reflexivity.
Qed.

Lemma instant_count_after (cs end_ : Date) : end_ < cs -> instant_count cs end_ = O.
Proof.
  intros H. unfold instant_count.
  replace (cs <=? end_) with false by (symmetry; apply Z.leb_gt; exact H).
  reflexivity.
Qed.

Lemma instant_window_shift (cs end_ : Date) (k : nat) :
  instant_window cs end_ (S k) = instant_window (addDays cs 30) end_ k.
Proof.
  unfold instant_window, addDays, msPerDay.
  apply f_equal2; [lia | apply f_equal2; lia].
Qed.

Lemma instant_partition_cons (cs end_ : Date) :
  cs <= end_ ->
  instant_partition cs end_
  = (cs, chunk_end cs end_) :: instant_partition (addDays cs 30) end_.
Proof.
  intros H. unfold instant_partition. rewrite (instant_count_step _ _ H).
  cbn [seq map]. f_equal.
  - rewrite chunk_end_min. unfold instant_window, addDays, msPerDay.
    apply f_equal2; [lia | apply f_equal2; lia].
  - rewrite <- seq_shift, map_map. apply map_ext. intros k.
    apply instant_window_shift.
Qed.

(** The windows of the loop, whatever the times of day. *)
Lemma windows_from_instants (fuel : nat) :
  forall cs end_,
    (instant_count cs end_ <= fuel)%nat ->
    windows_from fuel cs end_ = instant_partition cs end_.
Proof.
  induction fuel as [|fuel IH]; intros cs end_ F.
  - unfold instant_partition. replace (instant_count cs end_) with O by lia. reflexivity.
  - cbn [windows_from]. destruct (Z.leb_spec cs end_) as [L|L].
    + rewrite (instant_partition_cons _ _ L). f_equal.
      rewrite (instant_count_step _ _ L) in F.
      rewrite chunk_end_min.
      pose proof msPerDay_pos as P.
      destruct (Z.le_gt_cases (addDays cs 29) end_) as [C|C].
      * rewrite Z.min_l by exact C.
        replace (addDays (addDays cs 29) 1) with (addDays cs 30)
          by (unfold addDays; lia).
        apply IH. lia.
      * rewrite Z.min_r by lia.
        assert (A : end_ < addDays end_ 1) by (unfold addDays; lia).
        assert (B : end_ < addDays cs 30) by (unfold addDays in *; lia).
        unfold instant_partition. rewrite (instant_count_after _ _ B).
        destruct fuel; cbn [windows_from seq map]; [reflexivity|].
        replace (addDays end_ 1 <=? end_) with false
          by (symmetry; apply Z.leb_gt; exact A).
        reflexivity.
    + unfold instant_partition. rewrite (instant_count_after _ _ L). reflexivity.
Qed.

Lemma fuel_for_instants (a b : Date) : (instant_count a b <= fuel_for a b)%nat.
Proof.
  unfold instant_count, fuel_for.
  destruct (Z.leb_spec a b) as [L|L]; [|lia].
  pose proof msPerDay_pos as P.
  assert (Q : (b - a) / (30 * msPerDay) <= (b - a) / msPerDay).
  { apply Z.div_le_compat_l; lia. }
  assert (0 <= (b - a) / (30 * msPerDay)) by (apply Z.div_pos; lia).
  lia.
Qed.

Lemma windows_instants (data_inicio data_fim : Date) :
  windows data_inicio data_fim = instant_partition data_inicio data_fim.
Proof. apply windows_from_instants, fuel_for_instants. Qed.

Section Portal.

Variable World : Type.
Variable transport : Request -> World -> Transport * World.
Variable cheerio_rows : string -> Parsed.

Local Abbreviation crawl := (crawl World transport cheerio_rows).
Local Abbreviation buscar_nfse := (buscar_nfse World transport cheerio_rows).
Local Abbreviation log_lines := (log_lines cheerio_rows).
Local Abbreviation replay := (replay World transport).

Lemma crawl_console (fuel : nat) :
  forall ch cs end_ acc w run,
    crawl fuel ch cs end_ acc w = Some run ->
    console run = flat_map log_lines (exchanges run)
    /\ replay (map request (exchanges run)) w = (map outcome (exchanges run), final run).
Proof.
  induction fuel as [|fuel IH]; intros ch cs end_ acc w run H; [discriminate|].
  rewrite crawl_S in H. cbv zeta in H.
  destruct (cs <=? end_); [|injection H as <-; split; reflexivity].
  destruct (transport _ w) as [t w1] eqn:T.
  destruct (window_items cheerio_rows t) as [items|e] eqn:WI.
  - destruct (Crawler.crawl _ _ _ fuel _ _ _ _ _) as [run'|] eqn:R; [|discriminate].
    injection H as <-. destruct (IH _ _ _ _ _ _ R) as [C P].
    cbn [console exchanges final flat_map map request outcome CrawlerMore.replay].
    unfold CrawlerMore.log_lines at 1. cbn [outcome window]. rewrite WI, T, P.
    split; [exact C | reflexivity].
  - destruct (is_unauthenticated e) eqn:U.
    + injection H as <-.
      cbn [console exchanges final flat_map map request outcome CrawlerMore.replay].
      unfold CrawlerMore.log_lines. cbn [outcome window]. rewrite WI, U, T.
      split; reflexivity.
    + destruct (Crawler.crawl _ _ _ fuel _ _ _ _ _) as [run'|] eqn:R; [|discriminate].
      injection H as <-. destruct (IH _ _ _ _ _ _ R) as [C P].
      cbn [console exchanges final flat_map map request outcome CrawlerMore.replay].
      unfold CrawlerMore.log_lines at 1. cbn [outcome window fst snd]. rewrite WI, U, T, P, C.
      split; reflexivity.
Qed.

(** X2: what a crawl writes with console.error is exactly one line per
    window that failed with another exception than
    UnauthenticatedSessionException, in window order, naming the window's
    two dates and the message of the exception; a window that gave its
    items and the window whose exception ends the crawl write nothing. *)
Theorem buscar_nfse_console
    (cookies : list string) (data_inicio data_fim : Date) (w : World) :
  exists run,
    buscar_nfse cookies data_inicio data_fim w = Some run
    /\ console run = flat_map log_lines (exchanges run)
    /\ forall line, In line (console run) ->
         exists ex e,
           In ex (exchanges run)
           /\ window_items cheerio_rows (outcome ex) = Throw e
           /\ is_unauthenticated e = false
           /\ line = ("Error fetching for period " ++ formatDate (fst (window ex))
                      ++ " to " ++ formatDate (snd (window ex)) ++ ": "
                      ++ error_message e)%string.
Proof.
  destruct (buscar_nfse_total World transport cheerio_rows cookies data_inicio data_fim w)
    as [run E].
  exists run. split; [exact E|].
  destruct (crawl_console _ _ _ _ _ _ _ E) as [C _].
  split; [exact C|]. intros line I. rewrite C in I.
  apply in_flat_map in I. destruct I as [ex [Iex Il]].
  unfold CrawlerMore.log_lines in Il.
  destruct (window_items cheerio_rows (outcome ex)) as [items|e] eqn:WI; [destruct Il|].
  destruct (is_unauthenticated e) eqn:U; [destruct Il|].
  destruct Il as [<-|[]]. exists ex, e. auto.
Qed.

(** X3: a crawl sends exactly the requests of its windows, one request
    per window and one after the other, and nothing else: sending them
    again in that order from the initial world gives the same answers and
    ends in the world the crawl ends in. *)
Theorem buscar_nfse_one_request_per_window
    (cookies : list string) (data_inicio data_fim : Date) (w : World) :
  exists run,
    buscar_nfse cookies data_inicio data_fim w = Some run
    /\ replay (map request (exchanges run)) w
       = (map outcome (exchanges run), final run).
Proof.
  destruct (buscar_nfse_total World transport cheerio_rows cookies data_inicio data_fim w)
    as [run E].
  exists run. split; [exact E|].
  exact (proj2 (crawl_console _ _ _ _ _ _ _ E)).
Qed.

End Portal.

End CrawlerMoreFacts.

(** *** More on the crawl in a time zone *)

Module ZonedMoreFacts.
Import Dates Http Scrape Crawler DateFacts CrawlerFacts CrawlerMore CrawlerMoreFacts.
Import Zoned ZonedFacts.

Section Portal.

Variable World : Type.
Variable transport : Request -> World -> Transport * World.
Variable cheerio_rows : string -> Parsed.


End Portal.


End ZonedMoreFacts.

(** *** More on the extractor *)

Module NestedMoreFacts.
Import Nested NestedMore.

Lemma getNested_defined (tree : JsValue) (path : string) (v : JsValue) :
  getNested tree path = Ok v -> v <> JUndefined.
Proof.
  unfold getNested.
  destruct (truthy tree) eqn:T; cbn [negb]; [|intros [= <-]; discriminate].
  destruct (String.eqb path "").
  { intros [= <-] ->. discriminate. }
  generalize (Str.split "."%char path) as parts. clear T.
  intros parts; revert tree.
  induction parts as [|part rest IH]; intros tree; cbn [walk].
  - intros [= <-]. unfold or_null. destruct (nullish (unwrap tree)) eqn:N;
      [discriminate | intros E; rewrite E in N; discriminate].
  - destruct (nullish tree); [intros [= <-]; discriminate|].
    destruct (get_prop (unwrap tree) part) as [next|e]; [apply IH | discriminate].
Qed.

(** the only exception of [getNested] is the TypeError of a property read *)
Lemma getNested_throws (tree : JsValue) (path : string) (e : Exn) :
  getNested tree path = Throw e -> is_unauthenticated e = false /\ is_application e = false.
Proof.
  unfold getNested. destruct (negb (truthy tree)); [discriminate|].
  destruct (String.eqb path ""); [discriminate|].
  generalize (Str.split "."%char path) as parts.
  intros parts; revert tree.
  induction parts as [|part rest IH]; intros tree; cbn [walk]; [discriminate|].
  destruct (nullish tree); [discriminate|].
  destruct (get_prop (unwrap tree) part) as [next|e0] eqn:G; [apply IH|].
  intros [= <-]. unfold get_prop in G.
  destruct (unwrap tree); try discriminate;
    try (injection G as <-; split; reflexivity).
  - destruct (String.eqb part "length"); [discriminate|].
    destruct (array_index part); discriminate.
  - destruct (String.eqb part "length"); [discriminate|].
    destruct (array_index part); discriminate.
Qed.

(** X4: whatever the tree and the path, a value that [getNested] returns
    is never [undefined] (an absent node comes out as null), and the only
    thing [getNested] throws is the TypeError of a property read: never
    an ApplicationException nor an UnauthenticatedSessionException. *)
Theorem getNested_never_undefined (tree : JsValue) (path : string) :
  (forall v, getNested tree path = Ok v -> v <> JUndefined)
  /\ (forall e, getNested tree path = Throw e ->
        is_unauthenticated e = false /\ is_application e = false).
Proof.
  split.
  - intros v. apply getNested_defined.
  - intros e. apply getNested_throws.
Qed.

Lemma split_from_app (sep : ascii) (p q cur : string) :
  Str.split_from sep cur (p ++ String sep q)
  = (Str.split_from sep cur p ++ Str.split_from sep EmptyString q)%list.
Proof.
  revert cur. induction p as [|a p IH]; intros cur; cbn [String.append Str.split_from].
  - rewrite Ascii.eqb_refl. reflexivity.
  - destruct (Ascii.eqb a sep); [cbn [app]; f_equal; apply IH | apply IH].
Qed.

Lemma split_from_not_nil (sep : ascii) (s cur : string) : Str.split_from sep cur s <> [].
Proof.
  revert cur. induction s as [|a s IH]; intros cur; cbn [Str.split_from];
    [discriminate|]. destruct (Ascii.eqb a sep); [discriminate | apply IH].
Qed.

Lemma walk_from_object (parts : list string) (current v : JsValue) :
  parts <> [] -> or_null (unwrap current) = v -> is_object v = true ->
  walk parts current = walk parts v.
Proof.
  intros NE E O. destruct parts as [|part rest]; [congruence|]. cbn [walk].
  assert (U : unwrap current = v).
  { unfold or_null in E. destruct (nullish (unwrap current)); [|exact E].
    subst v. discriminate. }
  assert (N : nullish current = false).
  { destruct current; try reflexivity; cbn in U; subst v; discriminate. }
  rewrite N, U. destruct v; try discriminate. reflexivity.
Qed.

Lemma walk_app (first second : list string) :
  forall tree v,
    walk first tree = Ok v -> is_object v = true -> second <> [] ->
    walk (first ++ second) tree = walk second v.
Proof.
  induction first as [|part rest IH]; intros tree v W O NE.
  - cbn [walk] in W. injection W as W. cbn [app].
    apply walk_from_object; assumption.
  - cbn [walk app] in *. destruct (nullish tree).
    + injection W as <-. discriminate.
    + destruct (get_prop (unwrap tree) part) as [next|e]; [|discriminate].
      apply IH; assumption.
Qed.

(** X5: a path can be followed in two stages through an object: when
    [getNested(tree, p)] is an object, [getNested] of that object at [q]
    is [getNested(tree, p + "." + q)], for non-empty [p] and [q].  This
    is how the normalizer reads its fields from the node it first fetched
    at [NFSe.infNFSe]. *)
Theorem getNested_two_stages (tree : JsValue) (p q : string) (fields : list (string * JsValue)) :
  p <> "" -> q <> "" ->
  getNested tree p = Ok (JObject fields) ->
  getNested tree (p ++ "." ++ q) = getNested (JObject fields) q.
Proof.
  intros Hp Hq G. unfold getNested in *.
  destruct (truthy tree); cbn [negb] in *; [|discriminate].
  destruct (String.eqb p "") eqn:Ep; [apply String.eqb_eq in Ep; contradiction|].
  destruct (String.eqb q "") eqn:Eq; [apply String.eqb_eq in Eq; contradiction|].
  destruct (String.eqb (p ++ "." ++ q) "") eqn:Epq.
  { apply String.eqb_eq in Epq. destruct p; [contradiction | discriminate]. }
  cbn [truthy negb]. unfold Str.split.
  change (p ++ "." ++ q)%string with (p ++ String "."%char q)%string.
  rewrite split_from_app.
  apply walk_app; [exact G | reflexivity | apply split_from_not_nil].
Qed.

Lemma getNested_two_stages_witness :
  getNested tree_a_b_x ("a" ++ "." ++ "b")
  = getNested (JObject [("b", JString "x")]) "b".
Proof.
  apply (getNested_two_stages tree_a_b_x "a" "b" [("b", JString "x")]);
    [discriminate | discriminate | reflexivity].
Defined.

End NestedMoreFacts.

(** *** More on the rows *)

Module ScrapeMoreFacts.
Import Scrape ScrapeMore.

(** **** Reversal and trimming *)

Lemma append_nil_r (s : string) : (s ++ "")%string = s.
Proof. induction s as [|c s IH]; cbn; [reflexivity | f_equal; exact IH]. Qed.

Lemma append_assoc (a b c : string) : ((a ++ b) ++ c)%string = (a ++ (b ++ c))%string.
Proof. induction a as [|x a IH]; cbn; [reflexivity | f_equal; exact IH]. Qed.

Lemma rev_onto_app (s acc : string) : Str.rev_onto s acc = (Str.rev s ++ acc)%string.
Proof.
  unfold Str.rev. revert acc.
  induction s as [|c s IH]; intros acc; cbn [Str.rev_onto]; [reflexivity|].
  rewrite IH, (IH (String c "")), append_assoc. reflexivity.
Qed.

Lemma rev_cons (c : ascii) (s : string) :
  Str.rev (String c s) = (Str.rev s ++ String c "")%string.
Proof. unfold Str.rev at 1. cbn [Str.rev_onto]. apply rev_onto_app. Qed.

Lemma rev_app (a b : string) : Str.rev (a ++ b) = (Str.rev b ++ Str.rev a)%string.
Proof.
  induction a as [|c a IH]; cbn [String.append].
  - symmetry. apply append_nil_r.
  - rewrite !rev_cons, IH, append_assoc. reflexivity.
Qed.

Lemma rev_involutive (s : string) : Str.rev (Str.rev s) = s.
Proof.
  induction s as [|c s IH]; [reflexivity|].
  rewrite rev_cons, rev_app, IH. reflexivity.
Qed.

Lemma take_drop_while (p : ascii -> bool) (s : string) :
  s = (Str.take_while p s ++ Str.drop_while p s)%string.
Proof.
  induction s as [|c s IH]; cbn [Str.take_while Str.drop_while]; [reflexivity|].
  destruct (p c); cbn [String.append]; [f_equal; exact IH | reflexivity].
Qed.

Lemma drop_while_space (s : string) :
  starts_with_space (Str.drop_while Str.is_space s) = false.
Proof.
  induction s as [|c s IH]; cbn [Str.drop_while]; [reflexivity|].
  destruct (Str.is_space c) eqn:E; [exact IH | cbn; exact E].
Qed.

(** what [trim] gives neither starts nor ends with whitespace *)
Lemma trim_trimmed (s : string) : trimmed (Str.trim s) = true.
Proof.
  unfold trimmed, Str.trim.
  set (t := Str.drop_while Str.is_space s).
  set (u := Str.drop_while Str.is_space (Str.rev t)).
  rewrite rev_involutive. unfold u at 2. rewrite drop_while_space.
  rewrite andb_true_r. apply negb_true_iff.
  destruct (Str.rev u) as [|c r] eqn:R; [reflexivity|].
  pose proof (take_drop_while Str.is_space (Str.rev t)) as D. fold u in D.
  apply (f_equal Str.rev) in D. rewrite rev_involutive, rev_app, R in D.
  pose proof (drop_while_space s) as T. fold t in T. rewrite D in T. exact T.
Qed.

Lemma ends_cons (c : ascii) (s : string) :
  starts_with_space (Str.rev (String c s))
  = match s with
    | EmptyString => Str.is_space c
    | String _ _ => starts_with_space (Str.rev s)
    end.
Proof.
  rewrite rev_cons. destruct s as [|d s]; [reflexivity|].
  destruct (Str.rev (String d s)) as [|x r] eqn:R; [|reflexivity].
  apply (f_equal Str.rev) in R. rewrite rev_involutive in R. discriminate.
Qed.

Lemma collapse_spaces_end (s : string) :
  forall in_run,
    s <> "" -> starts_with_space (Str.rev s) = false ->
    Str.collapse_spaces_from in_run s <> ""
    /\ starts_with_space (Str.rev (Str.collapse_spaces_from in_run s)) = false.
Proof.
  induction s as [|c s IH]; intros in_run NE E; [congruence|].
  rewrite ends_cons in E. cbn [Str.collapse_spaces_from].
  destruct s as [|d s'].
  - rewrite E. cbn [Str.collapse_spaces_from]. split; [discriminate | cbn; exact E].
  - destruct (IH true ltac:(discriminate) E) as [N1 E1].
    destruct (IH false ltac:(discriminate) E) as [N0 E0].
    destruct (Str.is_space c); [destruct in_run|].
    + split; assumption.
    + split; [discriminate|]. rewrite ends_cons.
      destruct (Str.collapse_spaces_from true (String d s')); [congruence | exact E1].
    + split; [discriminate|]. rewrite ends_cons.
      destruct (Str.collapse_spaces_from false (String d s')); [congruence | exact E0].
Qed.

Lemma collapse_spaces_trimmed (s : string) :
  trimmed s = true -> trimmed (Str.collapse_spaces s) = true.
Proof.
  unfold trimmed. intros T. apply andb_prop in T. destruct T as [T1 T2].
  apply negb_true_iff in T1, T2.
  destruct s as [|c s]; [reflexivity|].
  destruct (collapse_spaces_end (String c s) false ltac:(discriminate) T2) as [_ E].
  unfold Str.collapse_spaces. rewrite E. cbn in T1.
  cbn [Str.collapse_spaces_from]. rewrite T1. cbn. rewrite T1. reflexivity.
Qed.

Lemma derive_nome_trimmed (cnpj_v div_text : string) :
  trimmed (derive_nome cnpj_v div_text) = true.
Proof.
  unfold derive_nome. destruct (String.eqb cnpj_v "").
  - apply collapse_spaces_trimmed, trim_trimmed.
  - apply trim_trimmed.
Qed.

(** X8: the text fields an item takes from the cells of its row (date,
    tax id and name of the recipient, period, municipality) never start
    or end with whitespace. *)
Theorem scrape_row_fields_trimmed (tr : Row) (item : NfseListItem) :
  scrape_row tr = Some item ->
  trimmed (data item) = true
  /\ trimmed (cnpj (emitidoPara item)) = true
  /\ trimmed (nome (emitidoPara item)) = true
  /\ trimmed (competencia item) = true
  /\ trimmed (municipioEmissor item) = true.
Proof.
  unfold scrape_row. destruct (String.eqb _ ""); [discriminate|].
  intros [= <-]. cbn [data emitidoPara cnpj nome competencia municipioEmissor].
  repeat split; try apply trim_trimmed. apply derive_nome_trimmed.
Qed.

Lemma scrape_row_fields_trimmed_witness :
  scrape_row (Demo.row_of "101" "15.000,00") = Some (Demo.item_of "101" 15000)
  /\ trimmed (nome (emitidoPara (Demo.item_of "101" 15000))) = true.
Proof.
  assert (H : scrape_row (Demo.row_of "101" "15.000,00") = Some (Demo.item_of "101" 15000))
    by (vm_compute; reflexivity).
  split; [exact H|].
  exact (proj1 (proj2 (proj2 (scrape_row_fields_trimmed _ _ H)))).
Defined.

(** **** Amounts *)

Lemma digit_not_space (c : ascii) : Str.is_digit c = true -> Str.is_space c = false.
Proof.
  destruct c as [[] [] [] [] [] [] [] []]; vm_compute; intros H;
    first [reflexivity | discriminate].
Qed.

Lemma digit_not_punct (c : ascii) :
  Str.is_digit c = true ->
  Ascii.eqb c "."%char = false /\ Ascii.eqb c ","%char = false.
Proof.
  destruct c as [[] [] [] [] [] [] [] []]; vm_compute; intros H;
    first [split; reflexivity | discriminate].
Qed.

(** [parseFloat] on a text that starts with a digit: no space to skip, no
    sign, not [Infinity]. *)
Lemma parseFloat_digit_head (c : ascii) (rest : string) :
  Str.is_digit c = true ->
  parseFloat (String c rest)
  = let s2 := String c rest in
    let int_digits := Str.take_while Str.is_digit s2 in
    let s3 := Str.drop_while Str.is_digit s2 in
    let '(frac_digits, s4) :=
      match s3 with
      | String "."%char r =>
          (Str.take_while Str.is_digit r, Str.drop_while Str.is_digit r)
      | _ => (EmptyString, s3)
      end in
    if String.eqb int_digits "" && String.eqb frac_digits "" then NaN
    else Finite (scale10 (digits_value 0 (int_digits ++ frac_digits))
                   (exponent_part s4 - Z.of_nat (String.length frac_digits))).
Proof.
  destruct c as [[] [] [] [] [] [] [] []]; intros H;
    first [reflexivity | vm_compute in H; discriminate].
Qed.

Lemma take_while_digits (digits rest : string) :
  Str.all_chars Str.is_digit digits = true ->
  Str.take_while Str.is_digit rest = "" ->
  Str.take_while Str.is_digit (digits ++ rest) = digits
  /\ Str.drop_while Str.is_digit (digits ++ rest) = Str.drop_while Str.is_digit rest.
Proof.
  intros D R. induction digits as [|c ds IH];
    cbn [String.append Str.take_while Str.drop_while Str.all_chars] in *.
  - split; [exact R | reflexivity].
  - apply andb_prop in D. destruct D as [Dc Dds]. rewrite Dc.
    destruct (IH Dds) as [T Dr]. split; [f_equal; exact T | exact Dr].
Qed.

Lemma drop_while_digits (digits : string) :
  Str.all_chars Str.is_digit digits = true ->
  Str.drop_while Str.is_digit digits = "".
Proof.
  induction digits as [|c ds IH]; cbn [Str.drop_while Str.all_chars];
    [reflexivity|]. intros D. apply andb_prop in D. destruct D as [Dc Dds].
  rewrite Dc. exact (IH Dds).
Qed.

Lemma take_while_all_digits (digits : string) :
  Str.all_chars Str.is_digit digits = true ->
  Str.take_while Str.is_digit digits = digits.
Proof.
  induction digits as [|c ds IH]; cbn [Str.take_while Str.all_chars];
    [reflexivity|]. intros D. apply andb_prop in D. destruct D as [Dc Dds].
  rewrite Dc. f_equal. exact (IH Dds).
Qed.

Lemma parseFloat_decimal (int_part frac_part : string) :
  int_part <> "" ->
  Str.all_chars Str.is_digit int_part = true ->
  Str.all_chars Str.is_digit frac_part = true ->
  parseFloat (int_part ++ String "."%char frac_part)
  = Finite (scale10 (digits_value 0 (int_part ++ frac_part))
              (- Z.of_nat (String.length frac_part))).
Proof.
  intros NE DI DF.
  destruct (take_while_digits int_part (String "."%char frac_part) DI eq_refl) as [T D].
  destruct int_part as [|c ds]; [congruence|].
  cbn [Str.all_chars] in DI. apply andb_prop in DI. destruct DI as [Dc _].
  cbn [String.append] in *. rewrite (parseFloat_digit_head _ _ Dc). cbv zeta.
  rewrite T, D. cbn [Str.drop_while]. change (Str.is_digit "."%char) with false.
  cbv iota.
  rewrite (take_while_all_digits _ DF), (drop_while_digits _ DF).
  cbn [String.eqb andb exponent_part Z.sub Z.opp]. reflexivity.
Qed.

Lemma remove_all_app (c : ascii) (a b : string) :
  Str.remove_all c (a ++ b) = (Str.remove_all c a ++ Str.remove_all c b)%string.
Proof.
  induction a as [|x a IH]; cbn [String.append Str.remove_all]; [reflexivity|].
  destruct (Ascii.eqb x c); cbn [String.append]; [exact IH | f_equal; exact IH].
Qed.

Lemma remove_all_digits (digits : string) :
  Str.all_chars Str.is_digit digits = true ->
  Str.remove_all "."%char digits = digits.
Proof.
  induction digits as [|c ds IH]; cbn [Str.remove_all Str.all_chars];
    [reflexivity|]. intros D. apply andb_prop in D. destruct D as [Dc Dds].
  rewrite (proj1 (digit_not_punct _ Dc)). f_equal. exact (IH Dds).
Qed.

Lemma replace_first_comma (digits rest : string) :
  Str.all_chars Str.is_digit digits = true ->
  Str.replace_first_char ","%char "."%char (digits ++ String ","%char rest)
  = (digits ++ String "."%char rest)%string.
Proof.
  induction digits as [|c ds IH];
    cbn [String.append Str.replace_first_char Str.all_chars]; [reflexivity|].
  intros D. apply andb_prop in D. destruct D as [Dc Dds].
  rewrite (proj2 (digit_not_punct _ Dc)). f_equal. exact (IH Dds).
Qed.

(** X6: an amount written as digits, any '.' among them, a comma and
    decimal digits reads as the number those digits write: the '.' are
    ignored wherever they stand and the comma is the decimal mark.  The
    value is [digits / 10^decimals]. *)
Theorem parse_valor_brazilian (int_text int_digits decimals : string) :
  Str.remove_all "."%char int_text = int_digits ->
  int_digits <> "" ->
  Str.all_chars Str.is_digit int_digits = true ->
  Str.all_chars Str.is_digit decimals = true ->
  parse_valor (int_text ++ "," ++ decimals)
  = Finite (scale10 (digits_value 0 (int_digits ++ decimals))
              (- Z.of_nat (String.length decimals))).
Proof.
  intros R NE DI DF. unfold parse_valor, normalize_valor.
  change (int_text ++ "," ++ decimals)%string
    with (int_text ++ String ","%char decimals)%string.
  rewrite remove_all_app, R. cbn [Str.remove_all].
  change (Ascii.eqb ","%char "."%char) with false. cbv iota.
  rewrite (remove_all_digits _ DF), (replace_first_comma _ _ DI).
  apply parseFloat_decimal; assumption.
Qed.

Lemma parse_valor_brazilian_witness :
  parse_valor ("1.234.567" ++ "," ++ "89") = Finite (123456789 # 100).
Proof.
  exact (parse_valor_brazilian "1.234.567" "1234567" "89"
           eq_refl ltac:(discriminate) eq_refl eq_refl).
Defined.

Lemma trim_blank (s : string) :
  Str.all_chars Str.is_space s = true -> Str.trim s = "".
Proof.
  intros B. unfold Str.trim.
  assert (D : Str.drop_while Str.is_space s = "").
  { induction s as [|c s IH]; cbn [Str.drop_while Str.all_chars] in *;
      [reflexivity|]. apply andb_prop in B. destruct B as [Bc Bs].
    rewrite Bc. exact (IH Bs). }
  rewrite D. reflexivity.
Qed.

(** X7: a row is returned as soon as it has a key, whatever its cells
    hold: no cell is validated.  In particular a row whose amount cell is
    blank is returned with valor NaN. *)
Theorem scrape_row_blank_amount (tr : Row) :
  extract_chave (download_href tr) <> "" ->
  (exists item, scrape_row tr = Some item
                /\ chave item = extract_chave (download_href tr))
  /\ (Str.all_chars Str.is_space (td_valor_text tr) = true ->
      exists item, scrape_row tr = Some item /\ valor item = NaN).
Proof.
  intros K. unfold scrape_row.
  destruct (String.eqb (extract_chave (download_href tr)) "") eqn:E.
  { apply String.eqb_eq in E. contradiction. }
  split; [eexists; split; reflexivity|].
  intros B. eexists. split; [reflexivity|].
  cbn [valor]. rewrite (trim_blank _ B). reflexivity.
Qed.

Lemma scrape_row_blank_amount_witness :
  exists item, scrape_row (Demo.row_of "101" "   ") = Some item /\ valor item = NaN.
Proof.
  exact (proj2 (scrape_row_blank_amount (Demo.row_of "101" "   ")
                  ltac:(vm_compute; discriminate)) eq_refl).
Defined.

(** **** The name of the recipient *)

Lemma remove_first_unfold (pat s : string) :
  Str.remove_first pat s
  = if Str.startsWith pat s then Str.drop (String.length pat) s
    else match s with
         | EmptyString => EmptyString
         | String a s' => String a (Str.remove_first pat s')
         end.
Proof. destruct s; reflexivity. Qed.

Lemma startsWith_prefix (p s : string) : Str.startsWith p (p ++ s) = true.
Proof.
  induction p as [|c p IH]; cbn [String.append Str.startsWith]; [reflexivity|].
  rewrite Ascii.eqb_refl. exact IH.
Qed.

Lemma drop_prefix (p s : string) : Str.drop (String.length p) (p ++ s) = s.
Proof. induction p as [|c p IH]; [reflexivity | exact IH]. Qed.

Lemma drop_while_none (p : ascii -> bool) (s : string) :
  match s with String c _ => p c = false | EmptyString => True end ->
  Str.drop_while p s = s.
Proof. destruct s as [|c s]; cbn [Str.drop_while]; [reflexivity | intros ->; reflexivity]. Qed.

Lemma drop_while_separator (sep rest : string) :
  Str.all_chars is_space_or_dash sep = true ->
  Str.drop_while is_space_or_dash (sep ++ rest) = Str.drop_while is_space_or_dash rest.
Proof.
  induction sep as [|c sep IH]; cbn [String.append Str.drop_while Str.all_chars];
    [reflexivity|]. intros A. apply andb_prop in A. destruct A as [Ac As].
  rewrite Ac. exact (IH As).
Qed.

Lemma trim_of_trimmed (s : string) : trimmed s = true -> Str.trim s = s.
Proof.
  unfold trimmed, Str.trim. intros T. apply andb_prop in T. destruct T as [T1 T2].
  apply negb_true_iff in T1, T2.
  rewrite (drop_while_none Str.is_space s)
    by (destruct s; [exact I | exact T1]).
  rewrite (drop_while_none Str.is_space (Str.rev s))
    by (destruct (Str.rev s); [exact I | exact T2]).
  apply rev_involutive.
Qed.

(** X18: when the recipient cell, an ASCII text, reads as the tax id, a
    separator of spaces and dashes, and the name (a text already trimmed
    and singly spaced, not starting with a dash), the name derived for the
    item is exactly that name: the tax id and the separator are removed
    and nothing else. *)
Theorem derive_nome_strips_cnpj (cnpj_v sep name : string) :
  AsciiText.ascii_text (cnpj_v ++ sep ++ name) = true ->
  cnpj_v <> "" ->
  Str.all_chars is_space_or_dash sep = true ->
  trimmed name = true ->
  Str.startsWith "-" name = false ->
  Str.trim (cnpj_v ++ sep ++ name) = (cnpj_v ++ sep ++ name)%string ->
  Str.collapse_spaces (cnpj_v ++ sep ++ name) = (cnpj_v ++ sep ++ name)%string ->
  derive_nome cnpj_v (cnpj_v ++ sep ++ name) = name.
Proof.
  intros _ NE S T D Tr Co. unfold derive_nome. rewrite Tr, Co.
  destruct (String.eqb cnpj_v "") eqn:E; [apply String.eqb_eq in E; contradiction|].
  rewrite remove_first_unfold, startsWith_prefix, drop_prefix.
  rewrite (drop_while_separator _ _ S).
  rewrite drop_while_none; [apply trim_of_trimmed; exact T|].
  destruct name as [|c name]; [exact I|].
  unfold trimmed in T. apply andb_prop in T. destruct T as [T1 _].
  apply negb_true_iff in T1. cbn [starts_with_space] in T1.
  cbn [Str.startsWith] in D. rewrite andb_true_r in D.
  unfold is_space_or_dash. rewrite T1. cbn [orb].
  rewrite Ascii.eqb_sym. exact D.
Qed.

Lemma derive_nome_strips_cnpj_witness :
  AsciiText.ascii_text ("12.345.678/0001-90" ++ " - " ++ "ACME LTDA") = true
  /\ derive_nome "12.345.678/0001-90" ("12.345.678/0001-90" ++ " - " ++ "ACME LTDA")
     = "ACME LTDA".
Proof.
  split; [reflexivity|].
  exact (derive_nome_strips_cnpj "12.345.678/0001-90" " - " "ACME LTDA"
           eq_refl ltac:(discriminate) eq_refl eq_refl eq_refl eq_refl eq_refl).
Defined.

End ScrapeMoreFacts.

(** *** The normalizer *)

Module NormalizerFacts.
Import Nested NestedMore NestedMoreFacts Normalizer DemoXml.

Lemma follow_wrapped (parts : list string) :
  forall v, wrapped v = true -> wrapped (follow parts v) = true.
Proof.
  induction parts as [|part rest IH]; intros v W; cbn [follow].
  - unfold or_null. destruct (nullish (first_element v)) eqn:N; [reflexivity|].
    destruct (nullish v) eqn:Nv.
    + destruct v; try discriminate; reflexivity.
    + destruct (NestedFacts.wrapped_unwrap v W Nv) as [E [_ W']].
      rewrite <- E. exact W'.
  - destruct (nullish v) eqn:Nv; [reflexivity|].
    destruct (NestedFacts.wrapped_unwrap v W Nv) as [E [N' W']].
    rewrite <- E, N'.
    destruct (NestedFacts.wrapped_get_prop (unwrap v) part W' N') as [x [G Wx]].
    unfold field. rewrite G. apply IH. exact Wx.
Qed.

(** on the trees of xml2js [getNested] returns, and what it returns is
    again such a tree *)
Lemma getNested_wrapped (tree : JsValue) (path : string) :
  wrapped tree = true ->
  exists v, getNested tree path = Ok v /\ wrapped v = true.
Proof.
  intros W. unfold getNested.
  destruct (negb (truthy tree)); [exists JNull; auto|].
  destruct (String.eqb path ""); [exists tree; auto|].
  rewrite (NestedFacts.walk_follow _ _ W).
  eexists; split; [reflexivity | apply follow_wrapped; exact W].
Qed.

Lemma bind_ok {A B : Type} (r : Res A) (k : A -> Res B) (b : B) :
  bind r k = Ok b -> exists a, r = Ok a /\ k a = Ok b.
Proof. destruct r as [a|e]; cbn [bind]; [eauto | discriminate]. Qed.

Lemma bind_throw {A B : Type} (r : Res A) (k : A -> Res B) (e : Exn) :
  bind r k = Throw e -> r = Throw e \/ exists a, r = Ok a /\ k a = Throw e.
Proof. destruct r as [a|e0]; cbn [bind]; [eauto | intros [= <-]; auto]. Qed.

(** one field read that went well *)
Ltac read_field H :=
  let v := fresh "v" in
  let E := fresh "E" in
  apply bind_ok in H; destruct H as [v [E H]].

Lemma format_main_ok (inf : JsValue) (xmlPath : string) (f : NfseDetail) :
  format_main inf xmlPath = Ok f ->
  Forall (fun v => v <> JUndefined) (main_leaves f)
  /\ dps f = None /\ xml_path f = xmlPath.
Proof.
  unfold format_main. intros H. repeat read_field H.
  injection H as <-. split; [|split; reflexivity].
  unfold main_leaves. cbn [cabecalho emitente valores Emitente.endereco].
  repeat (constructor; [eapply getNested_defined; eassumption|]). constructor.
Qed.

Lemma format_dps_ok (node : JsValue) (d : Dps.t) :
  format_dps node = Ok d -> Forall (fun v => v <> JUndefined) (dps_leaves d).
Proof.
  unfold format_dps. intros H. repeat read_field H.
  injection H as <-. unfold dps_leaves.
  repeat (constructor; [eapply getNested_defined; eassumption|]). constructor.
Qed.

(** the field read that threw, if any *)
Ltac thrown_field H :=
  repeat (apply bind_throw in H;
          destruct H as [H | [? [_ H]]]; [exact (getNested_throws _ _ _ H)|]).

Lemma format_main_throws (inf : JsValue) (xmlPath : string) (e : Exn) :
  format_main inf xmlPath = Throw e ->
  is_unauthenticated e = false /\ is_application e = false.
Proof. unfold format_main. intros H. thrown_field H. discriminate. Qed.

Lemma format_dps_throws (node : JsValue) (e : Exn) :
  format_dps node = Throw e ->
  is_unauthenticated e = false /\ is_application e = false.
Proof. unfold format_dps. intros H. thrown_field H. discriminate. Qed.

Lemma formatNfseResult_throws (xmlObj : JsValue) (xmlPath : string) (e : Exn) :
  formatNfseResult xmlObj xmlPath = Throw e ->
  is_unauthenticated e = false /\ is_application e = false.
Proof.
  unfold formatNfseResult. destruct (negb (truthy (root_node xmlObj))); [discriminate|].
  destruct (getNested xmlObj "NFSe.infNFSe") as [inf|e0] eqn:E0; cbn [bind];
    [|intros [= <-]; exact (getNested_throws _ _ _ E0)].
  destruct (format_main inf xmlPath) as [f|e1] eqn:E1; cbn [bind];
    [|intros [= <-]; exact (format_main_throws _ _ _ E1)].
  destruct (getNested inf "DPS.infDPS") as [node|e2] eqn:E2; cbn [bind];
    [|intros [= <-]; exact (getNested_throws _ _ _ E2)].
  destruct (truthy node); [|discriminate].
  destruct (format_dps node) as [d|e3] eqn:E3; cbn [bind]; [discriminate|].
  intros [= <-]. exact (format_dps_throws _ _ E3).
Qed.

Lemma formatNfseResult_path (xmlObj : JsValue) (xmlPath : string) (f : Formatted) :
  formatNfseResult xmlObj xmlPath = Ok f ->
  match f with
  | Detail d => xml_path d = xmlPath
  | RawDetail raw p => raw = xmlObj /\ p = xmlPath
  end.
Proof.
  unfold formatNfseResult. destruct (negb (truthy (root_node xmlObj))).
  { intros [= <-]. auto. }
  destruct (getNested xmlObj "NFSe.infNFSe") as [inf|] ; cbn [bind]; [|discriminate].
  destruct (format_main inf xmlPath) as [m|] eqn:E1; cbn [bind]; [|discriminate].
  destruct (format_main_ok _ _ _ E1) as [_ [_ P]].
  destruct (getNested inf "DPS.infDPS") as [node|]; cbn [bind]; [|discriminate].
  destruct (truthy node).
  - destruct (format_dps node) as [d|]; cbn [bind]; [|discriminate].
    intros [= <-]. exact P.
  - intros [= <-]. exact P.
Qed.

Lemma bind_returns {A B : Type} (r : Res A) (k : A -> Res B) (a : A) :
  r = Ok a -> (exists b, k a = Ok b) -> exists b, bind r k = Ok b.
Proof. intros -> H. exact H. Qed.

(** one field read on a tree of xml2js *)
Ltac wrapped_field :=
  match goal with
  | W : wrapped ?t = true |- exists _, bind (getNested ?t ?p) _ = Ok _ =>
      let v := fresh "v" in
      let E := fresh "E" in
      destruct (getNested_wrapped t p W) as [v [E _]];
      apply (bind_returns _ _ v E); clear E
  end.

Lemma format_main_wrapped (inf : JsValue) (xmlPath : string) :
  wrapped inf = true -> exists f, format_main inf xmlPath = Ok f.
Proof. intros W. unfold format_main. repeat wrapped_field. eauto. Qed.

Lemma format_dps_wrapped (node : JsValue) :
  wrapped node = true -> exists d, format_dps node = Ok d.
Proof. intros W. unfold format_dps. repeat wrapped_field. eauto. Qed.

(** X9: a document without the expected root is returned as it is, with
    the stored path, and nothing is thrown: this is so for every tree
    that is not an object, has no [NFSe] member, or whose [NFSe] object
    has no [infNFSe] member; and the raw shape is returned in no other
    case than a missing (or falsy) [NFSe.infNFSe]. *)
Theorem formatNfseResult_raw_fallback (xmlObj : JsValue) (xmlPath : string) :
  (is_object xmlObj = false ->
   formatNfseResult xmlObj xmlPath = Ok (RawDetail xmlObj xmlPath))
  /\ (forall fields, xmlObj = JObject fields -> assoc "NFSe" fields = None ->
      formatNfseResult xmlObj xmlPath = Ok (RawDetail xmlObj xmlPath))
  /\ (forall fields inner, xmlObj = JObject fields ->
      assoc "NFSe" fields = Some (JObject inner) -> assoc "infNFSe" inner = None ->
      formatNfseResult xmlObj xmlPath = Ok (RawDetail xmlObj xmlPath))
  /\ (forall raw p, formatNfseResult xmlObj xmlPath = Ok (RawDetail raw p) ->
      truthy (root_node xmlObj) = false /\ raw = xmlObj /\ p = xmlPath).
Proof.
  split; [|split; [|split]].
  - intros O. unfold formatNfseResult.
    replace (root_node xmlObj) with JUndefined; [reflexivity|].
    unfold root_node, optional. destruct xmlObj; try discriminate; reflexivity.
  - intros fields -> A. unfold formatNfseResult, root_node, optional.
    cbn [nullish get_prop]. rewrite A. reflexivity.
  - intros fields inner -> A B. unfold formatNfseResult, root_node, optional.
    cbn [nullish get_prop]. rewrite A. cbn [nullish get_prop]. rewrite B. reflexivity.
  - intros raw p H. pose proof (formatNfseResult_path _ _ _ H) as [-> ->].
    split; [|auto]. unfold formatNfseResult in H.
    destruct (truthy (root_node xmlObj)); [|reflexivity]. cbn [negb] in H.
    destruct (getNested xmlObj "NFSe.infNFSe") as [inf|]; cbn [bind] in H; [|discriminate].
    destruct (format_main inf xmlPath) as [m|]; cbn [bind] in H; [|discriminate].
    destruct (getNested inf "DPS.infDPS") as [node|]; cbn [bind] in H; [|discriminate].
    destruct (truthy node); [|discriminate].
    destruct (format_dps node); cbn [bind] in H; discriminate.
Qed.

Lemma formatNfseResult_raw_fallback_witness :
  formatNfseResult other_document "/storage/a.xml"
  = Ok (RawDetail other_document "/storage/a.xml").
Proof.
  exact (proj1 (proj2 (formatNfseResult_raw_fallback other_document "/storage/a.xml"))
           _ eq_refl eq_refl).
Defined.

(** X10: on a tree of the shape xml2js produces (every sequence starting
    with an element that is neither null nor absent) the normalizer
    returns and never throws; and whenever it returns a detail record,
    on any tree, the record carries the stored path it was given and none
    of its leaves is [undefined]: a field missing from the document is
    null. *)
Theorem formatNfseResult_total_and_defined (xmlObj : JsValue) (xmlPath : string) :
  (wrapped xmlObj = true -> exists f, formatNfseResult xmlObj xmlPath = Ok f)
  /\ (forall d, formatNfseResult xmlObj xmlPath = Ok (Detail d) ->
        xml_path d = xmlPath
        /\ Forall (fun v => v <> JUndefined) (leaves d)).
Proof.
  split.
  - intros W. unfold formatNfseResult.
    destruct (negb (truthy (root_node xmlObj))); [eauto|].
    destruct (getNested_wrapped xmlObj "NFSe.infNFSe" W) as [inf [-> Wi]]. cbn [bind].
    destruct (format_main_wrapped inf xmlPath Wi) as [m ->]. cbn [bind].
    destruct (getNested_wrapped inf "DPS.infDPS" Wi) as [node [-> Wn]]. cbn [bind].
    destruct (truthy node); [|eauto].
    destruct (format_dps_wrapped node Wn) as [d ->]. cbn [bind]. eauto.
  - intros d H. split; [exact (formatNfseResult_path _ _ _ H)|].
    unfold formatNfseResult in H.
    destruct (negb (truthy (root_node xmlObj))); [discriminate|].
    destruct (getNested xmlObj "NFSe.infNFSe") as [inf|]; cbn [bind] in H; [|discriminate].
    destruct (format_main inf xmlPath) as [m|] eqn:E1; cbn [bind] in H; [|discriminate].
    destruct (format_main_ok _ _ _ E1) as [L [D _]].
    destruct (getNested inf "DPS.infDPS") as [node|]; cbn [bind] in H; [|discriminate].
    destruct (truthy node).
    + destruct (format_dps node) as [dd|] eqn:E3; cbn [bind] in H; [|discriminate].
      injection H as <-. unfold leaves. cbn [dps with_dps].
      apply Forall_app. split; [exact L | exact (format_dps_ok _ _ E3)].
    + injection H as <-. unfold leaves. rewrite D, app_nil_r. exact L.
Qed.

Lemma formatNfseResult_total_and_defined_witness :
  wrapped small_nfse = true
  /\ exists f, formatNfseResult small_nfse "/storage/a.xml" = Ok f.
Proof.
  split; [reflexivity|].
  exact (proj1 (formatNfseResult_total_and_defined small_nfse "/storage/a.xml") eq_refl).
Defined.

(** X11: the guard looks at the [infNFSe] member, not at what is in it:
    when the member is there but the node read from it is falsy (an
    empty element, an empty list), the result is not the raw fallback but
    a detail record whose leaves are all null and whose [dps] is the
    empty object. *)
Theorem formatNfseResult_empty_node (xmlObj inf : JsValue) (xmlPath : string) :
  truthy (root_node xmlObj) = true ->
  getNested xmlObj "NFSe.infNFSe" = Ok inf ->
  truthy inf = false ->
  formatNfseResult xmlObj xmlPath = Ok (Detail (null_detail xmlPath)).
Proof.
  intros G E F. unfold formatNfseResult. rewrite G, E. cbn [negb bind].
  unfold format_main, getNested. rewrite F. cbn [negb bind truthy]. reflexivity.
Qed.

Lemma formatNfseResult_empty_node_witness :
  formatNfseResult empty_inf "/storage/a.xml" = Ok (Detail (null_detail "/storage/a.xml")).
Proof.
  exact (formatNfseResult_empty_node empty_inf (JString "") "/storage/a.xml"
           eq_refl eq_refl eq_refl).
Defined.

End NormalizerFacts.

(** *** The detail fetcher *)

Module FetcherFacts.
Import Http Nested Normalizer NormalizerFacts Fetcher.

Section Portal.

Variable World : Type.
Variable transport : Request -> World -> Transport * World.
Variable parseStringPromise : string -> XmlParsed.
Variable STORAGE_PATH : string.
Variable path_join : string -> string -> string.
Variable uuidv4 : World -> string * World.
Variable fs_writeFileSync : string -> string -> World -> option string * World.

Local Abbreviation store_file :=
  (store_file World STORAGE_PATH path_join uuidv4 fs_writeFileSync).
Local Abbreviation get_nfse_try :=
  (get_nfse_try World transport parseStringPromise STORAGE_PATH path_join uuidv4
     fs_writeFileSync).
Local Abbreviation get_nfse :=
  (get_nfse World transport parseStringPromise STORAGE_PATH path_join uuidv4
     fs_writeFileSync).
Local Abbreviation get_nfse_pdf_try :=
  (get_nfse_pdf_try World transport STORAGE_PATH path_join uuidv4 fs_writeFileSync).
Local Abbreviation get_nfse_pdf :=
  (get_nfse_pdf World transport STORAGE_PATH path_join uuidv4 fs_writeFileSync).

Lemma axios_get_throws (t : Transport) (e : Exn) :
  axios_get t = Throw e -> is_unauthenticated e = false.
Proof.
  unfold axios_get. destruct t as [m|response]; [intros [= <-]; reflexivity|].
  destruct (validateStatus (Http.status response)); [discriminate|].
  intros [= <-]. reflexivity.
Qed.

Lemma axios_get_ok (t : Transport) (response : Response) :
  axios_get t = Ok response ->
  t = Answer response /\ validateStatus (Http.status response) = true.
Proof.
  unfold axios_get. destruct t as [m|r]; [discriminate|].
  destruct (validateStatus (Http.status r)) eqn:V; [|discriminate].
  intros [= <-]. auto.
Qed.

Lemma store_file_throws body ext w e w' :
  store_file body ext w = (Throw e, w') -> is_unauthenticated e = false.
Proof.
  unfold Fetcher.store_file. destruct (uuidv4 w) as [u w1].
  destruct (fs_writeFileSync _ body w1) as [[m|] w2]; [|discriminate].
  intros [= <- _]. reflexivity.
Qed.

(** the exceptions of the [try] block of [get_nfse]: the only
    UnauthenticatedSessionException is the one of [checkAuthentication] *)
Lemma get_nfse_try_unauthenticated cookies key w e :
  fst (get_nfse_try cookies key w) = Throw e ->
  (is_unauthenticated e = true <->
   redirected (fst (transport (download_request (nfse_url key) (Str.join "; " cookies)) w))).
Proof.
  unfold Fetcher.get_nfse_try.
  destruct (transport _ w) as [t w1]. cbn [fst].
  destruct (axios_get t) as [response|e0] eqn:A.
  2:{ cbn [fst]. intros [= <-]. rewrite (axios_get_throws _ _ A).
      split; [discriminate|]. intros [r [-> [V _]]]. cbn in A. rewrite V in A. discriminate. }
  destruct (axios_get_ok _ _ A) as [-> V].
  unfold checkAuthentication. destruct (references_login response) eqn:R.
  { cbn [fst]. intros [= <-]. split; [intros _; exists response; auto | reflexivity]. }
  assert (N : ~ redirected (Answer response)).
  { intros [r [[= <-] [_ R']]]. congruence. }
  destruct (parseStringPromise (body response)) as [m|tree].
  { cbn [fst]. intros [= <-]. split; [discriminate | intros X; destruct (N X)]. }
  destruct (Fetcher.store_file _ _ _ _ _ (body response) ".xml" w1) as [[p|e1] w2] eqn:S;
    cbn [fst].
  - intros F. destruct (formatNfseResult_throws _ _ _ F) as [U _]. rewrite U.
    split; [discriminate | intros X; destruct (N X)].
  - intros [= <-]. rewrite (store_file_throws _ _ _ _ _ S).
    split; [discriminate | intros X; destruct (N X)].
Qed.

Lemma get_nfse_pdf_try_unauthenticated cookies key w e :
  fst (get_nfse_pdf_try cookies key w) = Throw e ->
  (is_unauthenticated e = true <->
   redirected (fst (transport (download_request (danfse_url key) (Str.join "; " cookies)) w))).
Proof.
  unfold Fetcher.get_nfse_pdf_try.
  destruct (transport _ w) as [t w1]. cbn [fst].
  destruct (axios_get t) as [response|e0] eqn:A.
  2:{ cbn [fst]. intros [= <-]. rewrite (axios_get_throws _ _ A).
      split; [discriminate|]. intros [r [-> [V _]]]. cbn in A. rewrite V in A. discriminate. }
  destruct (axios_get_ok _ _ A) as [-> V].
  unfold checkAuthentication. destruct (references_login response) eqn:R.
  { cbn [fst]. intros [= <-]. split; [intros _; exists response; auto | reflexivity]. }
  assert (N : ~ redirected (Answer response)).
  { intros [r [[= <-] [_ R']]]. congruence. }
  destruct (Fetcher.store_file _ _ _ _ _ (body response) ".pdf" w1) as [[p|e1] w2] eqn:S;
    cbn [fst]; [discriminate|].
  intros [= <-]. rewrite (store_file_throws _ _ _ _ _ S).
  split; [discriminate | intros X; destruct (N X)].
Qed.

Lemma rethrow_cases what key error :
  (is_unauthenticated error = true
   /\ rethrow what key error = UnauthenticatedSessionException)
  \/ (is_unauthenticated error = false
      /\ rethrow what key error
         = ApplicationException (what ++ key ++ ": " ++ error_message error)).
Proof.
  unfold rethrow. destruct error; cbn; auto.
Qed.

(** X12: [get_nfse] and [get_nfse_pdf] throw nothing but an
    UnauthenticatedSessionException or an ApplicationException that names
    the key and the cause ("Falha ao obter NFSe <key>: <cause>", "Falha ao
    obter PDF da NFSe <key>: <cause>"); and they throw the
    UnauthenticatedSessionException exactly when the request was answered,
    with a status in [200, 400), by a response that references the login
    path. *)
Theorem fetch_exceptions (cookies : list string) (key : string) (w : World) :
  (forall e, fst (get_nfse cookies key w) = Throw e ->
     (e = UnauthenticatedSessionException
      \/ exists cause, e = ApplicationException ("Falha ao obter NFSe " ++ key ++ ": " ++ cause))
     /\ (e = UnauthenticatedSessionException <->
         redirected (fst (transport (download_request (nfse_url key)
                                       (Str.join "; " cookies)) w))))
  /\ (forall e, fst (get_nfse_pdf cookies key w) = Throw e ->
     (e = UnauthenticatedSessionException
      \/ exists cause,
           e = ApplicationException ("Falha ao obter PDF da NFSe " ++ key ++ ": " ++ cause))
     /\ (e = UnauthenticatedSessionException <->
         redirected (fst (transport (download_request (danfse_url key)
                                       (Str.join "; " cookies)) w)))).
Proof.
  split; intros e.
  - unfold Fetcher.get_nfse.
    pose proof (get_nfse_try_unauthenticated cookies key w) as T.
    destruct (get_nfse_try cookies key w) as [[v|error] w1]; cbn [fst] in *;
      [discriminate|].
    intros [= <-]. specialize (T error eq_refl).
    destruct (rethrow_cases "Falha ao obter NFSe " key error) as [[U ->] | [U ->]].
    + split; [auto|]. split; [intros _; apply T; exact U | reflexivity].
    + split; [eauto|]. split; [discriminate|].
      intros X. apply T in X. congruence.
  - unfold Fetcher.get_nfse_pdf.
    pose proof (get_nfse_pdf_try_unauthenticated cookies key w) as T.
    destruct (get_nfse_pdf_try cookies key w) as [[v|error] w1]; cbn [fst] in *;
      [discriminate|].
    intros [= <-]. specialize (T error eq_refl).
    destruct (rethrow_cases "Falha ao obter PDF da NFSe " key error) as [[U ->] | [U ->]].
    + split; [auto|]. split; [intros _; apply T; exact U | reflexivity].
    + split; [eauto|]. split; [discriminate|].
      intros X. apply T in X. congruence.
Qed.

(** X13: when [get_nfse] returns, the request was answered with an
    accepted status by a response that does not reference the login path,
    the parser resolved on its body, and that body was written, unchanged,
    to STORAGE_PATH/<uuid>.xml: the path the result carries.  When the
    request fails, is redirected to the login page, or the parser rejects
    the body, [get_nfse] throws and nothing is written: the world is left
    as the request left it.  The parser resolving is all it takes: a body
    on which it resolves with null (as xml2js does on a blank body) is
    written like any other and comes back as the raw fallback
    {raw: null, xml_path}. *)
Theorem get_nfse_stores_what_it_parsed (cookies : list string) (key : string) (w : World) :
  let req := download_request (nfse_url key) (Str.join "; " cookies) in
  (forall f w', get_nfse cookies key w = (Ok f, w') ->
     exists response tree uuid w1 w2,
       transport req w = (Answer response, w1)
       /\ validateStatus (Http.status response) = true
       /\ references_login response = false
       /\ parseStringPromise (body response) = XmlTree tree
       /\ uuidv4 w1 = (uuid, w2)
       /\ fs_writeFileSync (path_join STORAGE_PATH (uuid ++ ".xml")) (body response) w2
          = (None, w')
       /\ formatNfseResult tree (path_join STORAGE_PATH (uuid ++ ".xml")) = Ok f
       /\ stored_path f = path_join STORAGE_PATH (uuid ++ ".xml"))
  /\ (forall t w1, transport req w = (t, w1) ->
        (forall response, axios_get t = Ok response ->
           references_login response = false ->
           exists m, parseStringPromise (body response) = XmlError m) ->
        exists e, get_nfse cookies key w = (Throw e, w1))
  /\ (forall response w1 uuid w2 w',
        transport req w = (Answer response, w1) ->
        validateStatus (Http.status response) = true ->
        references_login response = false ->
        parseStringPromise (body response) = XmlTree JNull ->
        uuidv4 w1 = (uuid, w2) ->
        fs_writeFileSync (path_join STORAGE_PATH (uuid ++ ".xml")) (body response) w2
        = (None, w') ->
        get_nfse cookies key w
        = (Ok (RawDetail JNull (path_join STORAGE_PATH (uuid ++ ".xml"))), w')).
Proof.
  intros req. split; [|split].
  - intros f w' H. unfold Fetcher.get_nfse, Fetcher.get_nfse_try in H. fold req in H.
    destruct (transport req w) as [t w1].
    destruct (axios_get t) as [response|e0] eqn:A; [|discriminate].
    destruct (axios_get_ok _ _ A) as [-> V].
    unfold checkAuthentication in H.
    destruct (references_login response) eqn:R; [discriminate|].
    destruct (parseStringPromise (body response)) as [m|tree] eqn:P; [discriminate|].
    unfold Fetcher.store_file in H. change (dotted ".xml") with ".xml" in H.
    destruct (uuidv4 w1) as [uuid w2] eqn:U.
    destruct (fs_writeFileSync _ (body response) w2) as [[m|] w3] eqn:Wr; [discriminate|].
    destruct (formatNfseResult tree _) as [v|e1] eqn:F; [|discriminate].
    injection H as <- <-.
    pose proof (formatNfseResult_path _ _ _ F) as Pth.
    exists response, tree, uuid, w1, w2.
    split; [reflexivity|]. split; [exact V|]. split; [exact R|].
    split; [exact P|]. split; [exact U|]. split; [exact Wr|].
    split; [exact F|].
    destruct v as [d | raw p]; [exact Pth | exact (proj2 Pth)].
  - intros t w1 T NoXml. unfold Fetcher.get_nfse, Fetcher.get_nfse_try. fold req.
    rewrite T. destruct (axios_get t) as [response|e0] eqn:A; [|eauto].
    unfold checkAuthentication. destruct (references_login response) eqn:R; [eauto|].
    destruct (NoXml response eq_refl R) as [m ->]. eauto.
  - intros response w1 uuid w2 w' T V R P U Wr.
    unfold Fetcher.get_nfse, Fetcher.get_nfse_try. fold req.
    rewrite T. cbn [axios_get]. rewrite V. unfold checkAuthentication. rewrite R, P.
    unfold Fetcher.store_file. change (dotted ".xml") with ".xml".
    rewrite U, Wr. reflexivity.
Qed.

(** X14: [get_nfse_pdf] returns exactly when the request was answered
    with an accepted status by a response that does not reference the
    login path and the file could be written; what it returns is
    STORAGE_PATH/<uuid>.pdf, where the body was written unchanged. *)
Theorem get_nfse_pdf_returns (cookies : list string) (key : string) (w : World)
    (path : string) (w' : World) :
  get_nfse_pdf cookies key w = (Ok path, w') <->
  exists response uuid w1 w2,
    transport (download_request (danfse_url key) (Str.join "; " cookies)) w
    = (Answer response, w1)
    /\ validateStatus (Http.status response) = true
    /\ references_login response = false
    /\ uuidv4 w1 = (uuid, w2)
    /\ path = path_join STORAGE_PATH (uuid ++ ".pdf")
    /\ fs_writeFileSync path (body response) w2 = (None, w').
Proof.
  unfold Fetcher.get_nfse_pdf, Fetcher.get_nfse_pdf_try. split.
  - destruct (transport _ w) as [t w1].
    destruct (axios_get t) as [response|e0] eqn:A; [|discriminate].
    destruct (axios_get_ok _ _ A) as [-> V].
    unfold checkAuthentication.
    destruct (references_login response) eqn:R; [discriminate|].
    unfold Fetcher.store_file. change (dotted ".pdf") with ".pdf".
    destruct (uuidv4 w1) as [uuid w2] eqn:U.
    destruct (fs_writeFileSync _ (body response) w2) as [[m|] w3] eqn:Wr; [discriminate|].
    intros [= <- <-]. exists response, uuid, w1, w2.
    split; [reflexivity|]. split; [exact V|]. split; [exact R|].
    split; [exact U|]. split; [reflexivity | exact Wr].
  - intros [response [uuid [w1 [w2 [T [V [R [U [-> Wr]]]]]]]]].
    rewrite T. cbn [axios_get]. rewrite V. unfold checkAuthentication. rewrite R.
    unfold Fetcher.store_file. change (dotted ".pdf") with ".pdf".
    rewrite U, Wr. reflexivity.
Qed.

End Portal.

End FetcherFacts.

Module FetcherExamples.
Import Http Nested Normalizer Fetcher FetcherFacts DemoFetch.

Lemma get_nfse_stores_what_it_parsed_witness :
  (exists f,
     get_nfse ["sid=1"] "101" [Demo.page "<NFSe>small</NFSe>"] = (Ok f, [])
     /\ stored_path f = "/app/storage/3f2c7d2e-0000-4000-8000-000000000001.xml")
  /\ get_nfse ["sid=1"] "101" [Demo.page " "]
     = (Ok (RawDetail JNull "/app/storage/3f2c7d2e-0000-4000-8000-000000000001.xml"), []).
Proof.
  split.
  - destruct (get_nfse ["sid=1"] "101" [Demo.page "<NFSe>small</NFSe>"]) as [r w'] eqn:E.
    assert (R : exists f, r = Ok f /\ w' = []).
    { vm_compute in E. injection E as <- <-. eexists. split; reflexivity. }
    destruct R as [f [-> ->]]. exists f. split; [reflexivity|].
    destruct (proj1 (get_nfse_stores_what_it_parsed Demo.World Demo.transport
                       parseStringPromise STORAGE_PATH path_join uuidv4 fs_writeFileSync
                       ["sid=1"] "101" [Demo.page "<NFSe>small</NFSe>"]) f [] E)
      as [response [tree [uuid [w1 [w2 [_ [_ [_ [_ [U [_ [_ S]]]]]]]]]]]].
    rewrite S. injection U as <- _. reflexivity.
  - exact (proj2 (proj2 (get_nfse_stores_what_it_parsed Demo.World Demo.transport
                           parseStringPromise STORAGE_PATH path_join uuidv4
                           fs_writeFileSync ["sid=1"] "101" [Demo.page " "]))
             _ _ _ _ _ eq_refl eq_refl eq_refl eq_refl eq_refl eq_refl).
Defined.

Lemma fetch_exceptions_witness :
  fst (get_nfse ["sid=1"] "101" [Demo.to_login]) = Throw UnauthenticatedSessionException
  /\ redirected (fst (Demo.transport (download_request (nfse_url "101") "sid=1")
                        [Demo.to_login])).
Proof.
  assert (E : fst (get_nfse ["sid=1"] "101" [Demo.to_login])
              = Throw UnauthenticatedSessionException) by reflexivity.
  split; [exact E|].
  exact (proj1 (proj2 (proj1 (fetch_exceptions Demo.World Demo.transport
                                parseStringPromise STORAGE_PATH path_join uuidv4
                                fs_writeFileSync ["sid=1"] "101" [Demo.to_login])
                         _ E)) eq_refl).
Defined.

Lemma get_nfse_pdf_returns_witness :
  get_nfse_pdf ["sid=1"] "101" [Demo.page "%PDF-1.7"]
  = (Ok "/app/storage/3f2c7d2e-0000-4000-8000-000000000001.pdf", []).
Proof.
  apply (proj2 (get_nfse_pdf_returns Demo.World Demo.transport STORAGE_PATH path_join
                  uuidv4 fs_writeFileSync ["sid=1"] "101" [Demo.page "%PDF-1.7"] _ [])).
  do 4 eexists. repeat split; reflexivity.
Defined.

End FetcherExamples.

(** *** More on the session wrapper *)

Module WrapperMoreFacts.
Import Http Auth Wrapper WrapperFacts.

Section Server.

Variable World : Type.
Variable transport : Request -> World -> Transport * World.
Variable CERT_PASSWORD : option string.
Variable CERT_FILE : option string.
Variable dirname : string.
Variable path_resolve : string -> string -> string.
Variable fs_existsSync : string -> World -> bool.
Variable fs_readFileSync : string -> World -> Res string.

Local Abbreviation Server := (Server World).
Local Abbreviation ensureAuthenticated :=
  (ensureAuthenticated World transport CERT_PASSWORD CERT_FILE dirname
     path_resolve fs_existsSync fs_readFileSync).
Local Abbreviation withAutoLogin :=
  (withAutoLogin World transport CERT_PASSWORD CERT_FILE dirname
     path_resolve fs_existsSync fs_readFileSync).
Local Abbreviation record := (record World).
Local Abbreviation pfxPath := (path_resolve dirname (value CERT_FILE)).

Lemma ensureAuthenticated_returns (st st' : Server) (cookies : list string) :
  ensureAuthenticated st = (Ok cookies, st') ->
  cachedCookies st' = Some cookies
  /\ match cachedCookies st with
     | Some cached => cookies = cached /\ st' = record CallEnsure st
     | None => cookies <> []
     end.
Proof.
  unfold Wrapper.ensureAuthenticated. server_state.
  destruct (cachedCookies st) as [c0|] eqn:C.
  { intros [= <- <-]. server_state. auto. }
  destruct (missing CERT_PASSWORD); [discriminate|].
  destruct (missing CERT_FILE); [discriminate|].
  destruct (negb (fs_existsSync pfxPath (world st))); [discriminate|].
  destruct (fs_readFileSync pfxPath (world st)) as [buf|e]; [|discriminate].
  destruct (login World transport buf (value CERT_PASSWORD) (world st)) as [[c|e] w1];
    [|discriminate].
  destruct c as [|x c]; [discriminate|].
  cbn. intros [= <- <-]. server_state. split; [reflexivity | discriminate].
Qed.

(** X15: a session that [ensureAuthenticated] returns is the one the
    cache holds afterwards.  When the cache held a session it is returned
    as it is, with no login and the world untouched; otherwise the session
    comes from a login and is not empty. *)
Theorem ensureAuthenticated_returns_the_cache
    (st st' : Server) (cookies : list string) :
  ensureAuthenticated st = (Ok cookies, st') ->
  cachedCookies st' = Some cookies
  /\ (forall cached, cachedCookies st = Some cached ->
        cookies = cached /\ world st' = world st
        /\ calls st' = (calls st ++ [CallEnsure])%list)
  /\ (cachedCookies st = None -> cookies <> []).
Proof.
  intros H. destruct (ensureAuthenticated_returns _ _ _ H) as [C M].
  split; [exact C|]. split.
  - intros cached E. rewrite E in M. destruct M as [-> ->]. auto.
  - intros E. rewrite E in M. exact M.
Qed.

Section Action.

Variable T : Type.
Variable action : list string -> World -> Res T * World.

(** X16: when [withAutoLogin] gives the value of the action, the session
    that the successful attempt used is the one left in the cache, and
    that attempt is the last call made. *)
Theorem withAutoLogin_caches_the_working_session (st st' : Server) (v : T) :
  withAutoLogin T action st = (Ok v, st') ->
  exists cookies before,
    cachedCookies st' = Some cookies
    /\ calls st' = (before ++ [CallAction cookies])%list.
Proof.
  unfold Wrapper.withAutoLogin.
  destruct (ensureAuthenticated st) as [[c1|e] st1] eqn:E1; [|discriminate].
  destruct (ensureAuthenticated_returns _ _ _ E1) as [C1 _].
  unfold Wrapper.attempt. server_state.
  destruct (action c1 (world st1)) as [[v1|error] w1].
  { intros [= <- <-]. exists c1, (calls st1). server_state. auto. }
  destruct (is_unauthenticated error); [|discriminate].
  destruct (ensureAuthenticated (set_cache World None _)) as [[c2|e] st4] eqn:E2;
    [|discriminate].
  destruct (ensureAuthenticated_returns _ _ _ E2) as [C2 _].
  destruct (action c2 (world st4)) as [[v2|error2] w2]; [|discriminate].
  intros [= <- <-]. exists c2, (calls st4). server_state. auto.
Qed.

End Action.

End Server.

End WrapperMoreFacts.

Module WrapperMoreExamples.
Import Http Auth Wrapper WrapperMoreFacts DemoServer.

Lemma ensureAuthenticated_returns_the_cache_witness :
  fst (ensureAuthenticated (start [to_dashboard (Some ["sid=1"])])) = Ok ["sid=1"]
  /\ cachedCookies (snd (ensureAuthenticated (start [to_dashboard (Some ["sid=1"])])))
     = Some ["sid=1"].
Proof.
  split; [reflexivity|].
  exact (proj1 (ensureAuthenticated_returns_the_cache Demo.World Demo.transport
                  CERT_PASSWORD CERT_FILE dirname path_resolve fs_existsSync
                  fs_readFileSync (start [to_dashboard (Some ["sid=1"])]) _ ["sid=1"]
                  eq_refl)).
Defined.

Lemma withAutoLogin_caches_the_working_session_witness :
  exists cookies before,
    cachedCookies (snd (withAutoLogin _ (buscar_action Demo.jan_1 Demo.jan_1_noon) expiring))
    = Some cookies
    /\ calls (snd (withAutoLogin _ (buscar_action Demo.jan_1 Demo.jan_1_noon) expiring))
       = (before ++ [CallAction cookies])%list.
Proof.
  exact (withAutoLogin_caches_the_working_session Demo.World Demo.transport
           CERT_PASSWORD CERT_FILE dirname path_resolve fs_existsSync fs_readFileSync
           _ (buscar_action Demo.jan_1 Demo.jan_1_noon) expiring _
           [Demo.item_of "201" 1] ltac:(vm_compute; reflexivity)).
Defined.

End WrapperMoreExamples.

(** *** The dates sent to the portal *)

Module FormatDateFacts.
Import Dates DatesMore.

Lemma civil_month_day (z : Z) :
  1 <= snd (fst (civil z)) <= 12 /\ 1 <= snd (civil z) <= 31.
Proof.
  unfold civil. cbv zeta. cbn [fst snd].
  set (z' := z + 719468). set (era := z' / 146097).
  set (doe := z' - era * 146097).
  assert (Hdoe : 0 <= doe <= 146096) by (subst doe era; Z.div_mod_to_equations; lia).
  clearbody doe. clear z' era.
  set (yoe := (doe - doe / 1460 + doe / 36524 - doe / 146096) / 365).
  assert (Hyoe : 0 <= yoe <= 399) by (subst yoe; Z.div_mod_to_equations; lia).
  set (doy := doe - (365 * yoe + yoe / 4 - yoe / 100)).
  assert (Hdoy : 0 <= doy <= 365) by (subst doy yoe; Z.div_mod_to_equations; lia).
  clearbody doy.
  set (mp := (5 * doy + 2) / 153).
  assert (Hmp : 0 <= mp <= 11) by (subst mp; Z.div_mod_to_equations; lia).
  destruct (mp <? 10) eqn:E; [apply Z.ltb_lt in E | apply Z.ltb_ge in E];
    (split; [lia|]); subst mp; Z.div_mod_to_equations; lia.
Qed.

(** from 1970-01-01 to 9600-02-29 the year has four digits *)
Lemma civil_year (z : Z) :
  0 <= z < 2786860 -> 1000 <= fst (fst (civil z)) <= 9999.
Proof.
  intros H. unfold civil. cbv zeta. cbn [fst snd].
  set (z' := z + 719468). set (era := z' / 146097).
  assert (Hera : 4 <= era <= 23) by (subst era z'; Z.div_mod_to_equations; lia).
  set (doe := z' - era * 146097).
  assert (Hdoe : 0 <= doe <= 146096) by (subst doe era; Z.div_mod_to_equations; lia).
  clearbody doe. clearbody era. clear z'.
  set (yoe := (doe - doe / 1460 + doe / 36524 - doe / 146096) / 365).
  assert (Hyoe : 0 <= yoe <= 399) by (subst yoe; Z.div_mod_to_equations; lia).
  clearbody yoe.
  destruct (_ <=? 2); lia.
Qed.

Lemma length_append (a b : string) :
  String.length (a ++ b) = (String.length a + String.length b)%nat.
Proof. induction a as [|c a IH]; cbn; [reflexivity | f_equal; exact IH]. Qed.

Lemma padStart2_two_digits (n : Z) :
  1 <= n <= 31 -> two_digits (padStart2 (String_ n)) = true.
Proof.
  intros H.
  assert (A : forallb (fun k => two_digits (padStart2 (String_ (Z.of_nat k)))) (seq 1 31)
              = true) by (vm_compute; reflexivity).
  rewrite forallb_forall in A.
  specialize (A (Z.to_nat n)). rewrite Z2Nat.id in A by lia.
  apply A. apply in_seq. lia.
Qed.

Lemma year_four_digits (n : Z) :
  1000 <= n <= 9999 -> four_digits (String_ n) = true.
Proof.
  intros H.
  assert (A : forallb (fun k => four_digits (String_ (1000 + Z.of_nat k)))
                (seq 0 (Z.to_nat 9000)) = true) by (vm_compute; reflexivity).
  rewrite forallb_forall in A.
  specialize (A (Z.to_nat (n - 1000))). rewrite Z2Nat.id in A by lia.
  replace (1000 + (n - 1000)) with n in A by lia.
  apply A. apply in_seq. lia.
Qed.

(** X17: for every date from 1970-01-01 to the year 9599, [formatDate]
    gives ten characters of the form DD/MM/YYYY: two digits, a slash, two
    digits, a slash, four digits.  The text depends on the calendar day
    of the date only, not on its time of day. *)
Theorem formatDate_shape (date : Date) :
  0 <= dayOf date < 2786860 ->
  (exists dd mm yyyy,
      formatDate date = (dd ++ "/" ++ mm ++ "/" ++ yyyy)%string
      /\ two_digits dd = true /\ two_digits mm = true /\ four_digits yyyy = true)
  /\ String.length (formatDate date) = 10%nat
  /\ forall other, dayOf other = dayOf date -> formatDate other = formatDate date.
Proof.
  intros H.
  pose proof (civil_month_day (dayOf date)) as [Hm Hd].
  pose proof (civil_year (dayOf date) H) as Hy.
  pose proof (padStart2_two_digits _ Hd) as Dd.
  assert (Hm' : 1 <= snd (fst (civil (dayOf date))) <= 31) by lia.
  pose proof (padStart2_two_digits _ Hm') as Dm.
  pose proof (year_four_digits _ Hy) as Dy.
  assert (E : formatDate date
              = (padStart2 (String_ (getDate date)) ++ "/"
                 ++ padStart2 (String_ (month1 date)) ++ "/"
                 ++ String_ (getFullYear date))%string) by reflexivity.
  split; [|split].
  - do 3 eexists. split; [exact E|]. auto.
  - rewrite E. unfold getDate, month1, getFullYear.
    unfold two_digits, four_digits in *.
    apply andb_prop in Dd, Dm, Dy. destruct Dd as [Ld _], Dm as [Lm _], Dy as [Ly _].
    apply Nat.eqb_eq in Ld, Lm, Ly.
    rewrite !length_append, Ld, Lm, Ly. reflexivity.
  - intros other O. unfold formatDate, getDate, month1, getFullYear. rewrite O.
    reflexivity.
Qed.

Lemma formatDate_shape_witness :
  formatDate Demo.mar_31_night = ("31" ++ "/" ++ "03" ++ "/" ++ "1970")%string
  /\ String.length (formatDate Demo.mar_31_night) = 10%nat.
Proof.
  split; [reflexivity|].
  exact (proj1 (proj2 (formatDate_shape Demo.mar_31_night
                         ltac:(vm_compute; split; [discriminate | reflexivity])))).
Defined.

End FormatDateFacts.
